(** * expo-resolver: build-time resolution policy and runtime interception

    A shallow embedding of the two engines of the repository:
    - the bundler-resolution layer ([metro-web-compat/src/resolver.js] and
      its improved variant, [pattern-detector.js],
      [improved-pattern-detector.js], [utils/platform-detector.js],
      [mappings/built-in-mappings.js]);
    - the runtime interception layer ([runtime-resolver/src/runtime-resolver.js],
      [proxy-wrapper.js], [fallback-manager.js], [platform-detector.js],
      [wrapper-generator.js], [logger.js]).

    Conventions of the embedding.
    - A JavaScript object literal used as a lookup table (mapping tiers,
      fallback tables, configurations) is a finite map over its own
      string keys; an identifier, a dotted path, a method name or a
      property name that the literal does not have finds the member of
      [Object.prototype] of that name, when there is one.
    - [throw]/[try]/[catch] are an explicit result type.  In the
      bundler-resolution layer a thrown value is an [Error] object; in
      the interception layer, where the application throws, it is any
      value.
    - Calls that leave the library (the delegate Metro resolver, callbacks
      supplied by the application) are recorded in a trace, so that "is
      delegated with", "is called exactly once" are statements about the
      trace.
    - The log lines are left out of the resolvers and wrappers, except
      where building one reads a property or converts a value of the
      application, which can throw; the logger is modelled on its
      own. *)

From Stdlib Require Import String Ascii List ZArith Bool Lia.
From stdpp Require Import base option list strings gmap.
Import ListNotations.

Local Open Scope string_scope.
Local Open Scope list_scope.

(** ** String primitives of the host language *)

Module JsString.

(** [s.startsWith(p)] *)
Fixpoint startsWith (s p : string) : bool :=
  match p with
  | EmptyString => true
  | String c p' =>
      match s with
      | EmptyString => false
      | String d s' => Ascii.eqb c d && startsWith s' p'
      end
  end.

(** [s.includes(p)] *)
Fixpoint includes (s p : string) : bool :=
  startsWith s p ||
  match s with
  | EmptyString => false
  | String _ s' => includes s' p
  end.

(** [s.endsWith(p)] *)
Fixpoint endsWith (s p : string) : bool :=
  String.eqb s p ||
  match s with
  | EmptyString => false
  | String _ s' => endsWith s' p
  end.

Definition lowerChar (c : ascii) : ascii :=
  let n := nat_of_ascii c in
  if (65 <=? n)%nat && (n <=? 90)%nat then ascii_of_nat (n + 32) else c.

Definition upperChar (c : ascii) : ascii :=
  let n := nat_of_ascii c in
  if (97 <=? n)%nat && (n <=? 122)%nat then ascii_of_nat (n - 32) else c.

(** [s.toLowerCase()] on identifiers (ASCII) *)
Fixpoint toLowerCase (s : string) : string :=
  match s with
  | EmptyString => EmptyString
  | String c s' => String (lowerChar c) (toLowerCase s')
  end.

(** [s[i]]: [None] stands for [undefined] *)
Definition charAt (s : string) (i : nat) : option ascii := String.get i s.

(** [/p/i.test(s)] for a literal pattern [p] written in lower case *)
Definition testIgnoreCase (p s : string) : bool := includes (toLowerCase s) p.

(** [/^p/i.test(s)] for a literal pattern [p] written in lower case *)
Definition testPrefixIgnoreCase (p s : string) : bool :=
  startsWith (toLowerCase s) p.

(** [s] between double quotes *)
Definition quoted (s : string) : string :=
  String "034"%char (s ++ String "034"%char EmptyString).

(** [xs.includes(x)] on an array of strings *)
Definition arrayIncludes (xs : list string) (x : string) : bool :=
  existsb (String.eqb x) xs.

(** The part of [s] before the first ['.'] and the part after it:
    [s.split('.')[0]] and [s.split('.').slice(1).join('.')]. *)
Fixpoint splitFirstDot (s : string) : string * string :=
  match s with
  | EmptyString => (EmptyString, EmptyString)
  | String c s' =>
      if Ascii.eqb c "."%char then (EmptyString, s')
      else let '(a, b) := splitFirstDot s' in (String c a, b)
  end.

(** The property names that every ordinary object, an object literal
    among them, inherits from [Object.prototype]. *)
Definition objectPrototypeMembers : list string :=
  [ "constructor"; "hasOwnProperty"; "isPrototypeOf";
    "propertyIsEnumerable"; "toLocaleString"; "toString"; "valueOf";
    "__proto__"; "__defineGetter__"; "__defineSetter__";
    "__lookupGetter__"; "__lookupSetter__" ].

(** The regular expressions of the sources are literal patterns of five
    shapes. *)
Inductive pattern : Type :=
| Prefix (p : string)                (* /^p/ *)
| PrefixNotFollowed (p q : string)   (* /^p(?!q)/ *)
| Contains (p : string)              (* /p/ *)
| Exact (p : string)                 (* /^p$/ *)
| Suffix (p : string)                (* /p$/ *)
| SuffixOptionalS (p : string).      (* /ps?$/ *)

(** [r.test(s)] *)
Definition test (r : pattern) (s : string) : bool :=
  match r with
  | Prefix p => startsWith s p
  | PrefixNotFollowed p q => startsWith s p && negb (startsWith s (p ++ q))
  | Contains p => includes s p
  | Exact p => String.eqb s p
  | Suffix p => endsWith s p
  | SuffixOptionalS p => endsWith s p || endsWith s (p ++ "s")
  end.

End JsString.

(** ** Exceptions and the trace of outgoing calls *)

Module Js.

(** An [Error] object. *)
Inductive error : Type := Error (name message : string).

(** How a piece of code ends: it returns a value or it throws one; [X]
    is the type of what can be thrown. *)
Inductive completion (X A : Type) : Type :=
| Return (a : A)
| Throw (e : X).
Arguments Return {X A} a.
Arguments Throw {X A} e.

(** In the bundler-resolution layer the thrown values are the [Error]
    objects of the bundler, of the mock generator and of the resolvers
    themselves. *)
Definition outcome (A : Type) : Type := completion error A.

Section Traced.
(** [E] is the type of recorded events. *)
Context {E X : Type}.

Definition computation (A : Type) : Type := list E * completion X A.

Definition ret {A} (a : A) : computation A := ([], Return a).
Definition throw {A} (e : X) : computation A := ([], Throw e).
Definition emit {A} (ev : E) (o : completion X A) : computation A := ([ev], o).

Definition bind {A B} (m : computation A) (k : A -> computation B)
    : computation B :=
  match m with
  | (t, Return a) => let '(t', r) := k a in (t ++ t', r)
  | (t, Throw e) => (t, Throw e)
  end.

(** [try { m } catch (e) { h e }] *)
Definition try_catch {A} (m : computation A) (h : X -> computation A)
    : computation A :=
  match m with
  | (t, Return a) => (t, Return a)
  | (t, Throw e) => let '(t', r) := h e in (t ++ t', r)
  end.

Definition events {A} (m : computation A) : list E := fst m.
Definition result {A} (m : computation A) : completion X A := snd m.
End Traced.
Arguments computation E X A : clear implicits.

Definition traced (E A : Type) : Type := computation E error A.

End Js.

Notation "'let*' x ':=' m 'in' k" := (Js.bind m (fun x => k))
  (at level 10, x name, m at level 100, k at level 200).

(** ** Identifier classification *)

Module Classifier.
Import JsString.

(** *** pattern-detector.js *)

Definition MOBILE_PATTERNS : list pattern :=
  [ PrefixNotFollowed "react-native-" "web";
    PrefixNotFollowed "expo-" "web";
    Prefix "@react-native-";
    PrefixNotFollowed "@expo/" "web";
    Contains "native-base";
    Contains "react-navigation";
    Prefix "@react-navigation/";
    Exact "react-native";
    Prefix "@react-native-community/";
    Prefix "react-native-reanimated";
    Prefix "react-native-gesture-handler";
    Prefix "react-native-svg";
    Prefix "react-native-vector-icons";
    Prefix "react-native-maps";
    Prefix "react-native-camera";
    Prefix "react-native-image-picker";
    Prefix "react-native-permissions";
    Prefix "react-native-share";
    Prefix "react-native-device-info";
    Prefix "react-native-keychain";
    Prefix "react-native-biometrics";
    Prefix "react-native-sensors";
    Prefix "react-native-bluetooth";
    Prefix "react-native-nfc";
    Prefix "react-native-haptic";
    Prefix "react-native-sound";
    Prefix "react-native-video";
    Prefix "react-native-webview";
    Prefix "react-native-sqlite";
    Prefix "react-native-fs";
    Prefix "react-native-contacts";
    Prefix "react-native-calendar";
    Prefix "react-native-push-notification";
    Prefix "react-native-linear-gradient";
    Prefix "react-native-background";
    Prefix "react-native-geolocation";
    Prefix "react-native-orientation";
    Prefix "react-native-splash-screen";
    Prefix "react-native-status-bar";
    Prefix "react-native-picker";
    Prefix "react-native-modal";
    Prefix "react-native-actionsheet";
    Prefix "react-native-swiper";
    Prefix "react-native-tab-view";
    Prefix "react-native-paper";
    Prefix "react-native-elements";
    Prefix "react-native-ui-lib";
    Prefix "react-native-super-grid";
    Prefix "react-native-fast-image";
    Prefix "react-native-image-crop-picker";
    Prefix "react-native-document-picker";
    Prefix "react-native-file-picker";
    Prefix "react-native-qrcode";
    Prefix "react-native-barcode";
    Prefix "react-native-vision-camera";
    Prefix "react-native-ml-kit";
    Prefix "react-native-face-detection";
    Prefix "react-native-text-recognition" ].

Definition WEB_COMPATIBLE_PATTERNS : list pattern :=
  [ Prefix "react-native-web"; Prefix "expo-web"; Prefix "@expo/web";
    Prefix "react-native-web-" ].

Definition isMobileSpecificModule (moduleName : string) : bool :=
  if existsb (fun r => test r moduleName) WEB_COMPATIBLE_PATTERNS then false
  else existsb (fun r => test r moduleName) MOBILE_PATTERNS.

(** *** improved-pattern-detector.js *)

Definition WEB_COMPATIBLE_LIBRARIES : list string :=
  [ "react-navigation"; "@react-navigation/native"; "@react-navigation/stack";
    "@react-navigation/bottom-tabs"; "@react-navigation/drawer";
    "react-native-paper"; "react-native-elements";
    "react-native-vector-icons"; "react-native-svg";
    "react-native-reanimated"; "react-native-gesture-handler";
    "react-native-linear-gradient"; "react-native-webview";
    "react-native-modal"; "react-native-super-grid";
    "react-native-tab-view"; "react-native-pager-view";
    "react-native-safe-area-context"; "react-native-screens";
    "react-hook-form"; "@hookform/resolvers"; "react-native-web";
    "expo-web"; "@expo/web" ].

(** Every entry [/p/i]; the patterns are written in lower case. *)
Definition NATIVE_ONLY_PATTERNS : list string :=
  [ "camera"; "biometric"; "fingerprint"; "face-id"; "touch-id";
    "bluetooth"; "nfc"; "sensor"; "haptic"; "vibrat";
    "background-job"; "push-notification"; "contacts"; "calendar";
    "keychain"; "secure-store"; "file-system"; "document-picker";
    "image-picker"; "image-crop"; "media-library"; "photo"; "video";
    "sound"; "audio"; "speech"; "voice"; "ml-kit"; "vision";
    "face-detection"; "text-recognition"; "barcode"; "qrcode";
    "device-info"; "device-id"; "unique-id"; "battery"; "network-info";
    "cellular"; "wifi";
    "share"; "intent"; "app-state"; "permissions"; "location";
    "geolocation"; "maps"; "navigation"; "orientation"; "status-bar";
    "splash-screen";
    "async-storage"; "sqlite"; "realm"; "mmkv" ].

Definition hasNativeOnlyPatterns (moduleName : string) : bool :=
  existsb (fun p => testIgnoreCase p moduleName) NATIVE_ONLY_PATTERNS.

(** The fields of a [package.json] that the detector reads.  A field that
    is absent is [None] (or [false] for the two fields only tested for
    truthiness). *)
Record PackageJson : Type := {
  keywords : option (list string);
  browser : bool;
  reactNativeWebField : bool;
  files : option (list string);
  peerDependencies : option (gmap string string)
}.

(** The file system as the detector sees it: [readPackageJson m] is the
    parsed [m/package.json], [None] when resolving, reading or parsing
    throws; [readModuleDir m] lists the directory of the entry file of
    [m], [None] when resolving or listing throws. *)
Record FileSystem : Type := {
  readPackageJson : string -> option PackageJson;
  readModuleDir : string -> option (list string)
}.

Inductive PlatformSupport : Type :=
| WebSupported | NativeOnly | LikelyNativeOnly | Unknown.

Definition keywordsInclude (pkg : PackageJson) (k : string) : bool :=
  match keywords pkg with
  | Some ks => arrayIncludes ks k
  | None => false
  end.

Definition hasPeer (pkg : PackageJson) (dep : string) : bool :=
  match peerDependencies pkg with
  | Some deps =>
      match deps !! dep with
      | Some v => negb (String.eqb v "")
      | None => false
      end
  | None => false
  end.

Definition checkPackageJsonPlatformSupport
    (fs : FileSystem) (moduleName : string) : PlatformSupport :=
  match readPackageJson fs moduleName with
  | None => Unknown
  | Some packageJson =>
      if keywordsInclude packageJson "web" then WebSupported
      else if keywordsInclude packageJson "react-native-web" then WebSupported
      else if browser packageJson || reactNativeWebField packageJson
      then WebSupported
      else if match files packageJson with
              | Some fl =>
                  existsb (fun file => includes file ".web." ||
                                       includes file "/web/" ||
                                       includes file "browser") fl
              | None => false
              end
      then WebSupported
      else if keywordsInclude packageJson "native-only" then NativeOnly
      else if hasPeer packageJson "react-native" &&
              negb (hasPeer packageJson "react-native-web")
      then LikelyNativeOnly
      else Unknown
  end.

Definition hasWebSpecificFiles (fs : FileSystem) (moduleName : string) : bool :=
  match readModuleDir fs moduleName with
  | None => false
  | Some fl =>
      existsb (fun file => includes file ".web." ||
                           includes file ".browser." ||
                           includes file ".dom.") fl
  end.

Definition isTrulyNativeModule (fs : FileSystem) (moduleName : string) : bool :=
  if arrayIncludes WEB_COMPATIBLE_LIBRARIES moduleName then false
  else if testPrefixIgnoreCase "react-native-web" moduleName then false
  else if testPrefixIgnoreCase "expo-web" moduleName then false
  else if negb (includes moduleName "react-native") &&
          negb (includes moduleName "expo")
  then false
  else
    match checkPackageJsonPlatformSupport fs moduleName with
    | WebSupported => false
    | NativeOnly => true
    | _ =>
        if hasWebSpecificFiles fs moduleName then false
        else if hasNativeOnlyPatterns moduleName then true
        else if startsWith moduleName "react-native-" ||
                startsWith moduleName "expo-"
        then true
        else false
    end.

Record Detection : Type := {
  isNative : bool;
  confidence : string;
  reason : string
}.

Definition getNativeDetectionConfidence
    (fs : FileSystem) (moduleName : string) : Detection :=
  if arrayIncludes WEB_COMPATIBLE_LIBRARIES moduleName
  then {| isNative := false; confidence := "high";
          reason := "explicitly web-compatible" |}
  else
    match checkPackageJsonPlatformSupport fs moduleName with
    | WebSupported =>
        {| isNative := false; confidence := "high";
           reason := "package.json indicates web support" |}
    | NativeOnly =>
        {| isNative := true; confidence := "high";
           reason := "package.json indicates native-only" |}
    | _ =>
        if hasNativeOnlyPatterns moduleName
        then {| isNative := true; confidence := "medium";
                reason := "module name suggests native-only functionality" |}
        else if hasWebSpecificFiles fs moduleName
        then {| isNative := false; confidence := "medium";
                reason := "web-specific files found" |}
        else if startsWith moduleName "react-native-" ||
                startsWith moduleName "expo-"
        then {| isNative := true; confidence := "low";
                reason := "react-native/expo prefix (conservative)" |}
        else {| isNative := false; confidence := "low";
                reason := "no native indicators found" |}
    end.

End Classifier.

(** ** The mapping registry and the resolution policy engine *)

Module Resolver.
Import JsString Js.

(** mappings/built-in-mappings.js.  The object literal lists
    ['expo-location'] twice; the later entry is the one the object
    holds. *)
Definition BUILT_IN_MAPPINGS : gmap string string := list_to_map [
  ("@react-native-async-storage/async-storage", "metro-web-compat/mocks/async-storage");
  ("@react-native-community/async-storage", "metro-web-compat/mocks/async-storage");
  ("expo-camera", "metro-web-compat/mocks/camera");
  ("react-native-camera", "metro-web-compat/mocks/camera");
  ("react-native-vision-camera", "metro-web-compat/mocks/vision-camera");
  ("expo-location", "metro-web-compat/mocks/maps");
  ("react-native-geolocation-service", "metro-web-compat/mocks/location");
  ("@react-native-community/geolocation", "metro-web-compat/mocks/location");
  ("expo-file-system", "metro-web-compat/mocks/file-system");
  ("react-native-fs", "metro-web-compat/mocks/file-system");
  ("react-native-device-info", "metro-web-compat/mocks/device-info");
  ("expo-device", "metro-web-compat/mocks/device-info");
  ("expo-constants", "metro-web-compat/mocks/device-info");
  ("expo-haptics", "metro-web-compat/mocks/haptics");
  ("react-native-haptic-feedback", "metro-web-compat/mocks/haptics");
  ("react-native-share", "metro-web-compat/mocks/share");
  ("expo-sharing", "metro-web-compat/mocks/share");
  ("@react-native-clipboard/clipboard", "metro-web-compat/mocks/clipboard");
  ("@react-native-community/clipboard", "metro-web-compat/mocks/clipboard");
  ("expo-clipboard", "metro-web-compat/mocks/clipboard");
  ("expo-permissions", "metro-web-compat/mocks/permissions");
  ("react-native-permissions", "metro-web-compat/mocks/permissions");
  ("expo-notifications", "metro-web-compat/mocks/notifications");
  ("@react-native-community/push-notification-ios", "metro-web-compat/mocks/notifications");
  ("react-native-push-notification", "metro-web-compat/mocks/notifications");
  ("expo-contacts", "metro-web-compat/mocks/contacts");
  ("react-native-contacts", "metro-web-compat/mocks/contacts");
  ("expo-calendar", "metro-web-compat/mocks/calendar");
  ("react-native-calendar-events", "metro-web-compat/mocks/calendar");
  ("expo-image-picker", "metro-web-compat/mocks/image-picker");
  ("react-native-image-picker", "metro-web-compat/mocks/image-picker");
  ("react-native-image-crop-picker", "metro-web-compat/mocks/image-picker");
  ("expo-document-picker", "metro-web-compat/mocks/document-picker");
  ("react-native-document-picker", "metro-web-compat/mocks/document-picker");
  ("expo-barcode-scanner", "metro-web-compat/mocks/barcode-scanner");
  ("react-native-qrcode-scanner", "metro-web-compat/mocks/barcode-scanner");
  ("expo-av", "metro-web-compat/mocks/audio-video");
  ("react-native-sound", "metro-web-compat/mocks/audio");
  ("react-native-track-player", "metro-web-compat/mocks/audio");
  ("react-native-video", "metro-web-compat/mocks/video");
  ("expo-video", "metro-web-compat/mocks/video");
  ("react-native-maps", "metro-web-compat/mocks/maps");
  ("expo-sensors", "metro-web-compat/mocks/sensors");
  ("react-native-sensors", "metro-web-compat/mocks/sensors");
  ("react-native-bluetooth-serial", "metro-web-compat/mocks/bluetooth");
  ("react-native-ble-plx", "metro-web-compat/mocks/bluetooth");
  ("react-native-nfc-manager", "metro-web-compat/mocks/nfc");
  ("react-native-biometrics", "metro-web-compat/mocks/biometrics");
  ("expo-local-authentication", "metro-web-compat/mocks/biometrics");
  ("react-native-keychain", "metro-web-compat/mocks/keychain");
  ("expo-secure-store", "metro-web-compat/mocks/keychain");
  ("@react-native-community/netinfo", "metro-web-compat/mocks/network-info");
  ("@react-native-community/app-state", "metro-web-compat/mocks/app-state");
  ("expo-linking", "metro-web-compat/mocks/linking");
  ("expo-web-browser", "metro-web-compat/mocks/web-browser");
  ("expo-mail-composer", "metro-web-compat/mocks/mail-composer");
  ("expo-sms", "metro-web-compat/mocks/sms");
  ("expo-print", "metro-web-compat/mocks/print");
  ("expo-font", "metro-web-compat/mocks/font");
  ("expo-keep-awake", "metro-web-compat/mocks/keep-awake");
  ("expo-screen-orientation", "metro-web-compat/mocks/screen-orientation");
  ("expo-splash-screen", "metro-web-compat/mocks/splash-screen");
  ("expo-status-bar", "metro-web-compat/mocks/status-bar");
  ("expo-background-task", "metro-web-compat/mocks/background-task");
  ("expo-task-manager", "metro-web-compat/mocks/task-manager");
  ("expo-updates", "metro-web-compat/mocks/updates");
  ("expo-facebook", "metro-web-compat/mocks/facebook");
  ("expo-google-app-auth", "metro-web-compat/mocks/google-auth");
  ("expo-apple-authentication", "metro-web-compat/mocks/apple-auth");
  ("expo-crypto", "metro-web-compat/mocks/crypto");
  ("expo-random", "metro-web-compat/mocks/random");
  ("expo-sqlite", "metro-web-compat/mocks/sqlite");
  ("react-native-sqlite-storage", "metro-web-compat/mocks/sqlite");
  ("react-native-vector-icons", "metro-web-compat/mocks/vector-icons");
  ("@expo/vector-icons", "metro-web-compat/mocks/vector-icons");
  ("react-native-svg", "metro-web-compat/mocks/svg");
  ("react-native-linear-gradient", "metro-web-compat/mocks/linear-gradient");
  ("expo-linear-gradient", "metro-web-compat/mocks/linear-gradient");
  ("react-native-reanimated", "metro-web-compat/mocks/reanimated");
  ("react-native-gesture-handler", "metro-web-compat/mocks/gesture-handler");
  ("react-native-safe-area-context", "metro-web-compat/mocks/safe-area-context");
  ("react-native-modal", "metro-web-compat/mocks/modal");
  ("@react-native-picker/picker", "metro-web-compat/mocks/picker");
  ("@react-native-community/picker", "metro-web-compat/mocks/picker");
  ("@react-native-community/slider", "metro-web-compat/mocks/slider");
  ("@react-native-community/datetimepicker", "metro-web-compat/mocks/datetimepicker");
  ("@react-native-community/progress-bar-android", "metro-web-compat/mocks/progress-bar");
  ("@react-native-community/progress-view", "metro-web-compat/mocks/progress-bar");
  ("react-native-webview", "metro-web-compat/mocks/webview");
  ("react-native-fast-image", "metro-web-compat/mocks/fast-image");
  ("@react-native-masked-view/masked-view", "metro-web-compat/mocks/masked-view");
  ("@react-native-community/masked-view", "metro-web-compat/mocks/masked-view");
  ("@react-native-community/activity-indicator", "metro-web-compat/mocks/activity-indicator");
  ("@react-native-community/art", "metro-web-compat/mocks/art");
  ("@react-native-community/blur", "metro-web-compat/mocks/blur");
  ("@react-native-community/cameraroll", "metro-web-compat/mocks/cameraroll");
  ("@react-native-community/checkbox", "metro-web-compat/mocks/checkbox");
  ("@react-native-community/hooks", "metro-web-compat/mocks/hooks");
  ("react-native-tab-view", "metro-web-compat/mocks/tab-view");
  ("react-native-pager-view", "metro-web-compat/mocks/pager-view");
  ("react-native-swiper", "metro-web-compat/mocks/swiper");
  ("@expo/react-native-action-sheet", "metro-web-compat/mocks/action-sheet");
  ("@gorhom/bottom-sheet", "metro-web-compat/mocks/bottom-sheet");
  ("react-native-animatable", "metro-web-compat/mocks/animatable");
  ("lottie-react-native", "metro-web-compat/mocks/lottie");
  ("react-native-shimmer", "metro-web-compat/mocks/shimmer");
  ("react-native-skeleton-placeholder", "metro-web-compat/mocks/skeleton");
  ("react-native-chart-kit", "metro-web-compat/mocks/chart-kit");
  ("react-native-svg-charts", "metro-web-compat/mocks/svg-charts");
  ("react-native-elements", "metro-web-compat/mocks/react-native-elements");
  ("react-native-paper", "metro-web-compat/mocks/react-native-paper");
  ("react-native-ui-lib", "metro-web-compat/mocks/ui-lib");
  ("native-base", "metro-web-compat/mocks/native-base");
  ("react-native-super-grid", "metro-web-compat/mocks/super-grid");
  ("react-native-flipper", "metro-web-compat/mocks/flipper");
  ("react-native-code-push", "metro-web-compat/mocks/code-push");
  ("@react-native-firebase/crashlytics", "metro-web-compat/mocks/crashlytics");
  ("@react-native-firebase/analytics", "metro-web-compat/mocks/analytics");
  ("@react-native-firebase/remote-config", "metro-web-compat/mocks/remote-config");
  ("react-native-branch", "metro-web-compat/mocks/branch");
  ("react-native-iap", "metro-web-compat/mocks/iap");
  ("react-native-google-mobile-ads", "metro-web-compat/mocks/admob");
  ("react-native-rate", "metro-web-compat/mocks/rate");
  ("react-native-store-review", "metro-web-compat/mocks/store-review");
  ("expo-store-review", "metro-web-compat/mocks/store-review");
  ("react-native-torch", "metro-web-compat/mocks/torch");
  ("react-native-flashlight", "metro-web-compat/mocks/flashlight");
  ("react-native-brightness", "metro-web-compat/mocks/brightness");
  ("react-native-volume-slider", "metro-web-compat/mocks/volume");
  ("react-native-battery", "metro-web-compat/mocks/battery");
  ("react-native-localize", "metro-web-compat/mocks/localize");
  ("react-native-appearance", "metro-web-compat/mocks/appearance");
  ("react-native-dark-mode", "metro-web-compat/mocks/dark-mode");
  ("@react-native-community/appearance", "metro-web-compat/mocks/appearance");
  ("react-native-keyboard-aware-scroll-view", "metro-web-compat/mocks/keyboard-aware-scroll-view");
  ("react-native-touch-id", "metro-web-compat/mocks/touch-id");
  ("react-native-face-id", "metro-web-compat/mocks/face-id") ].

(** What a resolver hands to the bundler as the identifier: a string,
    or, read off a table under a key that the table only inherits, the
    member of [Object.prototype] of that name. *)
Inductive identifier : Type :=
| Name (moduleName : string)
| Member (name : string).
#[global] Coercion Name : string >-> identifier.

(** [table[moduleName]] tested for truthiness, the tables being object
    literals: the substitute when the table holds a non-empty string
    under the key, and for a key that the table does not have the
    member of [Object.prototype] of that name, when there is one. *)
Definition lookupTruthy (table : gmap string string) (moduleName : string)
    : option identifier :=
  match table !! moduleName with
  | Some substitute =>
      if String.eqb substitute "" then None else Some (Name substitute)
  | None =>
      if arrayIncludes objectPrototypeMembers moduleName
      then Some (Member moduleName)
      else None
  end.

(** utils/platform-detector.js; [None] is an absent ([undefined] or
    [null]) platform. *)
Definition isWebPlatform (platform : option string)
    (webPlatforms : list string) : bool :=
  match platform with
  | None => false
  | Some p =>
      if String.eqb p "" then false
      else arrayIncludes webPlatforms (toLowerCase p)
  end.

(** An entry of [excludePatterns] or [forceIncludePatterns]. *)
Inductive ModulePattern : Type :=
| PatString (s : string)
| PatRegExp (matches : string -> bool)
| PatOther.

Definition patternMatches (moduleName : string) (p : ModulePattern) : bool :=
  match p with
  | PatString s => String.eqb moduleName s
  | PatRegExp matches => matches moduleName
  | PatOther => false
  end.

Record Options : Type := {
  moduleMap : gmap string string;
  overrides : gmap string string;
  fallbackStrategy : string;
  webPlatforms : list string;
  generateMocks : bool;
  confidenceThreshold : string;
  excludePatterns : list ModulePattern;
  forceIncludePatterns : list ModulePattern
}.

Definition defaultOptions : Options := {|
  moduleMap := ∅;
  overrides := ∅;
  fallbackStrategy := "graceful";
  webPlatforms := ["web"; "browser"];
  generateMocks := true;
  confidenceThreshold := "medium";
  excludePatterns := [];
  forceIncludePatterns := []
|}.

Definition confidenceLevels (level : string) : option nat :=
  if String.eqb level "low" then Some 1
  else if String.eqb level "medium" then Some 2
  else if String.eqb level "high" then Some 3
  else None.

(** [confidenceLevels[d] >= confidenceLevels[t]]; a comparison with
    [undefined] is false. *)
Definition shouldProcessBasedOnConfidence
    (detectionConfidence threshold : string) : bool :=
  match confidenceLevels detectionConfidence, confidenceLevels threshold with
  | Some d, Some t => (t <=? d)%nat
  | _, _ => false
  end.

(** A call of the delegate resolver, with the identifier it received. *)
Inductive event : Type := Delegated (moduleName : identifier).

Section WithBundler.
(** The host bundler: its resolution context, the descriptors it
    returns, and its own resolver. *)
Context {context resolution : Type}.
Variable baseResolver :
  context -> identifier -> option string -> outcome resolution.
(** utils/mock-generator.js writes a mock module to disk: the generator
    is any function from the identifier to the path of the generated
    mock, which may throw. *)
Variable generateAutoMock : string -> context -> Options -> outcome string.
Variable fs : Classifier.FileSystem.

Definition delegate (ctx : context) (moduleName : identifier)
    (platform : option string) : traced event resolution :=
  emit (Delegated moduleName) (baseResolver ctx moduleName platform).

Definition mobileNotAvailable (moduleName : string) : error :=
  Error "Error"
    ("Mobile-specific module " ++ quoted moduleName ++
     " not available on web platform").

Definition nativeNotAvailable (moduleName : string) : error :=
  Error "Error"
    ("Native module " ++ quoted moduleName ++
     " not available on web platform").

(** *** resolver.js *)

(** The body of the [try] block. *)
Definition webCompatAttempt (options : Options) (ctx : context)
    (moduleName : string) (platform : option string)
    : traced event resolution :=
  match lookupTruthy (overrides options) moduleName with
  | Some substitute => delegate ctx substitute platform
  | None =>
  match lookupTruthy (moduleMap options) moduleName with
  | Some substitute => delegate ctx substitute platform
  | None =>
  match lookupTruthy BUILT_IN_MAPPINGS moduleName with
  | Some substitute => delegate ctx substitute platform
  | None =>
      if Classifier.isMobileSpecificModule moduleName then
        if generateMocks options then
          let* mockPath := ([], generateAutoMock moduleName ctx options) in
          delegate ctx mockPath platform
        else if String.eqb (fallbackStrategy options) "graceful" then
          throw (mobileNotAvailable moduleName)
        else delegate ctx moduleName platform
      else delegate ctx moduleName platform
  end end end.

Definition createWebCompatResolver (options : Options) (ctx : context)
    (moduleName : string) (platform : option string)
    : traced event resolution :=
  if negb (isWebPlatform platform (webPlatforms options)) then
    delegate ctx moduleName platform
  else
    try_catch (webCompatAttempt options ctx moduleName platform)
      (fun error =>
         if String.eqb (fallbackStrategy options) "graceful" then
           throw error
         else delegate ctx moduleName platform).

(** *** The improved resolver ([createImprovedWebCompatResolver]) *)

Definition isExcluded (options : Options) (moduleName : string) : bool :=
  existsb (patternMatches moduleName) (excludePatterns options).

Definition isForceIncluded (options : Options) (moduleName : string) : bool :=
  existsb (patternMatches moduleName) (forceIncludePatterns options).

Definition shouldProcess (options : Options) (moduleName : string) : bool :=
  let detection := Classifier.getNativeDetectionConfidence fs moduleName in
  isForceIncluded options moduleName ||
  (Classifier.isNative detection &&
   shouldProcessBasedOnConfidence (Classifier.confidence detection)
     (confidenceThreshold options)).

(** The body of the [try] block. *)
Definition improvedAttempt (options : Options) (ctx : context)
    (moduleName : string) (platform : option string)
    : traced event resolution :=
  if isExcluded options moduleName then delegate ctx moduleName platform
  else
  match lookupTruthy (overrides options) moduleName with
  | Some substitute => delegate ctx substitute platform
  | None =>
  match lookupTruthy (moduleMap options) moduleName with
  | Some substitute => delegate ctx substitute platform
  | None =>
  match lookupTruthy BUILT_IN_MAPPINGS moduleName with
  | Some substitute => delegate ctx substitute platform
  | None =>
      if shouldProcess options moduleName then
        if generateMocks options then
          let* mockPath := ([], generateAutoMock moduleName ctx options) in
          delegate ctx mockPath platform
        else if String.eqb (fallbackStrategy options) "strict" then
          throw (nativeNotAvailable moduleName)
        else delegate ctx moduleName platform
      else delegate ctx moduleName platform
  end end end.

Definition createImprovedWebCompatResolver (options : Options)
    (ctx : context) (moduleName : string) (platform : option string)
    : traced event resolution :=
  if negb (isWebPlatform platform (webPlatforms options)) then
    delegate ctx moduleName platform
  else
    try_catch (improvedAttempt options ctx moduleName platform)
      (fun error =>
         if String.eqb (fallbackStrategy options) "strict" then
           throw error
         else delegate ctx moduleName platform).

End WithBundler.

End Resolver.
Import (coercions) Resolver.

(** ** Values of the runtime layer *)

Module JsValue.
Import JsString Js.

(** A property key is a string (a property name) or a symbol. *)
Inductive propkey : Type :=
| KString (name : string)
| KSymbol (description : string).

(** Which of the two copies of [proxy-wrapper.js] built a proxy:
    [runtime-resolver/src/proxy-wrapper.js], or the copy of the demo
    application with the name-shape recognition. *)
Inductive flavour : Type := Plain | Smart.

Local Set Warnings "-register-all".

(** The values that flow through the interception layer.  Objects and
    functions of the application are opaque ([VHostObj], [VHostFun]);
    every function or proxy that the library builds is a constructor of
    [closure] holding the variables it captures. *)
Inductive value : Type :=
| VUndefined
| VNull
| VBool (b : bool)
| VNum (n : Z)
| VStr (s : string)
| VError (e : error)
| VObj (fields : list (string * value))
| VArr (items : list value)
| VPromise (settled : completion value value)
| VHostObj (id : nat)
| VHostFun (id : nat)
| VIntrinsic (name : string)
| VLib (c : closure)
with closure : Type :=
(* fallback-manager.js *)
| BuiltInFallback (moduleName methodName : string)
| MethodStub (fullPath : string) (returnValue : value)
(* proxy-wrapper.js *)
| MethodProxy (originalMethod : value) (methodName : propkey)
    (moduleName : string) (config : value)
| RejectionHandler (fullMethodName : string) (args : list value)
    (config : value)
| ProxyWrapper (fl : flavour) (target : value) (moduleName : string)
    (config : value)
| FallbackProxy (fl : flavour) (moduleName : string)
| FallbackObjectProxy (propertyPath : string)
| ConstantFunction (result : value)
| EventEmitterProxy (prop moduleName : string)
| ListenerProxy (prop moduleName : string)
| RemoveListenerProxy (prop moduleName : string)
| SubscriptionRemove (prop moduleName : string) (event : value)
| ReactContextProxy (prop moduleName : string)
| ReactContextConsumer (prop moduleName : string)
| ReactComponentProxy (prop moduleName : string)
| ReactHookProxy (prop moduleName : string)
| SafePropertyProxy (moduleName prop : string)
(* wrapper-generator.js *)
| GeneratedComponent (key subtype moduleName : string)
| GeneratedConsumer (key moduleName : string) (contextDefaultValue : value).

(** In the interception layer anything can be thrown: an [Error] object
    is [VError e], and [throw null] or a promise rejected without a
    reason throw [VNull] and [VUndefined]. *)
Definition outcome (A : Type) : Type := completion value A.
Definition traced (E A : Type) : Type := computation E value A.

Definition typeError (message : string) : value :=
  VError (Error "TypeError" message).

(** Truthiness. *)
Definition truthy (v : value) : bool :=
  match v with
  | VUndefined | VNull => false
  | VBool b => b
  | VNum n => negb (n =? 0)%Z
  | VStr s => negb (String.eqb s "")
  | _ => true
  end.

(** [a || b] *)
Definition orElse (a b : value) : value := if truthy a then a else b.

(** [typeof v === 'function'] *)
Fixpoint isFunction (v : value) : bool :=
  match v with
  | VHostFun _ | VIntrinsic _ => true
  | VLib c =>
      match c with
      | BuiltInFallback _ _ | MethodStub _ _ | MethodProxy _ _ _ _
      | RejectionHandler _ _ _ | ConstantFunction _ | ListenerProxy _ _
      | RemoveListenerProxy _ _ | SubscriptionRemove _ _ _
      | ReactContextConsumer _ _ | ReactComponentProxy _ _
      | ReactHookProxy _ _ | SafePropertyProxy _ _
      | GeneratedComponent _ _ _ | GeneratedConsumer _ _ _ => true
      | ProxyWrapper _ target _ _ => isFunction target
      | FallbackProxy _ _ | FallbackObjectProxy _ | EventEmitterProxy _ _
      | ReactContextProxy _ _ => false
      end
  | _ => false
  end.

(** [typeof v === 'object' && v !== null] *)
Definition isObject (v : value) : bool :=
  match v with
  | VError _ | VObj _ | VArr _ | VPromise _ | VHostObj _ => true
  | VLib _ => negb (isFunction v)
  | _ => false
  end.

(** A template literal [`${k}`] converts the key to a string; a symbol
    cannot be converted. *)
Definition keyToString (k : propkey) : outcome string :=
  match k with
  | KString s => Return s
  | KSymbol _ => Throw (typeError "Cannot convert a Symbol value to a string")
  end.

Definition inheritedFromObject (k : propkey) : bool :=
  match k with
  | KString s => arrayIncludes objectPrototypeMembers s
  | KSymbol _ => false
  end.

Fixpoint assoc (fields : list (string * value)) (k : string) : option value :=
  match fields with
  | [] => None
  | (k', v) :: rest => if String.eqb k k' then Some v else assoc rest k
  end.

(** [o.k] where [o] is one of the configuration or argument objects:
    an object literal yields its field, anything else that can be read
    has no such field. *)
Definition getField (o : value) (k : string) : value :=
  match o with
  | VObj fields =>
      match assoc fields k with
      | Some v => v
      | None => VUndefined
      end
  | _ => VUndefined
  end.

(** A call that leaves the modelled code: the function value and its
    arguments. *)
Inductive call : Type := Called (f : value) (args : list value).

(** The application side: membership and reads on its objects, the
    result of calling a function value, and the rendering library as the
    component stand-ins find it: [window.React.createElement] when the
    page has a global React, and the pair of [View] and
    [createElement] when [react-native] and [react] can be required.
    [hostFixes o k] says that [o] owns [k] as a property that is not
    configurable and is either a data property that is not writable (as
    on a frozen object) or an accessor without a getter: the [get] trap
    of a proxy around [o] has to report the value that [o] holds.  The
    answer to a call of the [then] of a thenable with
    [resolvingFunctions] is the state in which the thenable leaves the
    promise. *)
Record Host : Type := {
  hostHas : value -> propkey -> bool;
  hostGet : value -> propkey -> outcome value;
  hostCall : value -> list value -> outcome value;
  hostFixes : value -> propkey -> bool;
  windowReact : option value;
  reactNative : option (value * value)
}.

Definition callFunction (h : Host) (f : value) (args : list value)
    : traced call value :=
  emit (Called f args) (hostCall h f args).

(** The values that are not objects: [undefined], [null], booleans,
    numbers and strings. *)
Definition isPrimitive (v : value) : bool :=
  match v with
  | VUndefined | VNull | VBool _ | VNum _ | VStr _ => true
  | _ => false
  end.

(** [`${v}`] inside a log line.  A primitive has its string at once;
    anything else is converted by its own [Symbol.toPrimitive],
    [toString] or [valueOf], a call that leaves the library and may
    throw. *)
Definition interpolate (h : Host) (v : value) : traced call unit :=
  if isPrimitive v then ret tt
  else let* _ := callFunction h (VIntrinsic "String") [v] in ret tt.

(** The two functions that a promise hands to the [then] of a thenable
    it is resolved with. *)
Definition resolvingFunctions : list value :=
  [VIntrinsic "resolve"; VIntrinsic "reject"].

End JsValue.

(** ** fallback-manager.js *)

Module FallbackManager.
Import JsString Js JsValue.

Record Config : Type := {
  returnValue : value;
  throwError : value;
  logMessage : bool;
  customFallbacks : gmap string value
}.

Definition defaultConfig : Config := {|
  returnValue := VNull;
  throwError := VBool false;
  logMessage := true;
  customFallbacks := ∅
|}.

Definition builtIn (moduleName : string) (methods : list string)
    : string * gmap string value :=
  (moduleName,
   list_to_map
     (map (fun m => (m, VLib (BuiltInFallback moduleName m))) methods)).

Definition enumeration (names : list string) : gmap string value :=
  list_to_map (map (fun n => (n, VStr n)) names).

(** The table of [initializeBuiltInFallbacks].  The function entries are
    the closures of the source, which talk to the browser APIs; the two
    enumerations map each name to itself. *)
Definition initializeBuiltInFallbacks : gmap string (gmap string value) :=
  list_to_map [
    builtIn "react-native-camera" ["takePicture"];
    builtIn "expo-location" ["getCurrentPositionAsync"];
    builtIn "expo-haptics" ["impactAsync"];
    builtIn "react-native-device-info" ["getDeviceId"; "getSystemVersion"];
    builtIn "react-native-share" ["open"];
    builtIn "@react-native-clipboard/clipboard" ["getString"; "setString"];
    builtIn "@react-native-community/netinfo"
      ["fetch"; "addEventListener"; "useNetInfo"];
    ("@react-native-community/netinfo.NetInfoStateType",
     enumeration ["none"; "unknown"; "cellular"; "wifi"; "bluetooth";
                  "ethernet"; "wimax"; "vpn"; "other"]);
    ("@react-native-community/netinfo.NetInfoCellularGeneration",
     enumeration ["2g"; "3g"; "4g"; "5g"])
  ].

Record Manager : Type := {
  config : Config;
  builtInFallbacks : gmap string (gmap string value)
}.

(** [new FallbackManager(config)] *)
Definition create (cfg : Config) : Manager :=
  {| config := cfg; builtInFallbacks := initializeBuiltInFallbacks |}.

(** [table[key]] on an object literal: its entry under the key; for a
    key that the literal does not have, the member of [Object.prototype]
    of that name when there is one, and [undefined] otherwise. *)
Definition tableGet (table : gmap string value) (key : string) : value :=
  match table !! key with
  | Some v => v
  | None =>
      if arrayIncludes objectPrototypeMembers key then VIntrinsic key
      else VUndefined
  end.

(** [config.fallback || this.config.customFallbacks[fullPath] || null] *)
Definition getCustomFallback (fm : Manager) (fullPath : string)
    (callConfig : value) : value :=
  orElse (orElse (getField callConfig "fallback")
                 (tableGet (customFallbacks (config fm)) fullPath))
         VNull.

(** The table of a module is found under the module names of
    [builtInFallbacks]; the method is then read off that table as off
    any object literal. *)
Definition getBuiltInFallback (fm : Manager) (fullPath : string) : value :=
  let '(moduleName, methodName) := splitFirstDot fullPath in
  match builtInFallbacks fm !! moduleName with
  | Some methods =>
      let entry := tableGet methods methodName in
      if truthy entry then entry else VNull
  | None => VNull
  end.

Section WithHost.
Variable host : Host.
(** [v[k]] as the engine evaluates it.  The values include the proxies
    of [proxy-wrapper.js], so that the read is
    [ProxyWrapper.getProperty], defined further down. *)
Variable read : value -> propkey -> outcome value.

Definition executeCustomFallback (fallback : value) (error : value)
    (args : list value) (methodName : string) : traced call value :=
  if isFunction fallback
  then callFunction host fallback [error; VArr args; VStr methodName]
  else ret fallback.

Definition executeBuiltInFallback (fallback : value) (error : value)
    (args : list value) (methodName : string) : traced call value :=
  if isFunction fallback
  then callFunction host fallback args
  else ret fallback.

(** [c.f !== undefined ? c.f : d] *)
Definition definedOr (v d : value) : value :=
  match v with
  | VUndefined => d
  | _ => v
  end.

(** The warning that follows the test of [shouldThrow] prints
    [error.message]. *)
Definition executeDefaultFallback (fm : Manager) (error : value)
    (args : list value) (methodName : string) (callConfig : value)
    : traced call value :=
  let shouldThrow :=
    definedOr (getField callConfig "throwError") (throwError (config fm)) in
  let returnValue :=
    definedOr (getField callConfig "returnValue") (returnValue (config fm)) in
  if truthy shouldThrow then throw error
  else if logMessage (config fm) then
    let* _ := ([], read error (KString "message")) in
    ret returnValue
  else ret returnValue.

Definition handleMethodError (fm : Manager) (methodName : string)
    (error : value) (args : list value) (callConfig : value)
    : traced call value :=
  let customFallback := getCustomFallback fm methodName callConfig in
  if truthy customFallback
  then executeCustomFallback customFallback error args methodName
  else
    let builtInFallback := getBuiltInFallback fm methodName in
    if truthy builtInFallback
    then executeBuiltInFallback builtInFallback error args methodName
    else executeDefaultFallback fm error args methodName callConfig.
End WithHost.

Definition methodPatterns : list pattern :=
  [ Prefix "get"; Prefix "set"; Prefix "is"; Prefix "has"; Prefix "can";
    Suffix "Async"; Prefix "on"; Prefix "add"; Prefix "remove";
    Prefix "start"; Prefix "stop"; Prefix "open"; Prefix "close";
    Prefix "create"; Prefix "delete"; Prefix "update" ].

Definition isMethodName (prop : string) : bool :=
  existsb (fun pattern => test pattern prop) methodPatterns.

Definition getFallbackValue (fm : Manager) (moduleName : string)
    (prop : propkey) (callConfig : value) : outcome value :=
  match keyToString prop with
  | Throw e => Throw e
  | Return name =>
      let fullPath := (moduleName ++ "." ++ name)%string in
      let customFallback := getCustomFallback fm fullPath callConfig in
      if truthy customFallback then Return customFallback
      else
        let builtInFallback := getBuiltInFallback fm fullPath in
        if truthy builtInFallback then Return builtInFallback
        else
          let fallbackResult :=
            orElse (getField callConfig "returnValue")
                   (returnValue (config fm)) in
          if isMethodName name
          then Return (VLib (MethodStub fullPath fallbackResult))
          else Return fallbackResult
  end.

Definition hasFallback (fm : Manager) (moduleName : string) (prop : propkey)
    : outcome bool :=
  match keyToString prop with
  | Throw e => Throw e
  | Return name =>
      let fullPath := (moduleName ++ "." ++ name)%string in
      Return (truthy (getCustomFallback fm fullPath (VObj [])) ||
              truthy (getBuiltInFallback fm fullPath))
  end.

End FallbackManager.

(** ** proxy-wrapper.js *)

Module ProxyWrapper.
Import JsString Js JsValue.

Definition objectPatterns : list pattern :=
  [ Suffix "State"; Suffix "Type"; SuffixOptionalS "Constant";
    Suffix "Config"; SuffixOptionalS "Option"; SuffixOptionalS "Setting";
    SuffixOptionalS "Style"; Suffix "Theme"; Suffix "Event";
    Suffix "Manager"; Suffix "Handler" ].

Definition knownObjectProperties : list string :=
  [ "NetInfoStateType"; "ConnectionType"; "NetInfoConfiguration";
    "DeviceType"; "BatteryState"; "PowerState"; "MediaType";
    "ImagePickerOptions"; "CameraOptions"; "LocationOptions";
    "NotificationOptions"; "HapticFeedbackType"; "OrientationType";
    "SensorType"; "ShareOptions"; "ClipboardOptions" ].

Definition shouldCreateFallbackObject (prop moduleName : string) : bool :=
  let matchesPattern := existsb (fun pattern => test pattern prop) objectPatterns in
  matchesPattern || arrayIncludes knownObjectProperties prop.

(** [new Proxy(target, handler)] needs an object (or function) target. *)
Definition createProxyWrapper (fl : flavour) (target : value)
    (moduleName : string) (config : value) : outcome value :=
  if negb (truthy target) then Return (VLib (FallbackProxy fl moduleName))
  else if isObject target || isFunction target
  then Return (VLib (ProxyWrapper fl target moduleName config))
  else Throw (typeError "Cannot create proxy with a non-object as target or handler").

Definition zeroInsets : value :=
  VObj [("top", VNum 0); ("bottom", VNum 0); ("left", VNum 0); ("right", VNum 0)].
Definition zeroFrame : value :=
  VObj [("x", VNum 0); ("y", VNum 0); ("width", VNum 0); ("height", VNum 0)].

(** The [defaultValue] of [createReactContextProxy]. *)
Definition contextDefaultValue : value :=
  VObj [("insets", zeroInsets); ("frame", zeroFrame)].

Definition dotted (moduleName prop : string) : string :=
  (moduleName ++ "." ++ prop)%string.

(** [prop.startsWith('use') && prop.length > 3 &&
     prop[3] === prop[3].toUpperCase()]; calling [toUpperCase] on an
    absent character would throw. *)
Definition looksLikeHook (prop : string) : outcome bool :=
  if negb (startsWith prop "use") then Return false
  else if negb (3 <? String.length prop)%nat then Return false
  else
    match charAt prop 3 with
    | Some c => Return (Ascii.eqb c (upperChar c))
    | None =>
        Throw (typeError "Cannot read properties of undefined (reading 'toUpperCase')")
    end.

(** The name-shape recognition that the demo copy applies to a property
    that is absent, up to the point where the two proxies differ:
    [Some v] when a shape matched. [contextConfig] is the configuration
    handed to the wrapper around a context stand-in. *)
Definition recogniseShape (moduleName prop : string) (contextConfig : value)
    : outcome (option value) :=
  if String.eqb prop "PushEvents" || endsWith prop "Events"
  then Return (Some (VLib (EventEmitterProxy prop moduleName)))
  else if endsWith prop "Context" || String.eqb prop "Context"
  then
    let contextProxy := VLib (ReactContextProxy prop moduleName) in
    match createProxyWrapper Smart contextProxy (dotted moduleName prop)
            contextConfig with
    | Return wrapped => Return (Some wrapped)
    | Throw e => Throw e
    end
  else if endsWith prop "Provider" || endsWith prop "Consumer" ||
          endsWith prop "View" || endsWith prop "Component"
  then Return (Some (VLib (ReactComponentProxy prop moduleName)))
  else
    match looksLikeHook prop with
    | Throw e => Throw e
    | Return true => Return (Some (VLib (ReactHookProxy prop moduleName)))
    | Return false =>
        if String.eqb prop "addListener" || String.eqb prop "addEventListener"
        then Return (Some (VLib (ListenerProxy prop moduleName)))
        else if String.eqb prop "removeListener" ||
                String.eqb prop "removeEventListener" ||
                String.eqb prop "removeAllListeners"
        then Return (Some (VLib (RemoveListenerProxy prop moduleName)))
        else Return None
    end.

Section WithManager.
Variable host : Host.
Variable fm : FallbackManager.Manager.

(** The branch of the [get] trap for a property that the target has,
    with the value [v]: [Some w] when the trap hands out [w] in the
    place of [v], [None] when it hands out [v] itself. *)
Definition wrapExisting (fl : flavour) (moduleName : string)
    (config : value) (prop : propkey) (v : value) : outcome (option value) :=
  if isFunction v
  then Return (Some (VLib (MethodProxy v prop moduleName config)))
  else if isObject v then
    match keyToString prop with
    | Throw e => Throw e
    | Return name =>
        match createProxyWrapper fl v (dotted moduleName name)
                (orElse (getField config name) (VObj [])) with
        | Throw e => Throw e
        | Return wrapped => Return (Some wrapped)
        end
    end
  else
    match v with
    | VNull | VUndefined =>
        match keyToString prop with
        | Throw e => Throw e
        | Return name =>
            if shouldCreateFallbackObject name moduleName
            then Return (Some (VLib (FallbackObjectProxy (dotted moduleName name))))
            else Return None
        end
    | _ => Return None
    end.

(** The branch of the [get] trap for a property that the target lacks. *)
Definition fallbackForMissing (fl : flavour) (moduleName : string)
    (config : value) (prop : propkey) : outcome value :=
  match keyToString prop with
  | Throw e => Throw e
  | Return name =>
      match fl with
      | Plain => FallbackManager.getFallbackValue fm moduleName prop config
      | Smart =>
          match recogniseShape moduleName name
                  (orElse (getField config name) (VObj [])) with
          | Throw e => Throw e
          | Return (Some standIn) => Return standIn
          | Return None => Return (VLib (SafePropertyProxy moduleName name))
          end
      end
  end.

(** The [get] trap of [createFallbackProxy]. *)
Definition fallbackProxyGet (fl : flavour) (moduleName : string)
    (prop : propkey) : outcome value :=
  if match prop with KString name => String.eqb name "toString" | _ => false end
  then Return (VLib (ConstantFunction
                       (VStr ("[FallbackProxy for " ++ moduleName ++ "]"))))
  else if match prop with KString name => String.eqb name "valueOf" | _ => false end
  then Return (VLib (ConstantFunction (VObj [])))
  else
    match keyToString prop with
    | Throw e => Throw e
    | Return name =>
        match fl with
        | Plain =>
            FallbackManager.getFallbackValue fm moduleName prop (VObj [])
        | Smart =>
            match recogniseShape moduleName name (VObj []) with
            | Throw e => Throw e
            | Return (Some standIn) => Return standIn
            | Return None =>
                FallbackManager.getFallbackValue fm moduleName prop (VObj [])
            end
        end
    end.

(** The [get] trap of [createFallbackObjectProxy]. *)
Definition fallbackObjectProxyGet (propertyPath : string) (prop : propkey)
    : outcome value :=
  if match prop with KString name => String.eqb name "toString" | _ => false end
  then Return (VLib (ConstantFunction
                       (VStr ("[FallbackObject for " ++ propertyPath ++ "]"))))
  else if match prop with KString name => String.eqb name "valueOf" | _ => false end
  then Return (VLib (ConstantFunction (VObj [])))
  else
    match keyToString prop with
    | Throw e => Throw e
    | Return _ =>
        FallbackManager.getFallbackValue fm propertyPath prop (VObj [])
    end.

(** The [get] trap of [createEventEmitterProxy]. *)
Definition eventEmitterGet (prop moduleName : string) (eventProp : propkey)
    : outcome value :=
  match eventProp with
  | KString name =>
      if String.eqb name "addListener" || String.eqb name "addEventListener"
      then Return (VLib (ListenerProxy name (dotted moduleName prop)))
      else if String.eqb name "removeListener" ||
              String.eqb name "removeEventListener" ||
              String.eqb name "removeAllListeners"
      then Return (VLib (RemoveListenerProxy name (dotted moduleName prop)))
      else Return VUndefined
  | KSymbol _ =>
      match keyToString eventProp with
      | Throw e => Throw e
      | Return _ => Return VUndefined
      end
  end.

(** The [get] trap of [createReactContextProxy]. *)
Definition reactContextGet (prop moduleName : string) (contextProp : propkey)
    : outcome value :=
  match contextProp with
  | KString name =>
      if String.eqb name "Provider"
      then Return (VLib (ReactComponentProxy "Provider" (dotted moduleName prop)))
      else if String.eqb name "Consumer"
      then Return (VLib (ReactContextConsumer prop moduleName))
      else if String.eqb name "_currentValue" || String.eqb name "_context"
      then Return contextDefaultValue
      else Return VUndefined
  | KSymbol _ =>
      match keyToString contextProp with
      | Throw e => Throw e
      | Return _ => Return VUndefined
      end
  end.

(** The functions that the two copies write with [function], in files
    without ['use strict'].  V8 gives such a function own [arguments]
    and [caller] properties: null, read-only and not configurable. *)
Definition nonStrictFunction (c : closure) : bool :=
  match c with
  | MethodProxy _ _ _ _ | ListenerProxy _ _ | RemoveListenerProxy _ _
  | ReactContextConsumer _ _ | ReactComponentProxy _ _ | ReactHookProxy _ _
  | SafePropertyProxy _ _ => true
  | _ => false
  end.

Definition argumentsOrCaller (prop : propkey) : bool :=
  match prop with
  | KString name => arrayIncludes ["arguments"; "caller"] name
  | KSymbol _ => false
  end.

Definition invariantViolated : value :=
  typeError "'get' on proxy: property is a read-only and non-configurable data property on the proxy target but the proxy did not return its actual value".

(** The [get] trap of [createSafePropertyProxy].  The target of the
    proxy is the function [safeObject]: for its [arguments] and
    [caller] the trap returns a new stand-in where the target holds
    null, which the engine refuses. *)
Definition safePropertyGet (moduleName prop : string) (nestedProp : propkey)
    : outcome value :=
  let fullPath := dotted moduleName prop in
  if match nestedProp with KString name => String.eqb name "toString" | _ => false end
  then Return (VLib (ConstantFunction (VStr ("[SafeProxy: " ++ fullPath ++ "]"))))
  else if match nestedProp with KString name => String.eqb name "valueOf" | _ => false end
  then Return (VLib (ConstantFunction VNull))
  else if match nestedProp with
          | KSymbol description => String.eqb description "Symbol.toPrimitive"
          | _ => false
          end
  then Return (VLib (ConstantFunction VNull))
  else
    match keyToString nestedProp with
    | Throw e => Throw e
    | Return nested =>
        if argumentsOrCaller nestedProp then Throw invariantViolated
        else Return (VLib (SafePropertyProxy fullPath nested))
    end.

(** [prop in obj].  A proxy without a [has] trap answers for its
    target, an empty object literal. *)
Fixpoint hasProperty (obj : value) (prop : propkey) : outcome bool :=
  match obj with
  | VUndefined | VNull | VBool _ | VNum _ | VStr _ =>
      Throw (typeError "Cannot use 'in' operator to search for a key in a primitive")
  | VObj fields =>
      Return (match prop with
              | KString name =>
                  match assoc fields name with
                  | Some _ => true
                  | None => false
                  end
              | KSymbol _ => false
              end || inheritedFromObject prop)
  | VLib (ProxyWrapper _ target moduleName _) =>
      match hasProperty target prop with
      | Throw e => Throw e
      | Return true => Return true
      | Return false => FallbackManager.hasFallback fm moduleName prop
      end
  | VLib (FallbackProxy _ path) | VLib (FallbackObjectProxy path) =>
      if match prop with
         | KString name => arrayIncludes ["toString"; "valueOf"] name
         | KSymbol _ => false
         end
      then Return true
      else FallbackManager.hasFallback fm path prop
  | VLib (EventEmitterProxy _ _) | VLib (ReactContextProxy _ _) =>
      Return (inheritedFromObject prop)
  | _ => Return (hostHas host obj prop)
  end.

(** Whether [obj] fixes the value that a proxy around it may report
    for [prop].  The wrapper answers for its target (its
    [getOwnPropertyDescriptor] trap hands out the descriptor of the
    target), the other proxies of the library have an empty object
    literal as target. *)
Fixpoint fixes (obj : value) (prop : propkey) : bool :=
  match obj with
  | VLib (ProxyWrapper _ target _ _) => fixes target prop
  | VLib (FallbackProxy _ _) | VLib (FallbackObjectProxy _)
  | VLib (EventEmitterProxy _ _) | VLib (ReactContextProxy _ _) => false
  | VLib (GeneratedComponent _ _ _) | VLib (GeneratedConsumer _ _ _) =>
      hostFixes host obj prop
  | VLib c => nonStrictFunction c && argumentsOrCaller prop
  | _ => hostFixes host obj prop
  end.

(** [obj[prop]].  What the [get] trap of the wrapper hands out in the
    place of the value of the target is refused by the engine, with a
    [TypeError], when the target fixes that value. *)
Fixpoint getProperty (obj : value) (prop : propkey) : outcome value :=
  match obj with
  | VUndefined | VNull =>
      Throw (typeError "Cannot read properties of undefined or null")
  | VObj fields =>
      match prop with
      | KString name =>
          match assoc fields name with
          | Some v => Return v
          | None =>
              Return (if inheritedFromObject prop then VIntrinsic name
                      else VUndefined)
          end
      | KSymbol _ => Return VUndefined
      end
  | VLib (ProxyWrapper fl target moduleName config) =>
      match hasProperty target prop with
      | Throw e => Throw e
      | Return true =>
          match getProperty target prop with
          | Throw e => Throw e
          | Return v =>
              match wrapExisting fl moduleName config prop v with
              | Throw e => Throw e
              | Return None => Return v
              | Return (Some handed) =>
                  if fixes target prop then Throw invariantViolated
                  else Return handed
              end
          end
      | Return false => fallbackForMissing fl moduleName config prop
      end
  | VLib (FallbackProxy fl moduleName) => fallbackProxyGet fl moduleName prop
  | VLib (FallbackObjectProxy path) => fallbackObjectProxyGet path prop
  | VLib (EventEmitterProxy p m) => eventEmitterGet p m prop
  | VLib (ReactContextProxy p m) => reactContextGet p m prop
  | VLib (SafePropertyProxy m p) => safePropertyGet m p prop
  | VError (Error name message) =>
      match prop with
      | KString "message" => Return (VStr message)
      | KString "name" => Return (VStr name)
      | _ => hostGet host obj prop
      end
  | _ => hostGet host obj prop
  end.

(** The state of a promise that is resolved with [v]: a promise hands
    on its own state, another thenable decides through the resolving
    functions that its [then] is called with, and any other value
    fulfils the promise. *)
Definition settle (v : value) : list call * outcome value :=
  match v with
  | VPromise state => ([], state)
  | _ =>
      if isObject v || isFunction v then
        match getProperty v (KString "then") with
        | Throw e => ([], Throw e)
        | Return thenMember =>
            if isFunction thenMember
            then callFunction host thenMember resolvingFunctions
            else ([], Return v)
        end
      else ([], Return v)
  end.

(** [.catch(handler)] on a settled promise: a fulfilled promise keeps
    its value; a rejected one is resolved with what the handler
    returns, or rejected with what it throws. *)
Definition catchRejection (settled : outcome value)
    (handler : value -> traced call value) : traced call value :=
  match settled with
  | Return v => ret (VPromise (Return v))
  | Throw e =>
      match handler e with
      | (t, Throw e') => (t, Return (VPromise (Throw e')))
      | (t, Return v) =>
          let '(t', state) := settle v in (t ++ t', Return (VPromise state))
      end
  end.

(** What [createMethodProxy] does with the value that the method threw
    or with the reason of the rejection: the warning prints
    [error.message], then the manager decides. *)
Definition handleFailure (fullMethodName : string) (args : list value)
    (config : value) (error : value) : traced call value :=
  let* _ := ([], getProperty error (KString "message")) in
  FallbackManager.handleMethodError host getProperty fm fullMethodName
    error args config.

(** The function that [createMethodProxy] returns, applied to [args].
    A result with a callable [then] has its [catch] called with the
    handler: that of a promise is [Promise.prototype.catch], that of
    another thenable is whatever the thenable has under that name. *)
Definition callMethodProxy (originalMethod : value) (methodName : propkey)
    (moduleName : string) (config : value) (args : list value)
    : traced call value :=
  match keyToString methodName with
  | Throw e => throw e
  | Return name =>
      let fullMethodName := dotted moduleName name in
      try_catch
        (let* result := callFunction host originalMethod args in
         match result with
         | VPromise settled =>
             catchRejection settled (handleFailure fullMethodName args config)
         | _ =>
             if truthy result then
               let* thenMember := ([], getProperty result (KString "then")) in
               if isFunction thenMember then
                 let* catchMember :=
                   ([], getProperty result (KString "catch")) in
                 if isFunction catchMember
                 then callFunction host catchMember
                        [VLib (RejectionHandler fullMethodName args config)]
                 else throw (typeError "result.catch is not a function")
               else ret result
             else ret result
         end)
        (handleFailure fullMethodName args config)
  end.

(** The [Consumer] of a context stand-in closed over [defaultValue]:
    [function (props = {}) { const { children } = props; ... }]. *)
Definition callConsumer (defaultValue : value) (args : list value)
    : traced call value :=
  let props :=
    match args with
    | [] | VUndefined :: _ => VObj []
    | p :: _ => p
    end in
  match getProperty props (KString "children") with
  | Throw e => throw e
  | Return children =>
      if isFunction children
      then callFunction host children [defaultValue]
      else ret (orElse children VNull)
  end.

(** The function that [createReactComponentProxy] returns, applied
    to [args]. *)
Definition callComponent (prop moduleName : string) (args : list value)
    : traced call value :=
  let props :=
    match args with
    | [] | VUndefined :: _ => VObj []
    | p :: _ => p
    end in
  match windowReact host with
  | Some createElement =>
      let* children := ([], getProperty props (KString "children")) in
      callFunction host createElement
        [VStr "div";
         VObj [("data-fallback", VStr (dotted moduleName prop));
               ("style", VObj [("display", VStr "contents")])];
         children]
  | None =>
      try_catch
        match reactNative host with
        | Some (View, createElement) =>
            let* children := ([], getProperty props (KString "children")) in
            callFunction host createElement [View; props; children]
        | None =>
            throw (VError (Error "Error" "Cannot find module 'react-native'"))
        end
        (fun _ =>
           let* children := ([], getProperty props (KString "children")) in
           ret (VObj [("type", VStr "mock-component");
                      ("props", props);
                      ("children", children)]))
  end.

(** The body of [createReactHookProxy]'s function. *)
Definition callHook (prop : string) : value :=
  if includes prop "SafeArea" || includes prop "Insets" then zeroInsets
  else if includes prop "Frame" || includes prop "Dimensions" then zeroFrame
  else if includes prop "State" || includes prop "Value"
  then VArr [VNull; VLib (ConstantFunction VUndefined)]
  else VNull.

(** Calling a function that the library built.  The built-in
    fallbacks go to the browser and the generated components to the
    rendering library: their calls belong to the host.  The listener
    stand-ins put their first argument, the event, into a log line. *)
Definition applyClosure (c : closure) (args : list value)
    : traced call value :=
  match c with
  | MethodProxy originalMethod methodName moduleName config =>
      callMethodProxy originalMethod methodName moduleName config args
  | ReactContextConsumer _ _ => callConsumer contextDefaultValue args
  | ReactComponentProxy prop moduleName => callComponent prop moduleName args
  | GeneratedConsumer _ _ defaultValue => callConsumer defaultValue args
  | RejectionHandler fullMethodName failedArgs config =>
      handleFailure fullMethodName failedArgs config (nth 0 args VUndefined)
  | MethodStub _ returnValue => ret returnValue
  | ConstantFunction result => ret result
  | ListenerProxy prop moduleName =>
      let event := nth 0 args VUndefined in
      let* _ := interpolate host event in
      ret (VObj [("remove", VLib (SubscriptionRemove prop moduleName event))])
  | RemoveListenerProxy _ _ =>
      let* _ := interpolate host (nth 0 args VUndefined) in
      ret VUndefined
  | SubscriptionRemove _ _ event =>
      let* _ := interpolate host event in
      ret VUndefined
  | ReactHookProxy prop _ => ret (callHook prop)
  | SafePropertyProxy moduleName prop =>
      ([], FallbackManager.getFallbackValue fm moduleName (KString prop)
             (VObj []))
  | _ => callFunction host (VLib c) args
  end.

End WithManager.

End ProxyWrapper.

(** ** wrapper-generator.js *)

Module WrapperGenerator.
Import JsString Js JsValue.

(** [generateReactContextWrapper(key, exportInfo, moduleName)]; the
    destructuring of [exportInfo] needs an object. *)
Definition generateReactContextWrapper (key : string) (exportInfo : value)
    (moduleName : string) : outcome value :=
  match exportInfo with
  | VUndefined | VNull =>
      Throw (typeError "Cannot destructure property 'hasProvider' of 'exportInfo'")
  | _ =>
      let defaultValue := getField exportInfo "defaultValue" in
      let contextDefaultValue :=
        orElse defaultValue ProxyWrapper.contextDefaultValue in
      Return (VObj [
        ("_currentValue", contextDefaultValue);
        ("_context", contextDefaultValue);
        ("Provider",
         VLib (GeneratedComponent (key ++ ".Provider") "provider" moduleName));
        ("Consumer", VLib (GeneratedConsumer key moduleName contextDefaultValue))
      ])
  end.

End WrapperGenerator.

(** ** platform-detector.js and runtime-resolver.js *)

Module RuntimeResolver.
Import JsString Js JsValue.

(** What the probes of [detectPlatform] find in the running process. *)
Record Environment : Type := {
  reactNativePlatformOS : option string;
  hasWindow : bool;
  hasDocument : bool;
  hasNodeVersion : bool;
  navigatorProduct : option string;
  userAgent : option string;
  hasFetch : bool;
  hasHeaders : bool;
  hasRequest : bool
}.

Definition nonEmpty (o : option string) : option string :=
  match o with
  | Some s => if String.eqb s "" then None else Some s
  | None => None
  end.

Definition detectPlatform (env : Environment) : string :=
  match nonEmpty (reactNativePlatformOS env) with
  | Some os => os
  | None =>
      if hasWindow env && hasDocument env then "web"
      else if hasNodeVersion env then "node"
      else if match navigatorProduct env with
              | Some product => String.eqb product "ReactNative"
              | None => false
              end
      then "native"
      else
        match nonEmpty (userAgent env) with
        | Some ua =>
            if includes ua "iPhone" || includes ua "iPad" then "ios"
            else if includes ua "Android" then "android"
            else "web"
        | None =>
            if hasFetch env && hasHeaders env && hasRequest env then "web"
            else "unknown"
        end
  end.

(** What [resolve] hands back: the module object it was given, or the
    proxy it constructed, named by its address in the store of the
    resolver.  Two results are the same reference exactly when they are
    equal. *)
Inductive moduleRef : Type :=
| Unwrapped (originalModule : value)
| Wrapped (address : nat).

(** The configuration of an instance, and its mutable state: the cached
    platform of its detector, the module cache, and the proxies it has
    constructed so far. *)
Record Config : Type := {
  modules : gmap string value;
  fallbacks : FallbackManager.Config
}.

Record State : Type := {
  cachedPlatform : option string;
  moduleCache : gmap string moduleRef;
  proxies : list value
}.

(** [new RuntimeResolver(config)] *)
Definition initial : State :=
  {| cachedPlatform := None; moduleCache := ∅; proxies := [] |}.

(** [PlatformDetector.isWeb] *)
Definition isWeb (env : Environment) (st : State) : bool * State :=
  match cachedPlatform st with
  | Some platform => (String.eqb platform "web", st)
  | None =>
      let platform := detectPlatform env in
      (String.eqb platform "web",
       {| cachedPlatform := Some platform;
          moduleCache := moduleCache st;
          proxies := proxies st |})
  end.

Definition cacheSet (moduleName : string) (r : moduleRef) (st : State) : State :=
  {| cachedPlatform := cachedPlatform st;
     moduleCache := <[moduleName := r]> (moduleCache st);
     proxies := proxies st |}.

Definition construct (proxy : value) (st : State) : nat * State :=
  (length (proxies st),
   {| cachedPlatform := cachedPlatform st;
      moduleCache := moduleCache st;
      proxies := proxies st ++ [proxy] |}).

Definition resolve (env : Environment) (cfg : Config) (st : State)
    (moduleName : string) (originalModule : value)
    : outcome moduleRef * State :=
  match moduleCache st !! moduleName with
  | Some cached => (Return cached, st)
  | None =>
      let '(web, st1) := isWeb env st in
      let moduleConfig :=
        orElse (FallbackManager.tableGet (modules cfg) moduleName) (VObj []) in
      if negb web then
        (Return (Unwrapped originalModule),
         cacheSet moduleName (Unwrapped originalModule) st1)
      else
        match ProxyWrapper.createProxyWrapper Plain originalModule moduleName
                moduleConfig with
        | Throw e => (Throw e, st1)
        | Return proxyWrapper =>
            let '(address, st2) := construct proxyWrapper st1 in
            (Return (Wrapped address), cacheSet moduleName (Wrapped address) st2)
        end
  end.

(** A run of [resolve] calls on one resolver, results dropped. *)
Fixpoint resolveAll (env : Environment) (cfg : Config) (st : State)
    (calls : list (string * value)) : State :=
  match calls with
  | [] => st
  | (moduleName, originalModule) :: rest =>
      resolveAll env cfg (snd (resolve env cfg st moduleName originalModule)) rest
  end.

End RuntimeResolver.

(** ** The fallback policy, as the specification words it *)

Module Policy.
Import JsString Js JsValue FallbackManager.

(** The three origins of a rule for a method or property of a module:
    the fallback passed with the operation, the entry of the per-module
    table under the dotted path, and the entry of the built-in table of
    the module. *)
Definition perCall (callConfig : value) : option value :=
  match callConfig with
  | VObj fields => assoc fields "fallback"
  | _ => None
  end.
Definition perModule (fm : Manager) (moduleName name : string) : option value :=
  customFallbacks (config fm) !! ProxyWrapper.dotted moduleName name.
Definition builtIn (fm : Manager) (moduleName name : string) : option value :=
  match builtInFallbacks fm !! moduleName with
  | Some rules => rules !! name
  | None => None
  end.

(** The entry of an origin when it is a rule; [counts] says which
    entries are rules.  In the words of the specification every entry
    is one. *)
Definition rule (counts : value -> bool) (entry : option value)
    : option value :=
  match entry with
  | Some r => if counts r then Some r else None
  | None => None
  end.






(** The membership test is to report the keys for which the policy
    declares a rule. *)
Definition member (counts : value -> bool) (fm : Manager)
    (moduleName name : string) (callConfig : value) : bool :=
  match rule counts (perCall callConfig),
        rule counts (perModule fm moduleName name),
        rule counts (builtIn fm moduleName name) with
  | None, None, None => false
  | _, _, _ => true
  end.

End Policy.

(** ** Concrete configurations used in the examples *)

Module Scenario.
Import Js.

(** A project in which no package metadata can be read. *)
Definition noMetadata : Classifier.FileSystem :=
  {| Classifier.readPackageJson := fun _ => None;
     Classifier.readModuleDir := fun _ => None |}.

(** A bundler that resolves every module name to a path, except [bad],
    and refuses what is not a string. *)
Definition bundlerFailingOn (bad : string) (ctx : unit)
    (moduleName : Resolver.identifier) (platform : option string)
    : outcome string :=
  match moduleName with
  | Resolver.Name name =>
      if String.eqb name bad
      then Throw (Error "Error" ("Unable to resolve module " ++ name))
      else Return ("node_modules/" ++ name)%string
  | Resolver.Member _ =>
      Throw (Error "TypeError" "moduleName.startsWith is not a function")
  end.

Definition bundler
    : unit -> Resolver.identifier -> option string -> outcome string :=
  bundlerFailingOn "".

Definition mockGenerator (moduleName : string) (ctx : unit)
    (options : Resolver.Options) : outcome string :=
  Return (".metro-web-compat/mocks/" ++ moduleName ++ ".js")%string.

Definition withStrategy (strategy : string) (mocks : bool)
    (options : Resolver.Options) : Resolver.Options :=
  {| Resolver.moduleMap := Resolver.moduleMap options;
     Resolver.overrides := Resolver.overrides options;
     Resolver.fallbackStrategy := strategy;
     Resolver.webPlatforms := Resolver.webPlatforms options;
     Resolver.generateMocks := mocks;
     Resolver.confidenceThreshold := Resolver.confidenceThreshold options;
     Resolver.excludePatterns := Resolver.excludePatterns options;
     Resolver.forceIncludePatterns := Resolver.forceIncludePatterns options |}.

Definition withOverride (source substitute : string)
    (options : Resolver.Options) : Resolver.Options :=
  {| Resolver.moduleMap := Resolver.moduleMap options;
     Resolver.overrides := <[source := substitute]> (Resolver.overrides options);
     Resolver.fallbackStrategy := Resolver.fallbackStrategy options;
     Resolver.webPlatforms := Resolver.webPlatforms options;
     Resolver.generateMocks := Resolver.generateMocks options;
     Resolver.confidenceThreshold := Resolver.confidenceThreshold options;
     Resolver.excludePatterns := Resolver.excludePatterns options;
     Resolver.forceIncludePatterns := Resolver.forceIncludePatterns options |}.

Definition excluding (moduleName : string) (options : Resolver.Options)
    : Resolver.Options :=
  {| Resolver.moduleMap := Resolver.moduleMap options;
     Resolver.overrides := Resolver.overrides options;
     Resolver.fallbackStrategy := Resolver.fallbackStrategy options;
     Resolver.webPlatforms := Resolver.webPlatforms options;
     Resolver.generateMocks := Resolver.generateMocks options;
     Resolver.confidenceThreshold := Resolver.confidenceThreshold options;
     Resolver.excludePatterns :=
       Resolver.PatString moduleName :: Resolver.excludePatterns options;
     Resolver.forceIncludePatterns := Resolver.forceIncludePatterns options |}.

Import JsValue.

(** An application with an empty module object, a method [VHostFun 0]
    that throws an error, a method [VHostFun 1] whose promise rejects
    with it, a callback [VHostFun 2], and a method [VHostFun 3] that
    throws [null]; no rendering library is loaded. *)
Definition failure : value := VError (Error "Error" "not supported on web").

Definition application : Host :=
  {| hostHas := fun _ _ => false;
     hostGet := fun _ _ => Return VUndefined;
     hostCall := fun f args =>
       match f with
       | VHostFun 0 => Throw failure
       | VHostFun 1 => Return (VPromise (Throw failure))
       | VHostFun 2 => Return (VStr "rendered")
       | VHostFun 3 => Throw VNull
       | _ => Return VUndefined
       end;
     hostFixes := fun _ _ => false;
     windowReact := None;
     reactNative := None |}.

Definition manager : FallbackManager.Manager :=
  FallbackManager.create FallbackManager.defaultConfig.

(** The wrapper of the demo application around the empty module [m]. *)
Definition wrappedModule : value :=
  VLib (ProxyWrapper Smart (VHostObj 0) "m" (VObj [])).

(** A browser, and a native device on which [react-native] reports
    [ios]. *)
Definition browser : RuntimeResolver.Environment :=
  {| RuntimeResolver.reactNativePlatformOS := None;
     RuntimeResolver.hasWindow := true;
     RuntimeResolver.hasDocument := true;
     RuntimeResolver.hasNodeVersion := false;
     RuntimeResolver.navigatorProduct := Some "Gecko";
     RuntimeResolver.userAgent := Some "Mozilla/5.0";
     RuntimeResolver.hasFetch := true;
     RuntimeResolver.hasHeaders := true;
     RuntimeResolver.hasRequest := true |}.

Definition device : RuntimeResolver.Environment :=
  {| RuntimeResolver.reactNativePlatformOS := Some "ios";
     RuntimeResolver.hasWindow := false;
     RuntimeResolver.hasDocument := false;
     RuntimeResolver.hasNodeVersion := false;
     RuntimeResolver.navigatorProduct := Some "ReactNative";
     RuntimeResolver.userAgent := None;
     RuntimeResolver.hasFetch := true;
     RuntimeResolver.hasHeaders := true;
     RuntimeResolver.hasRequest := true |}.

Definition resolverConfig : RuntimeResolver.Config :=
  {| RuntimeResolver.modules := ∅;
     RuntimeResolver.fallbacks := FallbackManager.defaultConfig |}.

End Scenario.

(** ** The mapping tiers, as the specification names them *)

Module Tiers.
Import Resolver.

Inductive tier : Type := Override | UserMap | BuiltIn.

Definition table (options : Options) (t : tier) : gmap string string :=
  match t with
  | Override => overrides options
  | UserMap => moduleMap options
  | BuiltIn => BUILT_IN_MAPPINGS
  end.

(** Strict precedence: override > userMap > builtIn. *)
Definition rank (t : tier) : nat :=
  match t with
  | Override => 0
  | UserMap => 1
  | BuiltIn => 2
  end.

(** The tier [t] maps [moduleName] to the non-empty [substitute]. *)
Definition maps (options : Options) (t : tier) (moduleName substitute : string)
    : Prop :=
  table options t !! moduleName = Some substitute /\ substitute <> "".

(** No tier of higher precedence than [t] maps [moduleName] to a
    non-empty substitute. *)
Definition highest (options : Options) (t : tier) (moduleName : string) : Prop :=
  forall t' substitute,
    rank t' < rank t -> ~ maps options t' moduleName substitute.

End Tiers.

(** * The rest of the library *)

(** ** pattern-detector.js, the package categories *)

Module PatternDetector.
Import JsString.

Definition getMobilePackageCategory (moduleName : string) : string :=
  if startsWith moduleName "expo-" then "expo"
  else if startsWith moduleName "@expo/" then "expo"
  else if startsWith moduleName "react-native-" then "react-native"
  else if startsWith moduleName "@react-native-" then "react-native"
  else if startsWith moduleName "@react-native-community/"
  then "react-native-community"
  else if startsWith moduleName "@react-navigation/" then "react-navigation"
  else "third-party".

End PatternDetector.

(** ** utils/platform-detector.js, the build platforms *)

Module BuildPlatform.
Import JsString.

Definition DEFAULT_WEB_PLATFORMS : list string := ["web"; "browser"; "dom"].

Definition isMobilePlatform (platform : option string) : bool :=
  let mobilePlatforms := ["ios"; "android"; "native"] in
  match platform with
  | None => false
  | Some p =>
      if String.eqb p "" then false
      else arrayIncludes mobilePlatforms (toLowerCase p)
  end.

Definition isPlatformSpecific (platform : option string) : bool :=
  Resolver.isWebPlatform platform DEFAULT_WEB_PLATFORMS ||
  isMobilePlatform platform.

(** [platform === s] *)
Definition platformIs (platform : option string) (s : string) : bool :=
  match platform with
  | Some p => String.eqb p s
  | None => false
  end.

Definition getPlatformExtensions (platform : option string) : list string :=
  let extensions := [".js"; ".jsx"; ".ts"; ".tsx"; ".json"] in
  if Resolver.isWebPlatform platform DEFAULT_WEB_PLATFORMS
  then [".web.js"; ".web.jsx"; ".web.ts"; ".web.tsx"] ++ extensions
  else if platformIs platform "ios"
  then [".ios.js"; ".ios.jsx"; ".ios.ts"; ".ios.tsx"; ".native.js";
        ".native.jsx"; ".native.ts"; ".native.tsx"] ++ extensions
  else if platformIs platform "android"
  then [".android.js"; ".android.jsx"; ".android.ts"; ".android.tsx";
        ".native.js"; ".native.jsx"; ".native.ts"; ".native.tsx"] ++ extensions
  else extensions.

Definition shouldUsePlatformSpecificVersion (filePath : string)
    (platform : option string) : bool :=
  let platformExtensions := getPlatformExtensions platform in
  let platformSpecificExtensions := firstn 4 platformExtensions in
  existsb (fun ext => includes filePath ext) platformSpecificExtensions.

End BuildPlatform.

(** ** Variations of a project and of the options *)

Module Variations.
Import Classifier.

(** The same [package.json] with the [peerDependencies] field removed. *)
Definition withoutPeerDependencies (pkg : PackageJson) : PackageJson :=
  {| keywords := keywords pkg;
     browser := browser pkg;
     reactNativeWebField := reactNativeWebField pkg;
     files := files pkg;
     peerDependencies := None |}.

(** The same project in which no [package.json] declares peer
    dependencies. *)
Definition ignoringPeerDependencies (fs : FileSystem) : FileSystem :=
  {| readPackageJson := fun moduleName =>
       option_map withoutPeerDependencies (readPackageJson fs moduleName);
     readModuleDir := readModuleDir fs |}.

(** The options with another [confidenceThreshold]. *)
Definition withThreshold (threshold : string) (options : Resolver.Options)
    : Resolver.Options :=
  {| Resolver.moduleMap := Resolver.moduleMap options;
     Resolver.overrides := Resolver.overrides options;
     Resolver.fallbackStrategy := Resolver.fallbackStrategy options;
     Resolver.webPlatforms := Resolver.webPlatforms options;
     Resolver.generateMocks := Resolver.generateMocks options;
     Resolver.confidenceThreshold := threshold;
     Resolver.excludePatterns := Resolver.excludePatterns options;
     Resolver.forceIncludePatterns := Resolver.forceIncludePatterns options |}.

End Variations.

(** ** logger.js *)

Module Logger.
Import JsString JsValue.

(** The four levels at which the library logs. *)
Inductive severity : Type := Debug | Info | Warn | Error.

(** [this.levels[name]]: a number for the five level names, a member of
    [Object.prototype] for the names every object inherits, [undefined]
    otherwise. *)
Inductive entry : Type :=
| Level (n : nat)
| Inherited
| Absent.

Definition levels (name : string) : entry :=
  if String.eqb name "debug" then Level 0
  else if String.eqb name "info" then Level 1
  else if String.eqb name "warn" then Level 2
  else if String.eqb name "error" then Level 3
  else if String.eqb name "silent" then Level 4
  else if arrayIncludes objectPrototypeMembers name then Inherited
  else Absent.

Definition severityLevel (s : severity) : nat :=
  match s with
  | Debug => 0
  | Info => 1
  | Warn => 2
  | Error => 3
  end.

(** [this.levels[level] || this.levels.warn]; [None] is a value that is
    not a number, with which every comparison is false. *)
Definition currentLevelOf (level : string) : option nat :=
  match levels level with
  | Level 0 => Some 2
  | Level n => Some n
  | Inherited => None
  | Absent => Some 2
  end.

Record Logger : Type := {
  enabled : bool;
  level : string;
  currentLevel : option nat;
  prefix : string
}.

(** [new Logger(enabled, level)] *)
Definition create (enabled : bool) (level : string) : Logger :=
  {| enabled := enabled;
     level := level;
     currentLevel := currentLevelOf level;
     prefix := "[RuntimeResolver]" |}.

(** [shouldLog(level)], which the library calls with one of the four
    literal levels. *)
Definition shouldLog (logger : Logger) (s : severity) : bool :=
  if negb (enabled logger) then false
  else
    match currentLevel logger with
    | Some current => (current <=? severityLevel s)%nat
    | None => false
    end.

(** [updateConfig(enabled, level)]; [None] is an argument that is
    [undefined]. *)
Definition updateConfig (newEnabled : option bool) (newLevel : option string)
    (logger : Logger) : Logger :=
  let enabled' :=
    match newEnabled with
    | Some e => e
    | None => enabled logger
    end in
  match newLevel with
  | Some l =>
      {| enabled := enabled'; level := l; currentLevel := currentLevelOf l;
         prefix := prefix logger |}
  | None =>
      {| enabled := enabled'; level := level logger;
         currentLevel := currentLevel logger; prefix := prefix logger |}
  end.

Definition createChild (logger : Logger) (context : string) : Logger :=
  {| enabled := enabled logger;
     level := level logger;
     currentLevel := currentLevelOf (level logger);
     prefix := prefix logger ++ "[" ++ context ++ "]" |}.

(** What reaches the console: the level and the message (the prefix and
    the time stamp of the line are left out). *)
Definition log (logger : Logger) (s : severity) (message : string)
    : list (severity * string) :=
  if shouldLog logger s then [(s, message)] else [].

Definition logModuleEvent (logger : Logger) (moduleName action : string)
    : list (severity * string) :=
  let message := ("Module " ++ quoted moduleName ++ " " ++ action)%string in
  if String.eqb action "resolved" then log logger Debug message
  else if String.eqb action "fallback" then log logger Warn message
  else if String.eqb action "error" then log logger Error message
  else log logger Info message.

Definition logMethodCall (logger : Logger) (methodName result : string)
    : list (severity * string) :=
  let message := ("Method " ++ quoted methodName ++ " " ++ result)%string in
  if String.eqb result "success" then log logger Debug message
  else if String.eqb result "fallback" then log logger Warn message
  else if String.eqb result "error" then log logger Error message
  else log logger Info message.

(** [duration] is the number as the template prints it. *)
Definition logPerformance (logger : Logger) (operation duration : string)
    : list (severity * string) :=
  if shouldLog logger Debug
  then log logger Debug
         ("Performance: " ++ operation ++ " took " ++ duration ++ "ms")%string
  else [].

(** The calls that reconfigure a logger or derive another one from it. *)
Inductive step : Type :=
| Update (newEnabled : option bool) (newLevel : option string)
| Child (context : string).

Fixpoint configure (logger : Logger) (steps : list step) : Logger :=
  match steps with
  | [] => logger
  | Update newEnabled newLevel :: rest =>
      configure (updateConfig newEnabled newLevel logger) rest
  | Child context :: rest => configure (createChild logger context) rest
  end.

End Logger.

(** ** fallback-manager.js, the tables as a whole *)

Module FallbackTables.
Import JsString Js JsValue FallbackManager.

(** [key.substring(n)] *)
Definition substringFrom (key : string) (n : nat) : string :=
  String.substring n (String.length key - n) key.

(** [getFallbackKeys(moduleName)].  The keys of a table come in the
    order of [map_to_list]; a name that the table object only inherits
    gives a function or an object without keys of its own. *)
Definition getFallbackKeys (fm : Manager) (moduleName : string) : list string :=
  let custom :=
    omap (fun entry : string * value =>
            if startsWith (fst entry) (moduleName ++ ".")
            then Some (substringFrom (fst entry) (String.length moduleName + 1))
            else None)
         (map_to_list (customFallbacks (config fm))) in
  custom ++
  match builtInFallbacks fm !! moduleName with
  | Some methods => map fst (map_to_list methods)
  | None => []
  end.

(** What [createFallbackModule] returns: a copy of the built-in table of
    the module, or the proxy that asks [getFallbackValue] on every
    read. *)
Inductive fallbackModule : Type :=
| BuiltInCopy (methods : gmap string value)
| GenericFallback (moduleName : string).

(** A module name that the table object inherits is truthy there and is
    copied as an object without properties. *)
Definition createFallbackModule (fm : Manager) (moduleName : string)
    : fallbackModule :=
  match builtInFallbacks fm !! moduleName with
  | Some methods => BuiltInCopy methods
  | None =>
      if arrayIncludes objectPrototypeMembers moduleName
      then BuiltInCopy ∅
      else GenericFallback moduleName
  end.


(** The keys of a configuration object that [updateConfig] receives; an
    absent key is [None]. *)
Record ConfigUpdate : Type := {
  newReturnValue : option value;
  newThrowError : option value;
  newLogMessage : option bool;
  newCustomFallbacks : option (gmap string value)
}.

Definition noUpdate : ConfigUpdate :=
  {| newReturnValue := None; newThrowError := None; newLogMessage := None;
     newCustomFallbacks := None |}.

(** [this.config = { ...this.config, ...newConfig }] *)
Definition updateConfig (newConfig : ConfigUpdate) (fm : Manager) : Manager :=
  {| config :=
       {| returnValue :=
            default (returnValue (config fm)) (newReturnValue newConfig);
          throwError :=
            default (throwError (config fm)) (newThrowError newConfig);
          logMessage :=
            default (logMessage (config fm)) (newLogMessage newConfig);
          customFallbacks :=
            default (customFallbacks (config fm))
              (newCustomFallbacks newConfig) |};
     builtInFallbacks := builtInFallbacks fm |}.

End FallbackTables.

(** ** Chains of property reads *)

Module Chain.
Import Js JsValue ProxyWrapper.

(** [v.n1.n2. ... .nk] *)
Fixpoint readPath (host : Host) (fm : FallbackManager.Manager) (v : value)
    (names : list string) : outcome value :=
  match names with
  | [] => Return v
  | name :: rest =>
      match getProperty host fm v (KString name) with
      | Return v' => readPath host fm v' rest
      | Throw e => Throw e
      end
  end.

(** The dotted path [base.n1.n2. ... .nk] *)
Definition dottedPath (base : string) (names : list string) : string :=
  fold_left dotted names base.

End Chain.

(** ** platform-detector.js, the other queries *)

Module PlatformDetector.
Import JsString Js JsValue RuntimeResolver.

Definition getPlatform (env : Environment) (st : State) : string * State :=
  match cachedPlatform st with
  | Some platform => (platform, st)
  | None =>
      let platform := detectPlatform env in
      (platform,
       {| cachedPlatform := Some platform;
          moduleCache := moduleCache st;
          proxies := proxies st |})
  end.

Definition isNative (env : Environment) (st : State) : bool * State :=
  let '(web, st1) := isWeb env st in (negb web, st1).

Definition resetCache (st : State) : State :=
  {| cachedPlatform := None;
     moduleCache := moduleCache st;
     proxies := proxies st |}.

(** What the mode queries look at: [process.env.NODE_ENV], when there is
    a [process] with an [env], and the global [__DEV__], when it is
    defined and truthy. *)
Record Build : Type := {
  nodeEnv : option string;
  devFlag : bool
}.

Definition isDevelopment (build : Build) : bool :=
  if match nodeEnv build with
     | Some mode => String.eqb mode "development"
     | None => false
     end
  then true
  else if devFlag build then true
  else false.

Definition isProduction (build : Build) : bool :=
  if match nodeEnv build with
     | Some mode => String.eqb mode "production"
     | None => false
     end
  then true
  else negb (isDevelopment build).

(** The fields of [getEnvironmentInfo()] that come from the queries
    above, in the order in which the object literal evaluates them. *)
Record EnvironmentInfo : Type := {
  infoPlatform : string;
  infoIsWeb : bool;
  infoIsNative : bool;
  infoIsDevelopment : bool;
  infoIsProduction : bool
}.

Definition getEnvironmentInfo (env : Environment) (build : Build) (st : State)
    : EnvironmentInfo * State :=
  let '(platform, st1) := getPlatform env st in
  let '(web, st2) := isWeb env st1 in
  let '(native, st3) := isNative env st2 in
  ({| infoPlatform := platform;
      infoIsWeb := web;
      infoIsNative := native;
      infoIsDevelopment := isDevelopment build;
      infoIsProduction := isProduction build |},
   st3).

End PlatformDetector.

(** ** runtime-resolver.js, reconfiguration and imports *)

Module Lifecycle.
Import JsString Js JsValue RuntimeResolver.

(** The keys of the object that [updateConfig] receives, as far as the
    resolver and its fallback manager read them; an absent key is
    [None]. *)
Record ConfigUpdate : Type := {
  newModules : option (gmap string value);
  newFallbacks : option FallbackTables.ConfigUpdate
}.

(** [updateConfig(newConfig)]: the configuration is merged key by key,
    the fallback manager merges [newConfig.fallbacks || {}] into its
    own, and the module cache is cleared. *)
Definition updateConfig (newConfig : ConfigUpdate) (cfg : Config) (st : State)
    : Config * State :=
  ({| modules := default (modules cfg) (newModules newConfig);
      fallbacks :=
        FallbackManager.config
          (FallbackTables.updateConfig
             (default FallbackTables.noUpdate (newFallbacks newConfig))
             (FallbackManager.create (fallbacks cfg))) |},
   {| cachedPlatform := cachedPlatform st;
      moduleCache := ∅;
      proxies := proxies st |}).

(** What [wrapImport] resolves with: the result of [resolve], or the
    module that the fallback manager makes up. *)
Inductive imported : Type :=
| Resolved (r : moduleRef)
| Substitute (m : FallbackTables.fallbackModule).

(** [wrapImport(moduleName, importFunction)]; [importResult] is how
    [await importFunction()] ends: with the module, or with the [Error]
    object of a failed import. *)
Definition wrapImport (env : Environment) (cfg : Config)
    (fm : FallbackManager.Manager) (st : State) (moduleName : string)
    (importResult : Js.outcome value) : imported * State :=
  match importResult with
  | Throw _ =>
      (Substitute (FallbackTables.createFallbackModule fm moduleName), st)
  | Return originalModule =>
      match resolve env cfg st moduleName originalModule with
      | (Return r, st1) => (Resolved r, st1)
      | (Throw _, st1) =>
          (Substitute (FallbackTables.createFallbackModule fm moduleName), st1)
      end
  end.

(** The calls made on a resolver during its life, each in the
    environment of its moment. *)
Inductive operation : Type :=
| Resolve (env : Environment) (moduleName : string) (originalModule : value)
| Import (env : Environment) (moduleName : string)
    (importResult : Js.outcome value)
| Reconfigure (newConfig : ConfigUpdate).

Definition perform (op : operation) (cfg : Config) (st : State)
    : Config * State :=
  match op with
  | Resolve env moduleName originalModule =>
      (cfg, snd (resolve env cfg st moduleName originalModule))
  | Import env moduleName importResult =>
      (cfg, snd (wrapImport env cfg (FallbackManager.create (fallbacks cfg)) st
                   moduleName importResult))
  | Reconfigure newConfig => updateConfig newConfig cfg st
  end.

Fixpoint run (ops : list operation) (cfg : Config) (st : State)
    : Config * State :=
  match ops with
  | [] => (cfg, st)
  | op :: rest =>
      let '(cfg1, st1) := perform op cfg st in run rest cfg1 st1
  end.

(** The proxy [proxy] was built for the module name [moduleName]. *)
Definition proxyOf (moduleName : string) (proxy : value) : bool :=
  match proxy with
  | VLib (ProxyWrapper Plain _ name _) => String.eqb name moduleName
  | VLib (FallbackProxy Plain name) => String.eqb name moduleName
  | _ => false
  end.

End Lifecycle.

(** * Properties *)

(** ** The identifier classifier *)

Section ClassifierFacts.
Import JsString Classifier.
Variable fs : FileSystem.

(** [isTrulyNativeModule] decides "not native" for an identifier that
    mentions neither namespace, whatever the package metadata and the
    keywords in its name. *)
Lemma isTrulyNativeModule_without_namespace moduleName :
  includes moduleName "react-native" = false ->
  includes moduleName "expo" = false ->
  isTrulyNativeModule fs moduleName = false.
Proof.
  intros Hrn Hexpo. unfold isTrulyNativeModule.
  rewrite Hrn, Hexpo. cbn [negb andb].
  destruct (arrayIncludes _ _); [reflexivity|].
  destruct (testPrefixIgnoreCase "react-native-web" _); [reflexivity|].
  destruct (testPrefixIgnoreCase "expo-web" _); reflexivity.
Qed.

(** In [getNativeDetectionConfidence] a keyword in the name decides
    "native, medium" as soon as the package metadata is silent, with no
    look at the namespace. *)
Lemma getNativeDetectionConfidence_keyword moduleName :
  arrayIncludes WEB_COMPATIBLE_LIBRARIES moduleName = false ->
  readPackageJson fs moduleName = None ->
  hasNativeOnlyPatterns moduleName = true ->
  isNative (getNativeDetectionConfidence fs moduleName) = true /\
  confidence (getNativeDetectionConfidence fs moduleName) = "medium".
Proof.
  intros Hweb Hpkg Hkw. unfold getNativeDetectionConfidence.
  rewrite Hweb. unfold checkPackageJsonPlatformSupport. rewrite Hpkg, Hkw.
  split; reflexivity.
Qed.
End ClassifierFacts.

(** C8.  For an identifier that mentions neither mobile namespace the
    classifier must answer "not mobile-only" before any metadata or
    keyword rule.  [isTrulyNativeModule] does
    ([isTrulyNativeModule_without_namespace]); the classifier that the
    resolver consults, [getNativeDetectionConfidence], has no such rule:
    on ["video.js"], which mentions neither namespace, it answers
    mobile-only with medium confidence because the name contains
    "video". *)
Theorem getNativeDetectionConfidence_video_js :
  JsString.includes "video.js" "react-native" = false /\
  JsString.includes "video.js" "expo" = false /\
  Classifier.isTrulyNativeModule Scenario.noMetadata "video.js" = false /\
  Classifier.getNativeDetectionConfidence Scenario.noMetadata "video.js" =
    {| Classifier.isNative := true;
       Classifier.confidence := "medium";
       Classifier.reason := "module name suggests native-only functionality" |}.
Proof. repeat split; vm_compute; reflexivity. Qed.

(** The consequence in the improved resolver, with its default threshold:
    on the web the import of ["video.js"] is redirected to a generated
    mock. *)
Remark improved_resolver_mocks_video_js :
  Resolver.createImprovedWebCompatResolver Scenario.bundler
    Scenario.mockGenerator Scenario.noMetadata Resolver.defaultOptions tt
    "video.js" (Some "web")
  = ([Resolver.Delegated ".metro-web-compat/mocks/video.js.js"],
     Js.Return "node_modules/.metro-web-compat/mocks/video.js.js").
Proof. vm_compute. reflexivity. Qed.

(** ** The resolution policy engine *)

Section ResolverFacts.
Import JsString Js Resolver.
Context {context resolution : Type}.
Variable baseResolver :
  context -> identifier -> option string -> outcome resolution.
Variable generateAutoMock : string -> context -> Options -> outcome string.
Variable fs : Classifier.FileSystem.

Abbreviation webCompat := (createWebCompatResolver baseResolver generateAutoMock).
Abbreviation improved :=
  (createImprovedWebCompatResolver baseResolver generateAutoMock fs).
Abbreviation original ctx moduleName platform :=
  ([Delegated moduleName], baseResolver ctx moduleName platform).

Lemma lookupTruthy_maps options t moduleName substitute :
  Tiers.maps options t moduleName substitute ->
  lookupTruthy (Tiers.table options t) moduleName = Some (Name substitute).
Proof.
  intros [Hlookup Hne]. unfold lookupTruthy. rewrite Hlookup.
  destruct (String.eqb_spec substitute ""); congruence.
Qed.

(** A tier that has no entry for an identifier is passed over, unless
    the identifier is the name of a member of [Object.prototype], which
    the table inherits. *)
Lemma lookupTruthy_higher options t t' moduleName :
  arrayIncludes objectPrototypeMembers moduleName = false ->
  Tiers.highest options t moduleName ->
  Tiers.rank t' < Tiers.rank t ->
  lookupTruthy (Tiers.table options t') moduleName = None.
Proof.
  intros Hown Hhighest Hrank. unfold lookupTruthy.
  destruct (Tiers.table options t' !! moduleName) as [substitute|] eqn:Hlookup;
    [|now rewrite Hown].
  destruct (String.eqb_spec substitute ""); [reflexivity|].
  destruct (Hhighest t' substitute Hrank). now split.
Qed.

(** Off the web platforms both resolvers hand the identifier to the
    bundler as it is, outside any [try]. *)
Lemma native_target_delegates_original options ctx moduleName platform :
  isWebPlatform platform (webPlatforms options) = false ->
  webCompat options ctx moduleName platform = original ctx moduleName platform /\
  improved options ctx moduleName platform = original ctx moduleName platform.
Proof.
  intros Hweb. unfold createWebCompatResolver, createImprovedWebCompatResolver.
  rewrite Hweb. split; reflexivity.
Qed.

(** The first delegation of a mapped identifier is to the substitute of
    its highest tier. *)
Lemma webCompatAttempt_mapped options ctx moduleName platform t substitute :
  arrayIncludes objectPrototypeMembers moduleName = false ->
  Tiers.maps options t moduleName substitute ->
  Tiers.highest options t moduleName ->
  webCompatAttempt baseResolver generateAutoMock options ctx moduleName platform
  = ([Delegated substitute], baseResolver ctx substitute platform).
Proof.
  intros Hown Hmaps Hhighest. unfold webCompatAttempt.
  pose proof (lookupTruthy_maps _ _ _ _ Hmaps) as Hsub.
  pose proof (lookupTruthy_higher _ _ Tiers.Override _ Hown Hhighest) as Hover.
  pose proof (lookupTruthy_higher _ _ Tiers.UserMap _ Hown Hhighest) as Huser.
  destruct t; cbn [Tiers.table Tiers.rank] in *.
  - now rewrite Hsub.
  - rewrite Hover by lia. now rewrite Hsub.
  - rewrite Hover, Huser by lia. now rewrite Hsub.
Qed.

Lemma improvedAttempt_mapped options ctx moduleName platform t substitute :
  arrayIncludes objectPrototypeMembers moduleName = false ->
  isExcluded options moduleName = false ->
  Tiers.maps options t moduleName substitute ->
  Tiers.highest options t moduleName ->
  improvedAttempt baseResolver generateAutoMock fs options ctx moduleName platform
  = ([Delegated substitute], baseResolver ctx substitute platform).
Proof.
  intros Hown Hexcl Hmaps Hhighest. unfold improvedAttempt. rewrite Hexcl.
  pose proof (lookupTruthy_maps _ _ _ _ Hmaps) as Hsub.
  pose proof (lookupTruthy_higher _ _ Tiers.Override _ Hown Hhighest) as Hover.
  pose proof (lookupTruthy_higher _ _ Tiers.UserMap _ Hown Hhighest) as Huser.
  destruct t; cbn [Tiers.table Tiers.rank] in *.
  - now rewrite Hsub.
  - rewrite Hover by lia. now rewrite Hsub.
  - rewrite Hover, Huser by lia. now rewrite Hsub.
Qed.

Lemma try_catch_first {A} (ev : event) (o : outcome A) h :
  exists rest, events (try_catch ([ev], o) h) = ev :: rest.
Proof.
  destruct o as [a|e]; cbn.
  - now exists [].
  - destruct (h e) as [t r]. now exists t.
Qed.

(** C2 (amended).  An identifier that is not the name of a member of
    [Object.prototype], that the configuration does not exclude and
    that some tier maps to a non-empty substitute is, on a web platform,
    first delegated with the substitute of the highest-precedence tier
    that maps it so (override, then user map, then built-in), and that
    resolution is the result when the bundler accepts the substitute;
    [createWebCompatResolver] has no exclusion list, so there the
    condition is void.  On any other platform the original identifier
    is delegated, unchanged, and nothing else. *)
Theorem mapped_identifier_delegates_substitute
    options ctx moduleName platform t substitute :
  arrayIncludes objectPrototypeMembers moduleName = false ->
  Tiers.maps options t moduleName substitute ->
  Tiers.highest options t moduleName ->
  (isWebPlatform platform (webPlatforms options) = true ->
     (exists rest,
        events (webCompat options ctx moduleName platform)
        = Delegated substitute :: rest) /\
     (isExcluded options moduleName = false ->
      exists rest,
        events (improved options ctx moduleName platform)
        = Delegated substitute :: rest) /\
     (forall r, baseResolver ctx substitute platform = Return r ->
        webCompat options ctx moduleName platform
        = ([Delegated substitute], Return r) /\
        (isExcluded options moduleName = false ->
         improved options ctx moduleName platform
         = ([Delegated substitute], Return r)))) /\
  (isWebPlatform platform (webPlatforms options) = false ->
     webCompat options ctx moduleName platform = original ctx moduleName platform /\
     improved options ctx moduleName platform = original ctx moduleName platform).
Proof.
  intros Hown Hmaps Hhighest. split.
  - intros Hweb.
    unfold createWebCompatResolver, createImprovedWebCompatResolver.
    rewrite Hweb. cbn [negb].
    rewrite (webCompatAttempt_mapped _ _ _ _ _ _ Hown Hmaps Hhighest).
    split; [apply try_catch_first|]. split.
    + intros Hexcl.
      rewrite (improvedAttempt_mapped _ _ _ _ _ _ Hown Hexcl Hmaps Hhighest).
      apply try_catch_first.
    + intros r Hr. split.
      * now rewrite Hr.
      * intros Hexcl.
        rewrite (improvedAttempt_mapped _ _ _ _ _ _ Hown Hexcl Hmaps Hhighest).
        now rewrite Hr.
  - apply native_target_delegates_original.
Qed.

(** What each resolver does with an exception raised inside its [try]
    block, by the bundler, by the mock generator or by the policy
    itself. *)
Lemma improved_failure_semantics options ctx moduleName platform t e :
  isWebPlatform platform (webPlatforms options) = true ->
  improvedAttempt baseResolver generateAutoMock fs options ctx moduleName platform
  = (t, Throw e) ->
  improved options ctx moduleName platform =
  if String.eqb (fallbackStrategy options) "strict"
  then (t, Throw e)
  else (t ++ [Delegated moduleName], baseResolver ctx moduleName platform).
Proof.
  intros Hweb Hattempt. unfold createImprovedWebCompatResolver.
  rewrite Hweb, Hattempt. cbn.
  destruct (String.eqb _ "strict"); cbn; [now rewrite app_nil_r | reflexivity].
Qed.

Lemma webCompat_failure_semantics options ctx moduleName platform t e :
  isWebPlatform platform (webPlatforms options) = true ->
  webCompatAttempt baseResolver generateAutoMock options ctx moduleName platform
  = (t, Throw e) ->
  webCompat options ctx moduleName platform =
  if String.eqb (fallbackStrategy options) "graceful"
  then (t, Throw e)
  else (t ++ [Delegated moduleName], baseResolver ctx moduleName platform).
Proof.
  intros Hweb Hattempt. unfold createWebCompatResolver.
  rewrite Hweb, Hattempt. cbn.
  destruct (String.eqb _ "graceful"); cbn; [now rewrite app_nil_r | reflexivity].
Qed.

(** The improved resolver keeps the failure semantics of the
    specification: a caught exception propagates in strict mode, and in
    graceful mode the original identifier is delegated; off the web
    platforms the only delegation is the original identifier, so its
    exception is the result in either mode. *)
Lemma improved_graceful_or_strict options ctx moduleName platform t e :
  isWebPlatform platform (webPlatforms options) = true ->
  improvedAttempt baseResolver generateAutoMock fs options ctx moduleName platform
  = (t, Throw e) ->
  (fallbackStrategy options = "strict" ->
   improved options ctx moduleName platform = (t, Throw e)) /\
  (fallbackStrategy options = "graceful" ->
   improved options ctx moduleName platform
   = (t ++ [Delegated moduleName], baseResolver ctx moduleName platform)).
Proof.
  intros Hweb Hattempt.
  rewrite (improved_failure_semantics _ _ _ _ _ _ Hweb Hattempt).
  split; intros ->; reflexivity.
Qed.

(** Step 6 of the policy in the improved resolver: an identifier that
    reaches the classification (not excluded, in no tier) and is to be
    processed, with mock generation disabled. *)
Lemma improved_mocks_disabled options ctx moduleName platform :
  isWebPlatform platform (webPlatforms options) = true ->
  isExcluded options moduleName = false ->
  lookupTruthy (overrides options) moduleName = None ->
  lookupTruthy (moduleMap options) moduleName = None ->
  lookupTruthy BUILT_IN_MAPPINGS moduleName = None ->
  shouldProcess fs options moduleName = true ->
  generateMocks options = false ->
  (fallbackStrategy options = "strict" ->
   improved options ctx moduleName platform
   = ([], Throw (nativeNotAvailable moduleName))) /\
  (fallbackStrategy options = "graceful" ->
   result (improved options ctx moduleName platform)
   = baseResolver ctx moduleName platform /\
   Forall (eq (Delegated moduleName))
     (events (improved options ctx moduleName platform))).
Proof.
  intros Hweb Hexcl Ho Hm Hb Hproc Hmocks.
  unfold createImprovedWebCompatResolver, improvedAttempt.
  rewrite Hweb, Hexcl, Ho, Hm, Hb, Hproc, Hmocks. cbn [negb].
  split; intros ->; cbn; [reflexivity|].
  destruct (baseResolver ctx moduleName platform); cbn;
    (split; [reflexivity | repeat constructor]).
Qed.
End ResolverFacts.

(** C2 (as stated) fails on an excluded identifier: ["expo-camera"] is in
    the built-in tier, yet with ["expo-camera"] in [excludePatterns] the
    improved resolver delegates the original identifier on the web. *)
Lemma excluded_identifier_keeps_original :
  let options := Scenario.excluding "expo-camera" Resolver.defaultOptions in
  Tiers.maps options Tiers.BuiltIn "expo-camera" "metro-web-compat/mocks/camera" /\
  Tiers.highest options Tiers.BuiltIn "expo-camera" /\
  Resolver.isWebPlatform (Some "web") (Resolver.webPlatforms options) = true /\
  Resolver.createImprovedWebCompatResolver Scenario.bundler
    Scenario.mockGenerator Scenario.noMetadata options tt "expo-camera"
    (Some "web")
  = ([Resolver.Delegated "expo-camera"], Js.Return "node_modules/expo-camera").
Proof.
  cbn zeta. split; [|split; [|split]].
  - split; [vm_compute; reflexivity | discriminate].
  - intros [| |] substitute Hrank [Hentry _]; cbn in Hrank; try lia;
      discriminate Hentry.
  - reflexivity.
  - vm_compute. reflexivity.
Qed.

(** A tier entry with an empty substitute does not count: the tests are
    truthiness tests, and the next tier answers. *)
Remark empty_substitute_is_skipped :
  let options :=
    Scenario.withOverride "expo-camera" "" Resolver.defaultOptions in
  Tiers.table options Tiers.Override !! "expo-camera" = Some "" /\
  Resolver.createWebCompatResolver Scenario.bundler Scenario.mockGenerator
    options tt "expo-camera" (Some "web")
  = ([Resolver.Delegated "metro-web-compat/mocks/camera"],
     Js.Return "node_modules/metro-web-compat/mocks/camera").
Proof. cbn zeta. split; vm_compute; reflexivity. Qed.

(** The tables are object literals: for an identifier that names a
    member of [Object.prototype] the override table answers with the
    member it inherits, and that member, not the substitute of the user
    map, is what the bundler receives. *)
Remark inherited_identifier_delegates_member :
  let options :=
    {| Resolver.moduleMap := {[ "constructor" := "my-sub" ]};
       Resolver.overrides := ∅;
       Resolver.fallbackStrategy := "strict";
       Resolver.webPlatforms := ["web"; "browser"];
       Resolver.generateMocks := true;
       Resolver.confidenceThreshold := "medium";
       Resolver.excludePatterns := [];
       Resolver.forceIncludePatterns := [] |} in
  Tiers.maps options Tiers.UserMap "constructor" "my-sub" /\
  Tiers.highest options Tiers.UserMap "constructor" /\
  Resolver.createImprovedWebCompatResolver Scenario.bundler
    Scenario.mockGenerator Scenario.noMetadata options tt "constructor"
    (Some "web")
  = ([Resolver.Delegated (Resolver.Member "constructor")],
     Js.Throw (Js.Error "TypeError" "moduleName.startsWith is not a function")).
Proof.
  cbn zeta. split; [|split].
  - split; [vm_compute; reflexivity | discriminate].
  - intros [| |] substitute Hrank [Hentry _]; cbn in Hrank; try lia;
      discriminate Hentry.
  - vm_compute. reflexivity.
Qed.

Lemma mapped_identifier_delegates_substitute_witness :
  (exists rest,
     Js.events (Resolver.createWebCompatResolver Scenario.bundler
                  Scenario.mockGenerator Resolver.defaultOptions tt
                  "expo-camera" (Some "web"))
     = Resolver.Delegated "metro-web-compat/mocks/camera" :: rest) /\
  Resolver.createImprovedWebCompatResolver Scenario.bundler
    Scenario.mockGenerator Scenario.noMetadata Resolver.defaultOptions tt
    "expo-camera" (Some "ios")
  = ([Resolver.Delegated "expo-camera"], Js.Return "node_modules/expo-camera").
Proof.
  assert (Hmaps : Tiers.maps Resolver.defaultOptions Tiers.BuiltIn "expo-camera"
                    "metro-web-compat/mocks/camera").
  { split; [vm_compute; reflexivity | discriminate]. }
  assert (Hhighest : Tiers.highest Resolver.defaultOptions Tiers.BuiltIn
                       "expo-camera").
  { intros [| |] substitute Hrank [Hentry _]; cbn in Hrank; try lia;
      discriminate Hentry. }
  split.
  - destruct (mapped_identifier_delegates_substitute Scenario.bundler
                Scenario.mockGenerator Scenario.noMetadata
                Resolver.defaultOptions tt "expo-camera" (Some "web")
                Tiers.BuiltIn _ eq_refl Hmaps Hhighest) as [Hweb _].
    destruct (Hweb eq_refl) as [Hfirst _]. exact Hfirst.
  - destruct (mapped_identifier_delegates_substitute Scenario.bundler
                Scenario.mockGenerator Scenario.noMetadata
                Resolver.defaultOptions tt "expo-camera" (Some "ios")
                Tiers.BuiltIn _ eq_refl Hmaps Hhighest) as [_ Hnative].
    destruct (Hnative eq_refl) as [_ Himproved]. exact Himproved.
Defined.

(** C1.  An exception raised while resolving must propagate in strict
    mode and must, in graceful mode, give way to the delegation of the
    original identifier.  [createWebCompatResolver] compares the strategy
    with ['graceful'] where [createImprovedWebCompatResolver] compares it
    with ['strict']: with the override ["pkg-a" -> "sub-a"] and a bundler
    that rejects ["sub-a"], the graceful resolver lets the exception out
    after one delegation and the strict one swallows it; the improved
    resolver, on the same input, falls back to the original identifier in
    graceful mode and lets the exception out in strict mode. *)
Theorem createWebCompatResolver_inverts_strategy :
  let graceful := Scenario.withOverride "pkg-a" "sub-a" Resolver.defaultOptions in
  let strict := Scenario.withStrategy "strict" true graceful in
  let bundler := Scenario.bundlerFailingOn "sub-a" in
  let rejected := Js.Error "Error" "Unable to resolve module sub-a" in
  Resolver.fallbackStrategy graceful = "graceful" /\
  Resolver.fallbackStrategy strict = "strict" /\
  Resolver.createWebCompatResolver bundler Scenario.mockGenerator graceful tt
    "pkg-a" (Some "web")
  = ([Resolver.Delegated "sub-a"], Js.Throw rejected) /\
  Resolver.createWebCompatResolver bundler Scenario.mockGenerator strict tt
    "pkg-a" (Some "web")
  = ([Resolver.Delegated "sub-a"; Resolver.Delegated "pkg-a"],
     Js.Return "node_modules/pkg-a") /\
  Resolver.createImprovedWebCompatResolver bundler Scenario.mockGenerator
    Scenario.noMetadata graceful tt "pkg-a" (Some "web")
  = ([Resolver.Delegated "sub-a"; Resolver.Delegated "pkg-a"],
     Js.Return "node_modules/pkg-a") /\
  Resolver.createImprovedWebCompatResolver bundler Scenario.mockGenerator
    Scenario.noMetadata strict tt "pkg-a" (Some "web")
  = ([Resolver.Delegated "sub-a"], Js.Throw rejected).
Proof. cbn zeta. repeat split; vm_compute; reflexivity. Qed.

(** C5.  With mock generation disabled, a mobile-only identifier must
    raise the policy error in strict mode and be delegated unchanged in
    graceful mode.  ["react-native-unknown-sensor"] is in no tier and both
    detectors call it mobile-only; [createWebCompatResolver] raises the
    error in graceful mode and delegates the original identifier in strict
    mode, the reverse of the improved resolver. *)
Theorem createWebCompatResolver_mocks_disabled_inverted :
  let graceful := Scenario.withStrategy "graceful" false Resolver.defaultOptions in
  let strict := Scenario.withStrategy "strict" false Resolver.defaultOptions in
  let moduleName := "react-native-unknown-sensor" in
  Classifier.isMobileSpecificModule moduleName = true /\
  Resolver.shouldProcess Scenario.noMetadata graceful moduleName = true /\
  Resolver.createWebCompatResolver Scenario.bundler Scenario.mockGenerator
    graceful tt moduleName (Some "web")
  = ([], Js.Throw (Resolver.mobileNotAvailable moduleName)) /\
  Resolver.createWebCompatResolver Scenario.bundler Scenario.mockGenerator
    strict tt moduleName (Some "web")
  = ([Resolver.Delegated moduleName],
     Js.Return "node_modules/react-native-unknown-sensor") /\
  Resolver.createImprovedWebCompatResolver Scenario.bundler
    Scenario.mockGenerator Scenario.noMetadata graceful tt moduleName (Some "web")
  = ([Resolver.Delegated moduleName],
     Js.Return "node_modules/react-native-unknown-sensor") /\
  Resolver.createImprovedWebCompatResolver Scenario.bundler
    Scenario.mockGenerator Scenario.noMetadata strict tt moduleName (Some "web")
  = ([], Js.Throw (Resolver.nativeNotAvailable moduleName)).
Proof. cbn zeta. repeat split; vm_compute; reflexivity. Qed.

(** ** Dotted paths *)

Section PathFacts.
Import JsString.

Lemma append_cons c (s t : string) : (String c s ++ t)%string = String c (s ++ t).
Proof. reflexivity. Qed.

Lemma append_associative (s t u : string) : ((s ++ t) ++ u = s ++ (t ++ u))%string.
Proof.
  induction s as [|c s IH]; [reflexivity|].
  rewrite !append_cons. now rewrite IH.
Qed.

Lemma length_append (s t : string) :
  String.length (s ++ t) = String.length s + String.length t.
Proof.
  induction s as [|c s IH]; [reflexivity|].
  rewrite append_cons. cbn [String.length]. now rewrite IH.
Qed.

Lemma substring_whole s : String.substring 0 (String.length s) s = s.
Proof. induction s as [|c s IH]; cbn; [reflexivity | now rewrite IH]. Qed.

Lemma substringFrom_append (p s : string) :
  FallbackTables.substringFrom (p ++ s) (String.length p) = s.
Proof.
  unfold FallbackTables.substringFrom. rewrite length_append.
  replace (String.length p + String.length s - String.length p)
    with (String.length s) by lia.
  induction p as [|c p IH]; [apply substring_whole|].
  rewrite append_cons. cbn [String.length String.substring]. exact IH.
Qed.

(** The part before the first dot has no dot. *)
Lemma splitFirstDot_dotless s : includes (fst (splitFirstDot s)) "." = false.
Proof.
  induction s as [|c s IH]; [reflexivity|]. cbn [splitFirstDot].
  destruct (Ascii.eqb c ".") eqn:Hc; [reflexivity|].
  destruct (splitFirstDot s) as [a b]. cbn [fst] in *.
  cbn [includes startsWith]. rewrite Ascii.eqb_sym, Hc, IH. reflexivity.
Qed.

(** A dotted path splits at the end of a module name without a dot. *)
Lemma splitFirstDot_dotted m k :
  includes m "." = false ->
  splitFirstDot (m ++ "." ++ k) = (m, k).
Proof.
  induction m as [|c m IH]; intros Hm; [reflexivity|].
  rewrite append_cons. cbn [splitFirstDot].
  cbn [includes startsWith] in Hm. apply orb_false_iff in Hm as [Hc Hm].
  assert (Hne : Ascii.eqb c "." = false).
  { destruct (Ascii.eqb c ".") eqn:E; [|reflexivity].
    rewrite Ascii.eqb_sym, E in Hc. destruct m; discriminate Hc. }
  rewrite Hne, (IH Hm). reflexivity.
Qed.

Lemma arrayIncludes_true xs x : arrayIncludes xs x = true <-> In x xs.
Proof.
  unfold arrayIncludes. rewrite existsb_exists. split.
  - intros [y [Hin Heq]]. apply String.eqb_eq in Heq. now subst.
  - intros Hin. exists x. split; [assumption | apply String.eqb_refl].
Qed.

Lemma includes_dotted m k : includes (m ++ "." ++ k) "." = true.
Proof.
  induction m as [|c m IH].
  - change ("" ++ "." ++ k)%string with (String "."%char k).
    cbn [includes startsWith]. destruct k; reflexivity.
  - rewrite append_cons. cbn [includes]. rewrite IH. apply orb_true_r.
Qed.

(** A dotted path is not the name of a member of [Object.prototype]. *)
Lemma dotted_not_member m k :
  arrayIncludes objectPrototypeMembers (m ++ "." ++ k) = false.
Proof.
  destruct (arrayIncludes _ _) eqn:Hin; [|reflexivity].
  apply arrayIncludes_true in Hin.
  pose proof (includes_dotted m k) as Hdot.
  repeat (destruct Hin as [Hin|Hin];
          [rewrite <- Hin in Hdot; discriminate Hdot|]).
  destruct Hin.
Qed.
End PathFacts.

(** ** The interception layer *)

Section InterceptionFacts.
Import JsString Js JsValue ProxyWrapper.
Variable host : Host.
Variable fm : FallbackManager.Manager.








(** A symbol is a property key but not a property name; the wrapper
    interpolates the key into its log line, which a symbol does not
    survive. *)
Remark missing_symbol_read_throws fl target moduleName config description :
  hasProperty host fm target (KSymbol description) = Return false ->
  getProperty host fm (VLib (ProxyWrapper fl target moduleName config))
    (KSymbol description)
  = Throw (typeError "Cannot convert a Symbol value to a string").
Proof. intros Habsent. cbn [getProperty]. now rewrite Habsent. Qed.

Lemma truthy_orElse_null v : truthy (orElse v VNull) = truthy v.
Proof. unfold orElse. now destruct (truthy v) eqn:Hv. Qed.

Lemma orElse_falsy a b : truthy a = false -> orElse a b = b.
Proof. intros H. unfold orElse. now rewrite H. Qed.















(** The [Consumer] of a context stand-in, read off the stand-in itself
    and called with a function child, calls the child once, with the
    default value, and returns what the child returns: for the proxy of
    [createReactContextProxy] ... *)
Lemma context_proxy_consumer prop moduleName props children :
  getProperty host fm props (KString "children") = Return children ->
  isFunction children = true ->
  exists consumer,
    getProperty host fm (VLib (ReactContextProxy prop moduleName))
      (KString "Consumer") = Return (VLib consumer) /\
    getProperty host fm (VLib (ReactContextProxy prop moduleName))
      (KString "_currentValue") = Return contextDefaultValue /\
    applyClosure host fm consumer [props]
    = ([Called children [contextDefaultValue]],
       hostCall host children [contextDefaultValue]).
Proof.
  intros Hchildren Hfunction.
  exists (ReactContextConsumer prop moduleName).
  repeat split. cbn [applyClosure]. unfold callConsumer.
  destruct props; try discriminate Hchildren;
    rewrite Hchildren, Hfunction; reflexivity.
Qed.

(** ... and for the object of [generateReactContextWrapper]. *)
Lemma generated_context_consumer key exportInfo moduleName wrapper props children :
  WrapperGenerator.generateReactContextWrapper key exportInfo moduleName
  = Return wrapper ->
  getProperty host fm props (KString "children") = Return children ->
  isFunction children = true ->
  exists consumer defaultValue,
    getProperty host fm wrapper (KString "Consumer") = Return (VLib consumer) /\
    getProperty host fm wrapper (KString "_currentValue") = Return defaultValue /\
    applyClosure host fm consumer [props]
    = ([Called children [defaultValue]], hostCall host children [defaultValue]).
Proof.
  intros Hwrapper Hchildren Hfunction.
  unfold WrapperGenerator.generateReactContextWrapper in Hwrapper.
  set (d := orElse (getField exportInfo "defaultValue") contextDefaultValue) in *.
  assert (Hw : wrapper = VObj [
    ("_currentValue", d); ("_context", d);
    ("Provider",
     VLib (GeneratedComponent (key ++ ".Provider") "provider" moduleName));
    ("Consumer", VLib (GeneratedConsumer key moduleName d)) ]).
  { destruct exportInfo; congruence. }
  subst wrapper. exists (GeneratedConsumer key moduleName d), d.
  repeat split. cbn [applyClosure]. unfold callConsumer.
  destruct props; try discriminate Hchildren;
    rewrite Hchildren, Hfunction; reflexivity.
Qed.
End InterceptionFacts.






(** C9.  A context stand-in must hand out a [Consumer] that calls its
    function child once with the default value.  The stand-in of
    [createReactContextProxy] has one ([context_proxy_consumer]), but the
    [get] trap that synthesizes it for a context-shaped name wraps it in
    [createProxyWrapper]: the wrapper finds no ["Consumer"] in the proxy
    (its target is an empty object and it has no [has] trap), treats the
    name as missing and, by its shape, answers with a component stand-in.
    On the page without React that component returns a placeholder object
    and the child is never called. *)
Theorem wrapped_context_consumer_never_calls_child :
  let props := JsValue.VObj [("children", JsValue.VHostFun 2)] in
  let context :=
    JsValue.VLib
      (JsValue.ProxyWrapper JsValue.Smart
         (JsValue.VLib (JsValue.ReactContextProxy "SafeAreaContext" "m"))
         "m.SafeAreaContext" (JsValue.VObj [])) in
  let consumer := JsValue.ReactComponentProxy "Consumer" "m.SafeAreaContext" in
  ProxyWrapper.getProperty Scenario.application Scenario.manager
    Scenario.wrappedModule (JsValue.KString "SafeAreaContext")
  = Js.Return context /\
  ProxyWrapper.getProperty Scenario.application Scenario.manager context
    (JsValue.KString "Consumer")
  = Js.Return (JsValue.VLib consumer) /\
  ProxyWrapper.applyClosure Scenario.application Scenario.manager consumer [props]
  = ([], Js.Return (JsValue.VObj [("type", JsValue.VStr "mock-component");
                                  ("props", props);
                                  ("children", JsValue.VHostFun 2)])) /\
  JsValue.hostCall Scenario.application (JsValue.VHostFun 2)
    [ProxyWrapper.contextDefaultValue]
  = Js.Return (JsValue.VStr "rendered").
Proof. cbn zeta. repeat split; vm_compute; reflexivity. Qed.

(** ** The runtime resolver *)

Section RuntimeResolverFacts.
Import Js JsValue RuntimeResolver.
Variable env : Environment.
Variable cfg : Config.

Lemma isWeb_cache st :
  moduleCache (snd (isWeb env st)) = moduleCache st /\
  proxies (snd (isWeb env st)) = proxies st.
Proof. unfold isWeb. destruct (cachedPlatform st); split; reflexivity. Qed.

(** The detector answers from its cache once it has detected. *)
Lemma isWeb_stable st :
  isWeb env (snd (isWeb env st)) = (fst (isWeb env st), snd (isWeb env st)).
Proof.
  unfold isWeb. destruct (cachedPlatform st) eqn:Hcached; cbn.
  - now rewrite Hcached.
  - reflexivity.
Qed.

(** A call for a name that the cache holds returns the cached reference
    and changes nothing. *)
Lemma resolve_cached st moduleName originalModule r :
  moduleCache st !! moduleName = Some r ->
  resolve env cfg st moduleName originalModule = (Return r, st).
Proof. intros Hcached. unfold resolve. now rewrite Hcached. Qed.

(** A call that returns leaves its result in the cache. *)
Lemma resolve_caches_result st moduleName originalModule r :
  fst (resolve env cfg st moduleName originalModule) = Return r ->
  moduleCache (snd (resolve env cfg st moduleName originalModule))
    !! moduleName = Some r.
Proof.
  unfold resolve.
  destruct (moduleCache st !! moduleName) as [cached|] eqn:Hcached.
  - cbn. now intros [= <-].
  - destruct (isWeb env st) as [web st1]. destruct web; cbn [negb].
    + destruct (ProxyWrapper.createProxyWrapper _ _ _ _) as [proxy|e];
        cbn; [|discriminate].
      intros [= <-]. apply lookup_insert_eq.
    + cbn. intros [= <-]. apply lookup_insert_eq.
Qed.

(** C6.  Two calls of [resolve] in a row with the same module name on
    one resolver: when the first returns a reference, the second returns
    that very reference, whatever module object it is given, and leaves
    the resolver, with the store of the proxies it has constructed, as
    the first call left it. *)
Theorem resolve_twice_same_reference st moduleName first second r :
  fst (resolve env cfg st moduleName first) = Return r ->
  resolve env cfg (snd (resolve env cfg st moduleName first)) moduleName second
  = (Return r, snd (resolve env cfg st moduleName first)).
Proof.
  intros Hfirst. apply resolve_cached. now apply resolve_caches_result.
Qed.

(** The first call returns for every module object off the web, and on
    the web for every module that is an object, a function, or missing. *)
Lemma resolve_returns st moduleName originalModule :
  fst (isWeb env st) = false \/
  truthy originalModule = false \/
  isObject originalModule || isFunction originalModule = true ->
  exists r, fst (resolve env cfg st moduleName originalModule) = Return r.
Proof.
  intros Hcase. unfold resolve.
  destruct (moduleCache st !! moduleName); [cbn; eauto|].
  destruct (isWeb env st) as [web st1]. cbn [fst] in Hcase.
  destruct web; cbn [negb]; [|cbn; eauto].
  unfold ProxyWrapper.createProxyWrapper.
  destruct Hcase as [Hweb | [Hfalsy | Hobject]]; [discriminate| |].
  - rewrite Hfalsy. cbn. eauto.
  - destruct (truthy originalModule); cbn; [rewrite Hobject|]; cbn; eauto.
Qed.

(** A resolver never holds more proxies than cached names: a proxy is
    constructed only for a name that the cache does not hold, and the
    name is cached with it. *)
Lemma resolve_one_proxy_per_name st moduleName originalModule :
  length (proxies st) <= size (moduleCache st) ->
  length (proxies (snd (resolve env cfg st moduleName originalModule)))
  <= size (moduleCache (snd (resolve env cfg st moduleName originalModule))).
Proof.
  intros Hbound. unfold resolve.
  destruct (moduleCache st !! moduleName) as [cached|] eqn:Hcached; [exact Hbound|].
  destruct (isWeb_cache st) as [Hcache Hproxies].
  destruct (isWeb env st) as [web st1]. cbn [snd] in Hcache, Hproxies.
  destruct web; cbn [negb].
  - destruct (ProxyWrapper.createProxyWrapper _ _ _ _) as [proxy|e]; cbn.
    + rewrite length_app, map_size_insert_None by (now rewrite Hcache).
      rewrite Hcache, Hproxies. cbn. lia.
    + now rewrite Hcache, Hproxies.
  - cbn. rewrite map_size_insert_None by (now rewrite Hcache).
    rewrite Hcache, Hproxies. lia.
Qed.

(** Every state that a fresh resolver reaches holds at most as many
    proxies as cached names. *)
Lemma reachable_one_proxy_per_name calls :
  length (proxies (resolveAll env cfg initial calls))
  <= size (moduleCache (resolveAll env cfg initial calls)).
Proof.
  assert (Hgen : forall st,
    length (proxies st) <= size (moduleCache st) ->
    length (proxies (resolveAll env cfg st calls))
    <= size (moduleCache (resolveAll env cfg st calls))).
  { induction calls as [|[moduleName originalModule] rest IH]; intros st Hst.
    - exact Hst.
    - cbn [resolveAll]. apply IH. now apply resolve_one_proxy_per_name. }
  apply Hgen. cbn. lia.
Qed.

(** C7 (amended).  When the detector reports a platform other than the
    web, [resolve] constructs no proxy; for a module name that is not yet
    in the cache of the resolver it returns the module object it was
    given, the same reference, and for a name in the cache it returns the
    cached reference. *)
Theorem native_resolution_returns_original_or_cached
    st moduleName originalModule :
  fst (isWeb env st) = false ->
  fst (resolve env cfg st moduleName originalModule)
  = Return match moduleCache st !! moduleName with
           | None => Unwrapped originalModule
           | Some cached => cached
           end /\
  proxies (snd (resolve env cfg st moduleName originalModule)) = proxies st.
Proof.
  intros Hnative. unfold resolve.
  destruct (moduleCache st !! moduleName) as [cached|]; [auto|].
  destruct (isWeb_cache st) as [_ Hproxies].
  destruct (isWeb env st) as [web st1]. cbn [fst snd] in *. subst web.
  cbn. auto.
Qed.
End RuntimeResolverFacts.

Lemma resolve_twice_same_reference_witness :
  let first :=
    RuntimeResolver.resolve Scenario.browser Scenario.resolverConfig
      RuntimeResolver.initial "expo-haptics" (JsValue.VHostObj 0) in
  fst first = Js.Return (RuntimeResolver.Wrapped 0) /\
  RuntimeResolver.resolve Scenario.browser Scenario.resolverConfig (snd first)
    "expo-haptics" (JsValue.VHostObj 1)
  = (Js.Return (RuntimeResolver.Wrapped 0), snd first).
Proof.
  cbn zeta. split; [reflexivity|].
  apply (resolve_twice_same_reference Scenario.browser Scenario.resolverConfig
           RuntimeResolver.initial "expo-haptics" (JsValue.VHostObj 0)
           (JsValue.VHostObj 1) (RuntimeResolver.Wrapped 0)).
  reflexivity.
Defined.

(** C7 (as stated) fails for a cached name: on a device, after
    [resolve "m"] was given the module object [VHostObj 1], a call of
    [resolve "m"] with another module object, [VHostObj 2], returns the
    first one. *)
Lemma cached_name_returns_first_module :
  let st :=
    snd (RuntimeResolver.resolve Scenario.device Scenario.resolverConfig
           RuntimeResolver.initial "m" (JsValue.VHostObj 1)) in
  fst (RuntimeResolver.isWeb Scenario.device st) = false /\
  fst (RuntimeResolver.resolve Scenario.device Scenario.resolverConfig st "m"
         (JsValue.VHostObj 2))
  = Js.Return (RuntimeResolver.Unwrapped (JsValue.VHostObj 1)) /\
  RuntimeResolver.Unwrapped (JsValue.VHostObj 1)
  <> RuntimeResolver.Unwrapped (JsValue.VHostObj 2).
Proof. cbn zeta. split; [reflexivity|]. split; [reflexivity|]. discriminate. Qed.

Lemma native_resolution_returns_original_or_cached_witness :
  fst (RuntimeResolver.resolve Scenario.device Scenario.resolverConfig
         RuntimeResolver.initial "m" (JsValue.VHostObj 1))
  = Js.Return (RuntimeResolver.Unwrapped (JsValue.VHostObj 1)) /\
  RuntimeResolver.proxies
    (snd (RuntimeResolver.resolve Scenario.device Scenario.resolverConfig
            RuntimeResolver.initial "m" (JsValue.VHostObj 1)))
  = [].
Proof.
  apply (native_resolution_returns_original_or_cached Scenario.device
           Scenario.resolverConfig RuntimeResolver.initial "m"
           (JsValue.VHostObj 1)).
  reflexivity.
Defined.

(** * Further properties *)

(** ** Strings *)

Section StringFacts.
Import JsString.

Lemma startsWith_prefix s p :
  startsWith s p = true <-> exists t, s = (p ++ t)%string.
Proof.
  revert s. induction p as [|c p IH]; intros s; cbn.
  - split; [intros _; now exists s | intros _; destruct s; reflexivity].
  - destruct s as [|d s]; cbn.
    + split; [discriminate | intros [t Ht]; discriminate].
    + rewrite andb_true_iff, IH. split.
      * intros [Hc [t ->]]. apply Ascii.eqb_eq in Hc. subst. now exists t.
      * intros [t Ht]. injection Ht as -> ->. split; [apply Ascii.eqb_refl|].
        now exists t.
Qed.

Lemma startsWith_append p t : startsWith (p ++ t) p = true.
Proof. apply startsWith_prefix. now exists t. Qed.

Lemma startsWith_append_longer p q t :
  startsWith (p ++ t) (p ++ q) = startsWith t q.
Proof.
  induction p as [|c p IH]; [reflexivity|].
  change (startsWith (String c (p ++ t)) (String c (p ++ q)) = startsWith t q).
  cbn [startsWith]. now rewrite Ascii.eqb_refl, IH.
Qed.

Lemma startsWith_append_literal p rest q m :
  (String.length q <= m)%nat ->
  startsWith (p ++ rest) q =
  if startsWith p q then true
  else if startsWith q p
       then startsWith rest (String.substring (String.length p) m q)
       else false.
Proof.
  revert q m. induction p as [|c p IH]; intros q m Hm.
  - change ("" ++ rest)%string with rest.
    assert (Hfull : String.substring 0 m q = q).
    { revert m Hm. clear. induction q as [|a q IHq]; intros [|m] Hm; cbn in *;
        try reflexivity; try lia. rewrite IHq by lia. reflexivity. }
    cbn [String.length]. rewrite Hfull. destruct q; [destruct rest|]; reflexivity.
  - change (String c p ++ rest)%string with (String c (p ++ rest)).
    destruct q as [|d q]; [reflexivity|]. cbn in Hm.
    cbn [startsWith String.length String.substring].
    rewrite (IH q m) by lia. rewrite (Ascii.eqb_sym c d).
    destruct (Ascii.eqb d c); reflexivity.
Qed.

Lemma startsWith_trans s p q :
  startsWith s p = true -> startsWith p q = true -> startsWith s q = true.
Proof.
  rewrite !startsWith_prefix. intros [t ->] [u ->].
  exists (u ++ t)%string. clear. induction q as [|c q IH]; [reflexivity|].
  change (String c ((q ++ u) ++ t) = String c (q ++ (u ++ t))). now rewrite IH.
Qed.

Lemma lowerChar_idempotent c : lowerChar (lowerChar c) = lowerChar c.
Proof. destruct c as [[] [] [] [] [] [] [] []]; reflexivity. Qed.

Lemma toLowerCase_idempotent s : toLowerCase (toLowerCase s) = toLowerCase s.
Proof.
  induction s as [|c s IH]; cbn; [reflexivity|].
  now rewrite lowerChar_idempotent, IH.
Qed.

Lemma toLowerCase_empty s : String.eqb (toLowerCase s) "" = String.eqb s "".
Proof. destruct s; reflexivity. Qed.

End StringFacts.

(** ** Build platforms *)

Section PlatformFacts.
Import JsString Resolver BuildPlatform.

(** X1.  The platform name is compared in lower case with the configured
    names as they are written: the test does not depend on the case of
    the platform, and a configured name that is not in lower case never
    matches. *)
Theorem isWebPlatform_case_folding platform webPlatforms :
  isWebPlatform (option_map toLowerCase platform) webPlatforms
  = isWebPlatform platform webPlatforms /\
  isWebPlatform platform
    (List.filter (fun w => String.eqb (toLowerCase w) w) webPlatforms)
  = isWebPlatform platform webPlatforms.
Proof.
  destruct platform as [p|]; [|split; reflexivity]. cbn [option_map isWebPlatform].
  rewrite toLowerCase_empty, toLowerCase_idempotent.
  split; [reflexivity|].
  destruct (String.eqb p ""); [reflexivity|].
  unfold arrayIncludes. induction webPlatforms as [|w ws IH]; cbn; [reflexivity|].
  destruct (String.eqb_spec (toLowerCase w) w) as [Hw|Hw]; cbn.
  - now rewrite IH.
  - rewrite IH. destruct (String.eqb_spec (toLowerCase p) w) as [Heq|]; [|reflexivity].
    exfalso. apply Hw. rewrite <- Heq. apply toLowerCase_idempotent.
Qed.

(** No platform is both a web and a mobile platform. *)
Lemma web_and_mobile_exclusive platform :
  isWebPlatform platform DEFAULT_WEB_PLATFORMS = true ->
  isMobilePlatform platform = false.
Proof.
  destruct platform as [p|]; [|reflexivity]. unfold isWebPlatform, isMobilePlatform.
  destruct (String.eqb p ""); [reflexivity|].
  rewrite arrayIncludes_true. cbn [In DEFAULT_WEB_PLATFORMS].
  intros [<-|[<-|[<-|[]]]]; reflexivity.
Qed.

Lemma includes_prefix_of s p q :
  startsWith p q = true -> includes s p = true -> includes s q = true.
Proof.
  intros Hpq. induction s as [|c s IH]; cbn [includes].
  - rewrite !orb_false_r. intros H. eapply startsWith_trans; eassumption.
  - rewrite !orb_true_iff. intros [H|H].
    + left. eapply startsWith_trans; eassumption.
    + right. auto.
Qed.

(** X2.  For a platform that is neither a web platform nor exactly ["ios"] or
    ["android"] ("native", "IOS", an absent platform), the four
    "platform-specific" extensions are the generic ones: every path that
    contains [.js] or [.ts] counts as platform-specific. *)
Theorem shouldUsePlatformSpecificVersion_unrecognised filePath platform :
  isWebPlatform platform DEFAULT_WEB_PLATFORMS = false ->
  platform <> Some "ios" ->
  platform <> Some "android" ->
  shouldUsePlatformSpecificVersion filePath platform
  = includes filePath ".js" || includes filePath ".ts".
Proof.
  intros Hweb Hios Handroid.
  unfold shouldUsePlatformSpecificVersion, getPlatformExtensions. rewrite Hweb.
  assert (Hi : platformIs platform "ios" = false).
  { destruct platform as [p|]; cbn; [|reflexivity].
    destruct (String.eqb_spec p "ios"); congruence. }
  assert (Ha : platformIs platform "android" = false).
  { destruct platform as [p|]; cbn; [|reflexivity].
    destruct (String.eqb_spec p "android"); congruence. }
  rewrite Hi, Ha. cbn [firstn existsb]. rewrite orb_false_r.
  pose proof (includes_prefix_of filePath ".jsx" ".js" eq_refl).
  pose proof (includes_prefix_of filePath ".tsx" ".ts" eq_refl).
  destruct (includes filePath ".js"), (includes filePath ".jsx"),
    (includes filePath ".ts"), (includes filePath ".tsx"); cbn; auto;
    try (symmetry; auto).
Qed.

Lemma shouldUsePlatformSpecificVersion_unrecognised_witness :
  shouldUsePlatformSpecificVersion "src/index.js" (Some "native")
  = includes "src/index.js" ".js" || includes "src/index.js" ".ts".
Proof.
  apply shouldUsePlatformSpecificVersion_unrecognised;
    [reflexivity | discriminate | discriminate].
Defined.
End PlatformFacts.

(** ** Package categories and the name-based detector *)

Section PatternFacts.
Import JsString Classifier PatternDetector.

(** X3.  The scoped-community test comes after the test for the
    ["@react-native-"] prefix, which every such identifier passes: the
    category ["react-native-community"] is never returned. *)
Theorem getMobilePackageCategory_never_community moduleName :
  String.eqb (getMobilePackageCategory moduleName) "react-native-community"
  = false.
Proof.
  unfold getMobilePackageCategory.
  destruct (startsWith moduleName "expo-"); [reflexivity|].
  destruct (startsWith moduleName "@expo/"); [reflexivity|].
  destruct (startsWith moduleName "react-native-"); [reflexivity|].
  destruct (startsWith moduleName "@react-native-") eqn:Hscoped; [reflexivity|].
  destruct (startsWith moduleName "@react-native-community/") eqn:Hcommunity.
  - rewrite (startsWith_trans _ _ "@react-native-" Hcommunity eq_refl) in Hscoped.
    discriminate.
  - destruct (startsWith moduleName "@react-navigation/"); reflexivity.
Qed.

(** X4.  In the three namespaces with a web exception the name-based detector
    is decided by the namespace alone: an identifier is mobile-specific
    exactly when the prefix is not followed by ["web"]; the later, longer
    patterns of the list add nothing (["react-native-webview"] is not
    mobile-specific).  Every identifier under ["@react-native-"] is
    mobile-specific. *)
Theorem isMobileSpecificModule_namespace rest :
  isMobileSpecificModule ("react-native-" ++ rest) = negb (startsWith rest "web") /\
  isMobileSpecificModule ("expo-" ++ rest) = negb (startsWith rest "web") /\
  isMobileSpecificModule ("@expo/" ++ rest) = negb (startsWith rest "web") /\
  isMobileSpecificModule ("@react-native-" ++ rest) = true.
Proof.
  assert (Hlonger : startsWith rest "web" = false ->
                    startsWith rest "web-" = false).
  { intros Hweb. destruct (startsWith rest "web-") eqn:Hdash; [|reflexivity].
    rewrite (startsWith_trans _ _ "web" Hdash eq_refl) in Hweb. discriminate. }
  unfold isMobileSpecificModule, WEB_COMPATIBLE_PATTERNS, MOBILE_PATTERNS.
  cbn [existsb test].
  change ("react-native-" ++ "web")%string with "react-native-web".
  change ("expo-" ++ "web")%string with "expo-web".
  change ("@expo/" ++ "web")%string with "@expo/web".
  rewrite !(fun p q => startsWith_append_literal p rest q _ (le_n _)).
  repeat split; cbn; destruct (startsWith rest "web") eqn:Hweb;
    cbn; rewrite ?(Hlonger eq_refl); reflexivity.
Qed.
End PatternFacts.

(** ** The two detectors that read package metadata *)

Section DetectorFacts.
Import JsString Classifier Variations.
Variable fs : FileSystem.

(** X5.  Whatever [isTrulyNativeModule] calls native, the detector with
    confidence levels calls native too. *)
Theorem isTrulyNativeModule_implies_detection moduleName :
  isTrulyNativeModule fs moduleName = true ->
  isNative (getNativeDetectionConfidence fs moduleName) = true.
Proof.
  unfold isTrulyNativeModule, getNativeDetectionConfidence.
  destruct (arrayIncludes WEB_COMPATIBLE_LIBRARIES moduleName); [discriminate|].
  destruct (testPrefixIgnoreCase "react-native-web" moduleName); [discriminate|].
  destruct (testPrefixIgnoreCase "expo-web" moduleName); [discriminate|].
  destruct (negb (includes moduleName "react-native") &&
            negb (includes moduleName "expo")); [discriminate|].
  destruct (checkPackageJsonPlatformSupport fs moduleName);
    try discriminate; try reflexivity;
    destruct (hasWebSpecificFiles fs moduleName); try discriminate;
    destruct (hasNativeOnlyPatterns moduleName); try reflexivity;
    destruct (startsWith moduleName "react-native-" ||
              startsWith moduleName "expo-"); try discriminate; reflexivity.
Qed.

(** X6.  The two detectors can disagree in one direction only, and
    only in three situations: the name starts with [react-native-web] or
    [expo-web] (in any case) without being a listed library, the name
    mentions neither namespace, or the name has a native-only keyword
    while the package ships web-specific files (the two detectors test
    these two in opposite orders). *)
Theorem detectors_disagree_only_when moduleName :
  isNative (getNativeDetectionConfidence fs moduleName) = true ->
  isTrulyNativeModule fs moduleName = false ->
  testPrefixIgnoreCase "react-native-web" moduleName ||
  testPrefixIgnoreCase "expo-web" moduleName = true \/
  includes moduleName "react-native" || includes moduleName "expo" = false \/
  hasWebSpecificFiles fs moduleName && hasNativeOnlyPatterns moduleName = true.
Proof.
  unfold isTrulyNativeModule, getNativeDetectionConfidence.
  destruct (arrayIncludes WEB_COMPATIBLE_LIBRARIES moduleName); [discriminate|].
  destruct (testPrefixIgnoreCase "react-native-web" moduleName); [now left|].
  destruct (testPrefixIgnoreCase "expo-web" moduleName); [now left|].
  destruct (includes moduleName "react-native"), (includes moduleName "expo");
    cbn [negb andb orb]; try (intros _ _; right; left; reflexivity);
    (destruct (checkPackageJsonPlatformSupport fs moduleName);
     try discriminate;
     destruct (hasNativeOnlyPatterns moduleName),
       (hasWebSpecificFiles fs moduleName);
     try discriminate; try (intros _ _; right; right; reflexivity);
     destruct (startsWith moduleName "react-native-" ||
               startsWith moduleName "expo-"); discriminate).
Qed.

Lemma support_without_peers moduleName :
  checkPackageJsonPlatformSupport (ignoringPeerDependencies fs) moduleName =
  match checkPackageJsonPlatformSupport fs moduleName with
  | LikelyNativeOnly => Unknown
  | support => support
  end.
Proof.
  unfold checkPackageJsonPlatformSupport, ignoringPeerDependencies.
  cbn [readPackageJson].
  destruct (readPackageJson fs moduleName) as [pkg|]; [|reflexivity].
  cbn [option_map].
  assert (Hkw : forall k, keywordsInclude (withoutPeerDependencies pkg) k
                          = keywordsInclude pkg k) by reflexivity.
  rewrite !Hkw. cbn [withoutPeerDependencies browser reactNativeWebField files].
  destruct (keywordsInclude pkg "web"); [reflexivity|].
  destruct (keywordsInclude pkg "react-native-web"); [reflexivity|].
  destruct (browser pkg || reactNativeWebField pkg); [reflexivity|].
  destruct (match files pkg with Some _ => _ | None => _ end); [reflexivity|].
  destruct (keywordsInclude pkg "native-only"); [reflexivity|].
  unfold hasPeer at 1. cbn [peerDependencies andb].
  destruct (hasPeer pkg "react-native" && negb (hasPeer pkg "react-native-web"));
    reflexivity.
Qed.

(** X7.  The [peerDependencies] of a package never decide: both detectors
    answer the same when the field is removed from every
    [package.json]. *)
Theorem detection_ignores_peerDependencies moduleName :
  isTrulyNativeModule (ignoringPeerDependencies fs) moduleName
  = isTrulyNativeModule fs moduleName /\
  getNativeDetectionConfidence (ignoringPeerDependencies fs) moduleName
  = getNativeDetectionConfidence fs moduleName.
Proof.
  unfold isTrulyNativeModule, getNativeDetectionConfidence.
  rewrite support_without_peers.
  assert (Hfiles : hasWebSpecificFiles (ignoringPeerDependencies fs) moduleName
                   = hasWebSpecificFiles fs moduleName) by reflexivity.
  rewrite Hfiles.
  destruct (checkPackageJsonPlatformSupport fs moduleName); split; reflexivity.
Qed.

(** The confidence of a detection is one of the three levels. *)
Lemma detection_confidence_level moduleName :
  exists d, Resolver.confidenceLevels
              (confidence (getNativeDetectionConfidence fs moduleName)) = Some d /\
            1 <= d.
Proof.
  unfold getNativeDetectionConfidence.
  destruct (arrayIncludes _ _); [exists 3; split; [reflexivity|lia]|].
  destruct (checkPackageJsonPlatformSupport fs moduleName);
    try (exists 3; split; [reflexivity|lia]);
    (destruct (hasNativeOnlyPatterns moduleName);
     [exists 2; split; [reflexivity|lia]|];
     destruct (hasWebSpecificFiles fs moduleName);
     [exists 2; split; [reflexivity|lia]|];
     destruct (startsWith moduleName "react-native-" ||
               startsWith moduleName "expo-");
     exists 1; split; try reflexivity; lia).
Qed.
End DetectorFacts.

(** ** The confidence threshold *)

Section ThresholdFacts.
Import JsString Classifier Resolver Variations.
Variable fs : FileSystem.

(** X8.  A threshold that is none of ["low"], ["medium"], ["high"] turns the
    detector off: only the force-included identifiers are processed. *)
Theorem unknown_threshold_disables_detection options moduleName :
  confidenceLevels (confidenceThreshold options) = None ->
  shouldProcess fs options moduleName = isForceIncluded options moduleName.
Proof.
  intros Hthreshold. unfold shouldProcess, shouldProcessBasedOnConfidence.
  rewrite Hthreshold.
  destruct (confidenceLevels (confidence _)); cbn iota;
    rewrite andb_false_r, orb_false_r; reflexivity.
Qed.

(** X9.  Lowering the threshold only adds identifiers: what is processed
    under a threshold is processed under every lower one, and under
    ["low"] everything that the detector calls native is processed. *)
Theorem lower_threshold_processes_more options moduleName low high a b :
  confidenceLevels low = Some a ->
  confidenceLevels high = Some b ->
  a <= b ->
  (shouldProcess fs (withThreshold high options) moduleName = true ->
   shouldProcess fs (withThreshold low options) moduleName = true) /\
  shouldProcess fs (withThreshold "low" options) moduleName
  = isForceIncluded options moduleName ||
    isNative (getNativeDetectionConfidence fs moduleName).
Proof.
  intros Hlow Hhigh Hle. unfold shouldProcess, shouldProcessBasedOnConfidence.
  cbn [withThreshold confidenceThreshold].
  change (isForceIncluded (withThreshold ?t options) moduleName)
    with (isForceIncluded options moduleName).
  destruct (detection_confidence_level fs moduleName) as [d [Hd Hpos]].
  rewrite Hd, Hlow, Hhigh. split.
  - rewrite !orb_true_iff, !andb_true_iff, !Nat.leb_le. intros [H|[H1 H2]]; [now left|].
    right. split; [assumption | lia].
  - change (confidenceLevels "low") with (Some 1).
    cbn iota. apply Nat.leb_le in Hpos. rewrite Hpos, andb_true_r. reflexivity.
Qed.

End ThresholdFacts.

Lemma unknown_threshold_disables_detection_witness :
  let options := Variations.withThreshold "Medium" Resolver.defaultOptions in
  Resolver.shouldProcess Scenario.noMetadata options "expo-camera"
  = Resolver.isForceIncluded options "expo-camera".
Proof. apply unknown_threshold_disables_detection. reflexivity. Defined.

Lemma lower_threshold_processes_more_witness :
  let options := Resolver.defaultOptions in
  (Resolver.shouldProcess Scenario.noMetadata
     (Variations.withThreshold "high" options) "expo-camera" = true ->
   Resolver.shouldProcess Scenario.noMetadata
     (Variations.withThreshold "medium" options) "expo-camera" = true) /\
  Resolver.shouldProcess Scenario.noMetadata
    (Variations.withThreshold "low" options) "expo-camera"
  = Resolver.isForceIncluded options "expo-camera" ||
    Classifier.isNative
      (Classifier.getNativeDetectionConfidence Scenario.noMetadata
         "expo-camera").
Proof.
  apply (lower_threshold_processes_more Scenario.noMetadata
           Resolver.defaultOptions "expo-camera" "medium" "high" 2 3);
    [reflexivity | reflexivity | lia].
Defined.

Lemma isTrulyNativeModule_implies_detection_witness :
  Classifier.isNative
    (Classifier.getNativeDetectionConfidence Scenario.noMetadata
       "react-native-camera") = true.
Proof.
  apply isTrulyNativeModule_implies_detection. vm_compute. reflexivity.
Defined.

Lemma detectors_disagree_only_when_witness :
  let fs :=
    {| Classifier.readPackageJson := fun _ => None;
       Classifier.readModuleDir := fun _ => Some ["index.web.js"] |} in
  JsString.testPrefixIgnoreCase "react-native-web" "react-native-camera" ||
  JsString.testPrefixIgnoreCase "expo-web" "react-native-camera" = true \/
  JsString.includes "react-native-camera" "react-native" ||
  JsString.includes "react-native-camera" "expo" = false \/
  Classifier.hasWebSpecificFiles fs "react-native-camera" &&
  Classifier.hasNativeOnlyPatterns "react-native-camera" = true.
Proof.
  apply (detectors_disagree_only_when
           {| Classifier.readPackageJson := fun _ => None;
              Classifier.readModuleDir := fun _ => Some ["index.web.js"] |}
           "react-native-camera"); vm_compute; reflexivity.
Defined.

(** ** What the resolvers delegate *)

Section DelegationFacts.
Import Js Resolver.
Context {context resolution : Type}.
Variable baseResolver :
  context -> identifier -> option string -> outcome resolution.
Variable generateAutoMock : string -> context -> Options -> outcome string.
Variable fs : Classifier.FileSystem.
Implicit Types moduleName : string.

Abbreviation webCompat' := (createWebCompatResolver baseResolver generateAutoMock).
Abbreviation improved' :=
  (createImprovedWebCompatResolver baseResolver generateAutoMock fs).

(** One pass through the body of a resolver either raises an exception
    before any delegation, or makes one delegation and ends as the
    bundler does. *)
Abbreviation singleAttempt ctx platform attempt :=
  ((exists e, attempt = ([], Throw e)) \/
   (exists target,
      attempt = ([Delegated target], baseResolver ctx target platform))).

Lemma delegate_single ctx target platform :
  singleAttempt ctx platform (delegate baseResolver ctx target platform).
Proof. right. now exists target. Qed.

Lemma mock_single ctx moduleName platform options :
  singleAttempt ctx platform
    (let* mockPath := ([], generateAutoMock moduleName ctx options) in
     delegate baseResolver ctx mockPath platform).
Proof.
  destruct (generateAutoMock moduleName ctx options) as [path|e]; cbn.
  - right. now exists path.
  - left. now exists e.
Qed.

Lemma improvedAttempt_single options ctx moduleName platform :
  singleAttempt ctx platform
    (improvedAttempt baseResolver generateAutoMock fs options ctx moduleName platform).
Proof.
  unfold improvedAttempt.
  destruct (isExcluded options moduleName); [apply delegate_single|].
  destruct (lookupTruthy (overrides options) moduleName); [apply delegate_single|].
  destruct (lookupTruthy (moduleMap options) moduleName); [apply delegate_single|].
  destruct (lookupTruthy BUILT_IN_MAPPINGS moduleName); [apply delegate_single|].
  destruct (shouldProcess fs options moduleName); [|apply delegate_single].
  destruct (generateMocks options); [apply mock_single|].
  destruct (String.eqb (fallbackStrategy options) "strict");
    [left; eexists; reflexivity | apply delegate_single].
Qed.

Lemma webCompatAttempt_single options ctx moduleName platform :
  singleAttempt ctx platform
    (webCompatAttempt baseResolver generateAutoMock options ctx moduleName platform).
Proof.
  unfold webCompatAttempt.
  destruct (lookupTruthy (overrides options) moduleName); [apply delegate_single|].
  destruct (lookupTruthy (moduleMap options) moduleName); [apply delegate_single|].
  destruct (lookupTruthy BUILT_IN_MAPPINGS moduleName); [apply delegate_single|].
  destruct (Classifier.isMobileSpecificModule moduleName); [|apply delegate_single].
  destruct (generateMocks options); [apply mock_single|].
  destruct (String.eqb (fallbackStrategy options) "graceful");
    [left; eexists; reflexivity | apply delegate_single].
Qed.

(** A resolver built from a single attempt and a handler that either
    re-throws or delegates the original identifier. *)
Lemma recovered_resolution ctx moduleName platform attempt (rethrow : bool) r :
  singleAttempt ctx platform attempt ->
  result (try_catch attempt
            (fun error => if rethrow then throw error
                          else delegate baseResolver ctx moduleName platform))
  = Return r ->
  exists before last,
    events (try_catch attempt
              (fun error => if rethrow then throw error
                            else delegate baseResolver ctx moduleName platform))
    = before ++ [Delegated last] /\
    baseResolver ctx last platform = Return r /\
    length before <= 1.
Proof.
  unfold delegate, emit. intros [[e ->]|[target ->]].
  - destruct rethrow; cbn; [discriminate|]. intros Hr.
    exists [], moduleName. split; [reflexivity | split; [exact Hr | cbn; lia]].
  - destruct (baseResolver ctx target platform) as [r'|e] eqn:Htarget; cbn.
    + intros [= <-]. exists [], target.
      split; [reflexivity | split; [exact Htarget | cbn; lia]].
    + destruct rethrow; cbn; [discriminate|]. intros Hr.
      exists [Delegated target], moduleName.
      split; [reflexivity | split; [exact Hr | cbn; lia]].
Qed.

(** X10.  Neither resolver makes up a resolution: whatever it returns is what
    the bundler answered to the last identifier it was asked for, and
    the bundler is asked at most twice. *)
Theorem resolution_is_last_delegation options ctx moduleName platform :
  (forall r,
     result (webCompat' options ctx moduleName platform) = Return r ->
     exists before last,
       events (webCompat' options ctx moduleName platform)
       = before ++ [Delegated last] /\
       baseResolver ctx last platform = Return r /\
       length before <= 1) /\
  (forall r,
     result (improved' options ctx moduleName platform) = Return r ->
     exists before last,
       events (improved' options ctx moduleName platform)
       = before ++ [Delegated last] /\
       baseResolver ctx last platform = Return r /\
       length before <= 1).
Proof.
  unfold createWebCompatResolver, createImprovedWebCompatResolver.
  destruct (isWebPlatform platform (webPlatforms options)); cbn [negb].
  - split; intros r.
    + apply recovered_resolution, webCompatAttempt_single.
    + apply recovered_resolution, improvedAttempt_single.
  - split; intros r; cbn; intros Hr; exists [], moduleName;
      (split; [reflexivity | split; [exact Hr | cbn; lia]]).
Qed.

(** X11.  Unless the strategy is ["strict"], the improved resolver resolves
    every identifier that the bundler itself resolves. *)
Theorem improved_resolves_what_bundler_resolves
    options ctx moduleName platform r :
  fallbackStrategy options <> "strict" ->
  baseResolver ctx moduleName platform = Return r ->
  exists r', result (improved' options ctx moduleName platform) = Return r'.
Proof.
  intros Hstrategy Hbase. unfold createImprovedWebCompatResolver.
  destruct (isWebPlatform platform (webPlatforms options)); cbn [negb];
    [|exists r; exact Hbase].
  destruct (String.eqb_spec (fallbackStrategy options) "strict") as [|_];
    [contradiction|].
  destruct (improvedAttempt_single options ctx moduleName platform)
    as [[e ->]|[target ->]]; cbn.
  - now exists r.
  - destruct (baseResolver ctx target platform) as [r'|e]; cbn;
      [now exists r' | now exists r].
Qed.

(** X12.  An identifier matched by [excludePatterns] is never replaced: on
    every platform and with every strategy the improved resolver asks
    the bundler for the identifier itself and for nothing else, and ends
    as the bundler does. *)
Theorem excluded_identifier_never_replaced options ctx moduleName platform :
  isExcluded options moduleName = true ->
  Forall (eq (Delegated moduleName))
    (events (improved' options ctx moduleName platform)) /\
  result (improved' options ctx moduleName platform)
  = baseResolver ctx moduleName platform.
Proof.
  intros Hexcl. unfold createImprovedWebCompatResolver, improvedAttempt.
  rewrite Hexcl.
  destruct (negb (isWebPlatform platform (webPlatforms options)));
    [split; [repeat constructor | reflexivity]|].
  destruct (baseResolver ctx moduleName platform) as [r|e] eqn:Hbase; cbn;
    rewrite ?Hbase; cbn; [split; [repeat constructor | reflexivity]|].
  destruct (String.eqb (fallbackStrategy options) "strict"); cbn;
    rewrite ?Hbase; split; try reflexivity; repeat constructor.
Qed.

(** X13.  An identifier for which no tier answers (none has a non-empty
    entry for it and, the tiers being object literals, it is not the
    name of a member of [Object.prototype]) and that the classifier
    does not call mobile-only passes through both resolvers
    unchanged. *)
Theorem unmapped_web_identifier_passes_through
    options ctx moduleName platform :
  lookupTruthy (overrides options) moduleName = None ->
  lookupTruthy (moduleMap options) moduleName = None ->
  lookupTruthy BUILT_IN_MAPPINGS moduleName = None ->
  (Classifier.isMobileSpecificModule moduleName = false ->
   Forall (eq (Delegated moduleName))
     (events (webCompat' options ctx moduleName platform)) /\
   result (webCompat' options ctx moduleName platform)
   = baseResolver ctx moduleName platform) /\
  (shouldProcess fs options moduleName = false ->
   Forall (eq (Delegated moduleName))
     (events (improved' options ctx moduleName platform)) /\
   result (improved' options ctx moduleName platform)
   = baseResolver ctx moduleName platform).
Proof.
  intros Ho Hm Hb.
  assert (Hpass : forall rethrow : bool,
    let run := try_catch (delegate baseResolver ctx moduleName platform)
                 (fun error => if rethrow then throw error
                               else delegate baseResolver ctx moduleName platform) in
    Forall (eq (Delegated moduleName)) (events run) /\
    result run = baseResolver ctx moduleName platform).
  { intros rethrow. cbn zeta. unfold delegate, emit.
    destruct (baseResolver ctx moduleName platform) as [r|e] eqn:Hbase; cbn;
      [split; [repeat constructor | reflexivity]|].
    destruct rethrow; cbn; rewrite ?Hbase;
      split; try reflexivity; repeat constructor. }
  split; intros Hclass.
  - unfold createWebCompatResolver, webCompatAttempt.
    rewrite Ho, Hm, Hb, Hclass.
    destruct (negb (isWebPlatform platform (webPlatforms options)));
      [split; [repeat constructor | reflexivity] | apply Hpass].
  - unfold createImprovedWebCompatResolver, improvedAttempt.
    rewrite Ho, Hm, Hb, Hclass.
    destruct (negb (isWebPlatform platform (webPlatforms options)));
      [split; [repeat constructor | reflexivity]|].
    destruct (isExcluded options moduleName); apply Hpass.
Qed.

(** X14.  The mock-generation step of the improved resolver, which an
    identifier reaches when it is not excluded and no tier answers for
    it (none has a non-empty entry and none inherits it).  When the
    generator returns a path, that path is the first identifier
    delegated, and its resolution is the result when the bundler accepts
    it; when the generator throws, nothing has been delegated yet, and
    the exception propagates in strict mode and gives way to the
    original identifier otherwise. *)
Theorem improved_mock_generation options ctx moduleName platform :
  isWebPlatform platform (webPlatforms options) = true ->
  isExcluded options moduleName = false ->
  lookupTruthy (overrides options) moduleName = None ->
  lookupTruthy (moduleMap options) moduleName = None ->
  lookupTruthy BUILT_IN_MAPPINGS moduleName = None ->
  shouldProcess fs options moduleName = true ->
  generateMocks options = true ->
  match generateAutoMock moduleName ctx options with
  | Return mockPath =>
      (exists rest,
         events (improved' options ctx moduleName platform)
         = Delegated mockPath :: rest) /\
      (forall r, baseResolver ctx mockPath platform = Return r ->
         improved' options ctx moduleName platform
         = ([Delegated mockPath], Return r))
  | Throw e =>
      improved' options ctx moduleName platform
      = if String.eqb (fallbackStrategy options) "strict"
        then ([], Throw e)
        else ([Delegated moduleName], baseResolver ctx moduleName platform)
  end.
Proof.
  intros Hweb Hexcl Ho Hm Hb Hproc Hmocks.
  unfold createImprovedWebCompatResolver, improvedAttempt.
  rewrite Hweb, Hexcl, Ho, Hm, Hb, Hproc, Hmocks. cbn [negb].
  destruct (generateAutoMock moduleName ctx options) as [mockPath|e]; cbn.
  - split.
    + destruct (baseResolver ctx mockPath platform) as [r|e]; cbn;
        [now exists []|].
      destruct (String.eqb (fallbackStrategy options) "strict"); cbn;
        eexists; reflexivity.
    + intros r ->. reflexivity.
  - destruct (String.eqb (fallbackStrategy options) "strict"); reflexivity.
Qed.
End DelegationFacts.

Lemma resolution_is_last_delegation_witness :
  exists before last,
    Js.events (Resolver.createImprovedWebCompatResolver
                 (Scenario.bundlerFailingOn "metro-web-compat/mocks/camera")
                 Scenario.mockGenerator Scenario.noMetadata
                 Resolver.defaultOptions tt "expo-camera" (Some "web"))
    = before ++ [Resolver.Delegated last] /\
    Scenario.bundlerFailingOn "metro-web-compat/mocks/camera" tt last (Some "web")
    = Js.Return "node_modules/expo-camera" /\
    length before <= 1.
Proof.
  destruct (resolution_is_last_delegation
              (Scenario.bundlerFailingOn "metro-web-compat/mocks/camera")
              Scenario.mockGenerator Scenario.noMetadata
              Resolver.defaultOptions tt "expo-camera" (Some "web"))
    as [_ Himproved].
  apply Himproved. reflexivity.
Defined.

Lemma improved_resolves_what_bundler_resolves_witness :
  exists r,
    Js.result (Resolver.createImprovedWebCompatResolver
                 (Scenario.bundlerFailingOn "metro-web-compat/mocks/camera")
                 Scenario.mockGenerator Scenario.noMetadata
                 Resolver.defaultOptions tt "expo-camera" (Some "web"))
    = Js.Return r.
Proof.
  apply (improved_resolves_what_bundler_resolves
           (Scenario.bundlerFailingOn "metro-web-compat/mocks/camera")
           Scenario.mockGenerator Scenario.noMetadata
           Resolver.defaultOptions tt "expo-camera" (Some "web")
           "node_modules/expo-camera");
    [discriminate | reflexivity].
Defined.

Lemma excluded_identifier_never_replaced_witness :
  let options := Scenario.excluding "expo-camera" Resolver.defaultOptions in
  Forall (eq (Resolver.Delegated "expo-camera"))
    (Js.events (Resolver.createImprovedWebCompatResolver
                  (Scenario.bundlerFailingOn "expo-camera")
                  Scenario.mockGenerator Scenario.noMetadata options tt
                  "expo-camera" (Some "web"))) /\
  Js.result (Resolver.createImprovedWebCompatResolver
               (Scenario.bundlerFailingOn "expo-camera")
               Scenario.mockGenerator Scenario.noMetadata options tt
               "expo-camera" (Some "web"))
  = Scenario.bundlerFailingOn "expo-camera" tt "expo-camera" (Some "web").
Proof.
  apply (excluded_identifier_never_replaced
           (Scenario.bundlerFailingOn "expo-camera") Scenario.mockGenerator
           Scenario.noMetadata
           (Scenario.excluding "expo-camera" Resolver.defaultOptions) tt
           "expo-camera" (Some "web")).
  reflexivity.
Defined.

Lemma unmapped_web_identifier_passes_through_witness :
  Forall (eq (Resolver.Delegated "lodash"))
    (Js.events (Resolver.createImprovedWebCompatResolver Scenario.bundler
                  Scenario.mockGenerator Scenario.noMetadata
                  Resolver.defaultOptions tt "lodash" (Some "web"))) /\
  Js.result (Resolver.createImprovedWebCompatResolver Scenario.bundler
               Scenario.mockGenerator Scenario.noMetadata
               Resolver.defaultOptions tt "lodash" (Some "web"))
  = Scenario.bundler tt "lodash" (Some "web").
Proof.
  destruct (unmapped_web_identifier_passes_through Scenario.bundler
              Scenario.mockGenerator Scenario.noMetadata
              Resolver.defaultOptions tt "lodash" (Some "web")
              eq_refl eq_refl eq_refl) as [_ Himproved].
  apply Himproved. reflexivity.
Defined.

Lemma improved_mock_generation_witness :
  (exists rest,
     Js.events (Resolver.createImprovedWebCompatResolver Scenario.bundler
                  Scenario.mockGenerator Scenario.noMetadata
                  Resolver.defaultOptions tt "react-native-unknown-sensor"
                  (Some "web"))
     = Resolver.Delegated ".metro-web-compat/mocks/react-native-unknown-sensor.js"
       :: rest) /\
  (forall r,
     Scenario.bundler tt ".metro-web-compat/mocks/react-native-unknown-sensor.js"
       (Some "web") = Js.Return r ->
     Resolver.createImprovedWebCompatResolver Scenario.bundler
       Scenario.mockGenerator Scenario.noMetadata Resolver.defaultOptions tt
       "react-native-unknown-sensor" (Some "web")
     = ([Resolver.Delegated
           ".metro-web-compat/mocks/react-native-unknown-sensor.js"],
        Js.Return r)).
Proof.
  apply (improved_mock_generation Scenario.bundler Scenario.mockGenerator
           Scenario.noMetadata Resolver.defaultOptions tt
           "react-native-unknown-sensor" (Some "web"));
    vm_compute; reflexivity.
Defined.

(** ** The logger *)

Section LoggerFacts.
Import Logger.

Lemma currentLevelOf_positive l : currentLevelOf l <> Some 0.
Proof.
  unfold currentLevelOf. destruct (levels l) as [[|n]| |]; discriminate.
Qed.

Lemma configure_positive logger steps :
  currentLevel logger <> Some 0 ->
  currentLevel (configure logger steps) <> Some 0.
Proof.
  revert logger. induction steps as [|[newEnabled newLevel|context] rest IH];
    intros logger Hpos; cbn [configure].
  - exact Hpos.
  - apply IH. destruct newLevel; cbn; [apply currentLevelOf_positive | exact Hpos].
  - apply IH. cbn. apply currentLevelOf_positive.
Qed.

(** X15.  The level ["debug"] has the number 0, which [||] takes for a missing
    level: it is replaced by the level of ["warn"].  However a logger is
    created and reconfigured, it never lets a debug message through, and
    asking for ["debug"] gives what ["warn"] gives. *)
Theorem debug_is_never_logged on name steps :
  let logger := configure (create on name) steps in
  shouldLog logger Debug = false /\
  (forall message, log logger Debug message = []) /\
  (forall moduleName, logModuleEvent logger moduleName "resolved" = []) /\
  (forall methodName, logMethodCall logger methodName "success" = []) /\
  (forall operation duration, logPerformance logger operation duration = []) /\
  (forall s, shouldLog (create on "debug") s
             = shouldLog (create on "warn") s).
Proof.
  cbn zeta.
  assert (Hdebug : shouldLog (configure (create on name) steps) Debug = false).
  { unfold shouldLog.
    pose proof (configure_positive (create on name) steps
                  (currentLevelOf_positive name)) as Hpos.
    destruct (enabled _); [|reflexivity]. cbn [negb].
    destruct (currentLevel _) as [[|n]|]; [congruence | reflexivity | reflexivity]. }
  split; [exact Hdebug|].
  unfold logModuleEvent, logMethodCall, logPerformance, log. cbn [String.eqb].
  rewrite Hdebug. repeat split; reflexivity.
Qed.
End LoggerFacts.

(** ** The fallback tables *)

Section TableFacts.
Import JsString Js JsValue FallbackManager FallbackTables.

(** X16.  [getBuiltInFallback] cuts the path at its first dot, so it never
    looks under a key that contains a dot: removing such a table (the
    two enumerations registered under
    ["@react-native-community/netinfo.NetInfoStateType"] and
    [".NetInfoCellularGeneration"]) changes no built-in rule, no
    fallback value and no membership answer. *)
Theorem getBuiltInFallback_ignores_dotted_tables cfg tables key :
  includes key "." = true ->
  let fm := {| config := cfg; builtInFallbacks := tables |} in
  let fm' := {| config := cfg; builtInFallbacks := delete key tables |} in
  (forall fullPath, getBuiltInFallback fm' fullPath = getBuiltInFallback fm fullPath) /\
  (forall moduleName prop callConfig,
     getFallbackValue fm' moduleName prop callConfig
     = getFallbackValue fm moduleName prop callConfig) /\
  (forall moduleName prop,
     hasFallback fm' moduleName prop = hasFallback fm moduleName prop).
Proof.
  intros Hkey fm fm'.
  assert (HbuiltIn : forall fullPath,
            getBuiltInFallback fm' fullPath = getBuiltInFallback fm fullPath).
  { intros fullPath. unfold getBuiltInFallback.
    pose proof (splitFirstDot_dotless fullPath) as Hdotless.
    destruct (splitFirstDot fullPath) as [moduleName methodName].
    cbn [fst] in Hdotless. cbn [builtInFallbacks fm fm'].
    rewrite lookup_delete_ne; [reflexivity|].
    intros ->. congruence. }
  split; [exact HbuiltIn|]. split.
  - intros moduleName prop callConfig. unfold getFallbackValue.
    destruct (keyToString prop); [|reflexivity]. cbn zeta.
    rewrite HbuiltIn. reflexivity.
  - intros moduleName prop. unfold hasFallback.
    destruct (keyToString prop); [|reflexivity]. cbn zeta.
    rewrite HbuiltIn. reflexivity.
Qed.

(** X17.  For a module name without a dot, and names that objects do not
    inherit, every property that [hasFallback] reports is among the keys
    that [getFallbackKeys] lists. *)
Theorem hasFallback_key_is_listed fm moduleName name :
  includes moduleName "." = false ->
  arrayIncludes objectPrototypeMembers moduleName = false ->
  inheritedFromObject (KString name) = false ->
  hasFallback fm moduleName (KString name) = Return true ->
  In name (getFallbackKeys fm moduleName).
Proof.
  intros Hdotless _ Hown. unfold hasFallback, getFallbackKeys. cbn [keyToString].
  cbn [inheritedFromObject] in Hown.
  intros [= Hhas]. apply in_or_app. apply orb_true_iff in Hhas as [Hcustom|HbuiltIn].
  - left. unfold getCustomFallback in Hcustom. cbn [getField assoc] in Hcustom.
    unfold orElse in Hcustom. cbn [truthy] in Hcustom. unfold tableGet in Hcustom.
    rewrite dotted_not_member in Hcustom.
    destruct (customFallbacks (config fm) !! (moduleName ++ "." ++ name)%string)
      as [v|] eqn:Hentry; [|destruct (truthy VUndefined) eqn:E; discriminate].
    apply list_elem_of_In, list_elem_of_omap.
    exists ((moduleName ++ "." ++ name)%string, v). split.
    + now apply elem_of_map_to_list.
    + cbn [fst]. rewrite <- append_associative, startsWith_append.
      f_equal. rewrite <- (substringFrom_append (moduleName ++ ".") name) at 2.
      rewrite length_append. reflexivity.
  - right. unfold getBuiltInFallback in HbuiltIn.
    rewrite (splitFirstDot_dotted _ _ Hdotless) in HbuiltIn.
    destruct (builtInFallbacks fm !! moduleName) as [methods|]; [|discriminate].
    unfold tableGet in HbuiltIn. rewrite Hown in HbuiltIn.
    destruct (methods !! name) as [v|] eqn:Hentry; [|discriminate].
    apply in_map_iff. exists (name, v). split; [reflexivity|].
    apply list_elem_of_In. now apply elem_of_map_to_list.
Qed.
End TableFacts.

(** ** Stand-ins of the wrapper *)

Section WrapperFacts.
Import JsString Js JsValue ProxyWrapper Chain.
Variable host : Host.
Variable fm : FallbackManager.Manager.

Lemma getFallbackValue_total moduleName name callConfig :
  exists v,
    FallbackManager.getFallbackValue fm moduleName (KString name) callConfig
    = Return v.
Proof.
  unfold FallbackManager.getFallbackValue. cbn [keyToString].
  destruct (truthy (FallbackManager.getCustomFallback _ _ _)); [eauto|].
  destruct (truthy (FallbackManager.getBuiltInFallback _ _)); [eauto|].
  destruct (FallbackManager.isMethodName name); eauto.
Qed.

(** X18.  A property that the module has, but with the value [null] or
    [undefined], and whose name has the shape of an object
    ([...State], [...Type], [...Options], ...) is handed out as a
    stand-in object on which every property name can be read, unless
    the module holds the property read-only and not configurable, as a
    frozen module does: then the engine refuses the stand-in and the
    read throws.  With any other name the [null] itself is handed
    out. *)
Theorem null_property_becomes_readable fl target moduleName config name v :
  hasProperty host fm target (KString name) = Return true ->
  getProperty host fm target (KString name) = Return v ->
  v = VNull \/ v = VUndefined ->
  let read :=
    getProperty host fm (VLib (ProxyWrapper fl target moduleName config))
      (KString name) in
  if shouldCreateFallbackObject name moduleName
  then if fixes host target (KString name)
       then read = Throw invariantViolated
       else exists standIn,
              read = Return standIn /\
              forall nested, exists v',
                getProperty host fm standIn (KString nested) = Return v'
  else read = Return v.
Proof.
  intros Hhas Hget Hnull. cbn zeta. cbn [getProperty]. rewrite Hhas, Hget.
  unfold wrapExisting.
  assert (Hfun : isFunction v = false) by (destruct Hnull; subst; reflexivity).
  assert (Hobj : isObject v = false) by (destruct Hnull; subst; reflexivity).
  rewrite Hfun, Hobj. cbn [keyToString].
  destruct (shouldCreateFallbackObject name moduleName).
  - destruct (fixes host target (KString name));
      [destruct Hnull; subst; reflexivity|].
    exists (VLib (FallbackObjectProxy (dotted moduleName name))).
    split; [destruct Hnull; subst; reflexivity|].
    intros nested. cbn [getProperty]. unfold fallbackObjectProxyGet.
    destruct (String.eqb nested "toString"); [eauto|].
    destruct (String.eqb nested "valueOf"); [eauto|].
    cbn [keyToString]. apply getFallbackValue_total.
  - destruct Hnull; subst; reflexivity.
Qed.

(** X19.  In the copy of the demo application, a missing property whose name
    has none of the recognised shapes is handed out as a callable
    stand-in.  Calling it calls nothing and returns what the wrapper of
    the runtime resolver, built with an empty configuration, returns
    when the same property is read: a rule of the fallback tables comes
    back as it is, a function rule is not applied, and the
    configuration of the wrapper is not passed on.  The call agrees
    with the read through the runtime wrapper of the same configuration
    when that configuration has no truthy [fallback] and no truthy
    [returnValue]. *)
Theorem unrecognised_stand_in_returns_the_rule
    target moduleName config name args :
  hasProperty host fm target (KString name) = Return false ->
  recogniseShape moduleName name (orElse (getField config name) (VObj []))
  = Return None ->
  exists standIn,
    getProperty host fm (VLib (ProxyWrapper Smart target moduleName config))
      (KString name) = Return (VLib standIn) /\
    applyClosure host fm standIn args
    = ([],
       getProperty host fm (VLib (ProxyWrapper Plain target moduleName (VObj [])))
         (KString name)) /\
    (truthy (getField config "fallback") = false ->
     truthy (getField config "returnValue") = false ->
     applyClosure host fm standIn args
     = ([],
        getProperty host fm (VLib (ProxyWrapper Plain target moduleName config))
          (KString name))).
Proof.
  intros Habsent Hshape. exists (SafePropertyProxy moduleName name).
  cbn [getProperty]. rewrite Habsent. unfold fallbackForMissing.
  cbn [keyToString]. rewrite Hshape.
  split; [reflexivity|]. split; [reflexivity|].
  intros Hfallback HreturnValue. cbn [applyClosure]. f_equal.
  unfold FallbackManager.getFallbackValue, FallbackManager.getCustomFallback.
  cbn [keyToString getField assoc].
  rewrite !(orElse_falsy (getField config "fallback")) by assumption.
  rewrite !(orElse_falsy VUndefined) by reflexivity.
  rewrite !(orElse_falsy (getField config "returnValue")) by assumption.
  reflexivity.
Qed.

(** X20.  Below such a stand-in every chain of property names can be read,
    the two conversion methods apart and, the target of the stand-in
    being a function, [arguments] and [caller]: each read gives a
    stand-in for the path one name longer, which can itself be
    called. *)
Theorem stand_in_chain_is_readable moduleName prop names args :
  arrayIncludes objectPrototypeMembers moduleName = false ->
  Forall (fun name =>
            arrayIncludes ["toString"; "valueOf"; "arguments"; "caller"] name
            = false) names ->
  exists m p,
    readPath host fm (VLib (SafePropertyProxy moduleName prop)) names
    = Return (VLib (SafePropertyProxy m p)) /\
    dotted m p = dottedPath (dotted moduleName prop) names /\
    exists v, applyClosure host fm (SafePropertyProxy m p) args = ([], Return v).
Proof.
  intros _ Hnames. revert moduleName prop.
  induction Hnames as [|name rest Hname _ IH]; intros moduleName prop.
  - exists moduleName, prop. split; [reflexivity|]. split; [reflexivity|].
    cbn [applyClosure].
    destruct (getFallbackValue_total moduleName prop (VObj [])) as [v ->]. eauto.
  - cbn [readPath getProperty]. unfold safePropertyGet.
    cbn [arrayIncludes existsb] in Hname.
    apply orb_false_iff in Hname as [HtoString Hname].
    apply orb_false_iff in Hname as [HvalueOf Hname].
    rewrite HtoString, HvalueOf. cbn [keyToString argumentsOrCaller].
    cbn [arrayIncludes existsb]. rewrite Hname.
    destruct (IH (dotted moduleName prop) name) as [m [p [Hread [Hpath Hcall]]]].
    exists m, p. split; [exact Hread|]. split; [exact Hpath | exact Hcall].
Qed.

(** Reading [caller] off such a stand-in throws: its target, a function
    of a file without ['use strict'], holds [null] there for good. *)
Remark stand_in_caller_throws moduleName prop :
  getProperty host fm (VLib (SafePropertyProxy moduleName prop))
    (KString "caller")
  = Throw invariantViolated.
Proof. reflexivity. Qed.

(** X21.  A missing property whose name ends in [Events] is handed out as an
    event emitter.  For an event that is a string, a number, a boolean,
    [null] or [undefined] (the name of the event, or none), subscribing
    returns a subscription whose [remove] can be called, unsubscribing
    returns [undefined], and none of it calls into the application or
    throws. *)
Theorem event_emitter_stand_in target moduleName config name subscribe args :
  hasProperty host fm target (KString name) = Return false ->
  endsWith name "Events" = true ->
  subscribe = "addListener" \/ subscribe = "addEventListener" ->
  isPrimitive (nth 0 args VUndefined) = true ->
  exists emitter listener subscription remove unsubscribe,
    getProperty host fm (VLib (ProxyWrapper Smart target moduleName config))
      (KString name) = Return emitter /\
    getProperty host fm emitter (KString subscribe) = Return (VLib listener) /\
    applyClosure host fm listener args = ([], Return subscription) /\
    getProperty host fm subscription (KString "remove") = Return (VLib remove) /\
    applyClosure host fm remove [] = ([], Return VUndefined) /\
    getProperty host fm emitter (KString "removeListener")
    = Return (VLib unsubscribe) /\
    applyClosure host fm unsubscribe args = ([], Return VUndefined).
Proof.
  intros Habsent Hevents Hsubscribe Hevent.
  set (event := nth 0 args VUndefined) in *.
  exists (VLib (EventEmitterProxy name moduleName)),
    (ListenerProxy subscribe (dotted moduleName name)),
    (VObj [("remove",
            VLib (SubscriptionRemove subscribe (dotted moduleName name) event))]),
    (SubscriptionRemove subscribe (dotted moduleName name) event),
    (RemoveListenerProxy "removeListener" (dotted moduleName name)).
  split.
  - cbn [getProperty]. rewrite Habsent. unfold fallbackForMissing, recogniseShape.
    cbn [keyToString]. rewrite Hevents, orb_true_r. reflexivity.
  - split; [destruct Hsubscribe; subst; reflexivity|].
    cbn [applyClosure]. fold event. unfold interpolate. rewrite Hevent.
    repeat split.
Qed.

(** An event that is an object is converted for the log line by the
    object itself; what the conversion throws comes out of the
    subscription. *)
Remark listener_converts_the_event prop moduleName event e :
  isPrimitive event = false ->
  hostCall host (VIntrinsic "String") [event] = Throw e ->
  applyClosure host fm (ListenerProxy prop moduleName) [event]
  = ([Called (VIntrinsic "String") [event]], Throw e).
Proof.
  intros Hobject Hthrows. cbn [applyClosure nth]. unfold interpolate.
  rewrite Hobject. unfold callFunction, emit. rewrite Hthrows. reflexivity.
Qed.
End WrapperFacts.

(** ** The platform detector *)

Section DetectorStateFacts.
Import Js JsValue RuntimeResolver PlatformDetector.

(** X22.  The answers collected by [getEnvironmentInfo] fit together: the
    platform is the one detected at the first query (or cached before),
    [isWeb] says whether it is ["web"], [isNative] is its negation, so
    that ["node"] and ["unknown"] count as native, and at least one of
    the two modes holds; both hold exactly for a production build in
    which [__DEV__] is set. *)
Theorem environment_info_is_coherent env build st :
  let info := fst (getEnvironmentInfo env build st) in
  let st' := snd (getEnvironmentInfo env build st) in
  infoPlatform info = default (detectPlatform env) (cachedPlatform st) /\
  cachedPlatform st' = Some (infoPlatform info) /\
  infoIsWeb info = String.eqb (infoPlatform info) "web" /\
  infoIsNative info = negb (infoIsWeb info) /\
  infoIsDevelopment info || infoIsProduction info = true /\
  (infoIsDevelopment info && infoIsProduction info = true <->
   nodeEnv build = Some "production" /\ devFlag build = true).
Proof.
  cbn zeta. unfold getEnvironmentInfo, getPlatform, isNative, isWeb.
  assert (Hmodes :
    isDevelopment build || isProduction build = true /\
    (isDevelopment build && isProduction build = true <->
     nodeEnv build = Some "production" /\ devFlag build = true)).
  { unfold isProduction, isDevelopment.
    destruct (nodeEnv build) as [mode|]; destruct (devFlag build);
      try (destruct (String.eqb_spec mode "development") as [->|Hdev]);
      try (destruct (String.eqb_spec mode "production") as [->|Hprod]);
      cbn; (split; [reflexivity|]); split;
      try discriminate; try tauto; try (intros [[= ] _]; congruence);
      try (intros [_ [= ]]); try (intros [[= ->] _]; congruence). }
  destruct (cachedPlatform st) as [platform|] eqn:Hcached; cbn;
    rewrite ?Hcached; cbn;
    (split; [reflexivity|]); (split; [assumption || reflexivity|]);
    (split; [reflexivity|]); (split; [reflexivity|]); exact Hmodes.
Qed.

(** X23.  Once detected, the platform is kept until [resetCache]: the next
    query answers from the cache whatever the environment has become,
    and after [resetCache] it looks at the environment again. *)
Theorem platform_is_cached_until_reset env env' st :
  getPlatform env' (snd (getPlatform env st))
  = (fst (getPlatform env st), snd (getPlatform env st)) /\
  fst (isWeb env' (snd (getPlatform env st)))
  = String.eqb (fst (getPlatform env st)) "web" /\
  fst (getPlatform env' (resetCache (snd (getPlatform env st))))
  = detectPlatform env'.
Proof.
  unfold getPlatform, isWeb, resetCache.
  destruct (cachedPlatform st) as [platform|] eqn:Hcached; cbn;
    rewrite ?Hcached; repeat split; reflexivity.
Qed.
End DetectorStateFacts.

(** ** The life of a resolver *)

Section LifecycleFacts.
Import Js JsValue RuntimeResolver Lifecycle.

(** The invariant of a resolver: every wrapped entry of the cache names
    a proxy of the store that was built for that module name, wrapped
    entries exist only when the cached platform is the web, and unwrapped
    ones only when it is another platform. *)
Abbreviation consistent st :=
  (forall moduleName r,
     moduleCache st !! moduleName = Some r ->
     match r with
     | Wrapped address =>
         cachedPlatform st = Some "web" /\
         exists proxy,
           proxies st !! address = Some proxy /\
           proxyOf moduleName proxy = true
     | Unwrapped _ =>
         exists platform,
           cachedPlatform st = Some platform /\ platform <> "web"
     end).

Lemma isWeb_platform env st :
  moduleCache (snd (isWeb env st)) = moduleCache st /\
  proxies (snd (isWeb env st)) = proxies st /\
  (forall platform, cachedPlatform st = Some platform ->
                    cachedPlatform (snd (isWeb env st)) = Some platform) /\
  exists platform,
    cachedPlatform (snd (isWeb env st)) = Some platform /\
    fst (isWeb env st) = String.eqb platform "web".
Proof.
  unfold isWeb. destruct (cachedPlatform st) as [platform|] eqn:Hcached; cbn.
  - split; [reflexivity|]. split; [reflexivity|].
    split; [intros p [= <-]; exact Hcached|].
    exists platform. split; [assumption | reflexivity].
  - split; [reflexivity|]. split; [reflexivity|]. split; [discriminate|].
    exists (detectPlatform env). split; reflexivity.
Qed.

Lemma createProxyWrapper_proxyOf target moduleName config proxy :
  ProxyWrapper.createProxyWrapper Plain target moduleName config = Return proxy ->
  proxyOf moduleName proxy = true.
Proof.
  unfold ProxyWrapper.createProxyWrapper.
  destruct (negb (truthy target)).
  - intros [= <-]. cbn. apply String.eqb_refl.
  - destruct (isObject target || isFunction target); [|discriminate].
    intros [= <-]. cbn. apply String.eqb_refl.
Qed.

Lemma resolve_consistent env cfg st moduleName originalModule :
  consistent st ->
  consistent (snd (resolve env cfg st moduleName originalModule)).
Proof.
  intros Hst. unfold resolve.
  destruct (moduleCache st !! moduleName) as [cached|] eqn:Hcached; [exact Hst|].
  destruct (isWeb_platform env st)
    as [Hcache [Hproxies [Hkeep [platform [Hplatform Hweb]]]]].
  destruct (isWeb env st) as [web st1]. cbn [fst snd] in *.
  assert (Hst1 : consistent st1).
  { intros name r Hr. rewrite Hcache in Hr. specialize (Hst name r Hr).
    destruct r as [v|address].
    - destruct Hst as [p [Hp Hne]]. exists p. split; [now apply Hkeep | exact Hne].
    - destruct Hst as [Hp Hproxy]. split; [now apply Hkeep|].
      now rewrite Hproxies. }
  destruct web; cbn [negb].
  - symmetry in Hweb. apply String.eqb_eq in Hweb. subst platform.
    destruct (ProxyWrapper.createProxyWrapper Plain originalModule moduleName _)
      as [proxy|e] eqn:Hproxy; [|exact Hst1].
    cbn. intros name r Hr.
    destruct (decide (name = moduleName)) as [->|Hne].
    + rewrite lookup_insert_eq in Hr. injection Hr as <-.
      split; [exact Hplatform|]. exists proxy. split.
      * rewrite lookup_app_r by lia. now rewrite Nat.sub_diag.
      * eapply createProxyWrapper_proxyOf; eassumption.
    + rewrite lookup_insert_ne in Hr by congruence.
      specialize (Hst1 name r Hr). destruct r as [v|address]; [exact Hst1|].
      destruct Hst1 as [Hp [proxy' [Hlookup Hof]]]. split; [exact Hp|].
      exists proxy'. split; [|exact Hof].
      apply lookup_app_l_Some. exact Hlookup.
  - cbn. intros name r Hr.
    destruct (decide (name = moduleName)) as [->|Hne].
    + rewrite lookup_insert_eq in Hr. injection Hr as <-.
      exists platform. split; [exact Hplatform|].
      intros ->. discriminate Hweb.
    + rewrite lookup_insert_ne in Hr by congruence. exact (Hst1 name r Hr).
Qed.

Lemma perform_consistent op cfg st :
  consistent st -> consistent (snd (perform op cfg st)).
Proof.
  intros Hst. destruct op as [env name v|env name [v|e]|newConfig];
    cbn [perform snd].
  - now apply resolve_consistent.
  - unfold wrapImport.
    pose proof (resolve_consistent env cfg st name v Hst) as Hnext.
    destruct (resolve env cfg st name v) as [[r|e] st1]; exact Hnext.
  - exact Hst.
  - unfold updateConfig. cbn. intros name r Hr. rewrite lookup_empty in Hr.
    discriminate.
Qed.

Lemma run_consistent ops cfg st :
  consistent st -> consistent (snd (run ops cfg st)).
Proof.
  revert cfg st. induction ops as [|op rest IH]; intros cfg st Hst; [exact Hst|].
  cbn [run]. pose proof (perform_consistent op cfg st Hst) as Hnext.
  destruct (perform op cfg st) as [cfg1 st1]. now apply IH.
Qed.

(** X24.  Whatever is done with a resolver (resolving, importing,
    reconfiguring, in environments that may change from call to call),
    the platform it detected first decides for all its modules: a cached
    module is a proxy only if that platform is the web, and the original
    object only if it is not.  The cache never mixes the two. *)
Theorem first_detection_decides_for_all ops cfg moduleName r :
  let st := snd (run ops cfg initial) in
  moduleCache st !! moduleName = Some r ->
  match r with
  | Wrapped _ => cachedPlatform st = Some "web"
  | Unwrapped _ =>
      exists platform, cachedPlatform st = Some platform /\ platform <> "web"
  end.
Proof.
  cbn zeta. intros Hr.
  assert (Hinit : consistent initial).
  { intros name r' Hr'. cbn in Hr'. rewrite lookup_empty in Hr'. discriminate. }
  pose proof (run_consistent ops cfg initial Hinit moduleName r Hr) as Hc.
  destruct r as [v|address]; [exact Hc | apply Hc].
Qed.

(** X25.  Every wrapped module of the cache is a proxy that was built for its
    own module name, so two names never share a proxy. *)
Theorem cached_proxy_belongs_to_its_name ops cfg moduleName address :
  let st := snd (run ops cfg initial) in
  moduleCache st !! moduleName = Some (Wrapped address) ->
  (exists proxy,
     proxies st !! address = Some proxy /\ proxyOf moduleName proxy = true) /\
  (forall other,
     moduleCache st !! other = Some (Wrapped address) -> other = moduleName).
Proof.
  cbn zeta. intros Hr.
  assert (Hinit : consistent initial).
  { intros name r' Hr'. cbn in Hr'. rewrite lookup_empty in Hr'. discriminate. }
  pose proof (run_consistent ops cfg initial Hinit) as Hc.
  destruct (Hc moduleName _ Hr) as [_ [proxy [Hlookup Hof]]].
  split; [eauto|]. intros other Hother.
  destruct (Hc other _ Hother) as [_ [proxy' [Hlookup' Hof']]].
  rewrite Hlookup in Hlookup'. injection Hlookup' as <-.
  unfold proxyOf in Hof, Hof'.
  destruct proxy as [| | | | | | | | | | | |[]]; try discriminate;
    destruct fl; try discriminate;
    apply String.eqb_eq in Hof, Hof'; congruence.
Qed.

(** X26.  [updateConfig] forgets every cached module but not the platform:
    the next [resolve] of any name is decided by the platform detected
    before, in whatever environment it runs, and wraps or returns the
    module object it is given now. *)
Theorem updateConfig_clears_modules_keeps_platform
    newConfig cfg st platform env moduleName originalModule :
  cachedPlatform st = Some platform ->
  let cfg' := fst (updateConfig newConfig cfg st) in
  let st' := snd (updateConfig newConfig cfg st) in
  moduleCache st' = ∅ /\
  fst (resolve env cfg' st' moduleName originalModule)
  = if String.eqb platform "web"
    then match ProxyWrapper.createProxyWrapper Plain originalModule moduleName
                 (orElse (FallbackManager.tableGet (modules cfg') moduleName)
                    (VObj [])) with
         | Return _ => Return (Wrapped (length (proxies st)))
         | Throw e => Throw e
         end
    else Return (Unwrapped originalModule).
Proof.
  intros Hplatform. cbn zeta. split; [reflexivity|].
  unfold resolve, updateConfig. cbn [fst snd moduleCache].
  rewrite lookup_empty. unfold isWeb. cbn [cachedPlatform]. rewrite Hplatform.
  destruct (String.eqb platform "web"); cbn [negb]; [|reflexivity].
  destruct (ProxyWrapper.createProxyWrapper _ _ _ _); reflexivity.
Qed.
End LifecycleFacts.

(** ** Failed imports *)

Section ImportFacts.
Import JsString Js JsValue FallbackManager FallbackTables RuntimeResolver Lifecycle.

End ImportFacts.

(** ** Return values and wrapped methods *)

Section ReturnValueFacts.
Import JsString Js JsValue FallbackManager ProxyWrapper.
Variable host : Host.
Variable fm : Manager.

(** X28.  For a method of a module (names without dots and not inherited
    from [Object.prototype]) that has no rule, and an error whose
    [message] can be read: a [returnValue] of the call configuration
    that is falsy (0, false, the empty string, null) is honoured when
    the method fails, where it is tested with [!== undefined], and
    ignored when a missing property is read, where it is tested with
    [||]: there the global [returnValue] is used. *)
Theorem falsy_returnValue_only_on_failure
    moduleName name callConfig v e message args :
  includes moduleName "." = false ->
  arrayIncludes objectPrototypeMembers moduleName = false ->
  inheritedFromObject (KString name) = false ->
  getField callConfig "returnValue" = v ->
  truthy v = false ->
  v <> VUndefined ->
  truthy (getCustomFallback fm (dotted moduleName name) callConfig) = false ->
  truthy (getBuiltInFallback fm (dotted moduleName name)) = false ->
  truthy (definedOr (getField callConfig "throwError") (throwError (config fm)))
  = false ->
  getProperty host fm e (KString "message") = Return message ->
  handleMethodError host (getProperty host fm) fm (dotted moduleName name) e
    args callConfig
  = ([], Return v) /\
  getFallbackValue fm moduleName (KString name) callConfig
  = Return (if isMethodName name
            then VLib (MethodStub (dotted moduleName name) (returnValue (config fm)))
            else returnValue (config fm)).
Proof.
  intros _ _ _ Hv Hfalsy Hdefined Hcustom HbuiltIn Hthrow Hmessage. split.
  - unfold handleMethodError. rewrite Hcustom, HbuiltIn.
    unfold executeDefaultFallback. rewrite Hthrow, Hv, Hmessage.
    destruct (logMessage (config fm)); destruct v; try reflexivity; congruence.
  - unfold getFallbackValue. cbn [keyToString]. fold (dotted moduleName name).
    rewrite Hcustom, HbuiltIn, Hv. unfold orElse. rewrite Hfalsy.
    destruct (isMethodName name); reflexivity.
Qed.

(** X29.  Reading a method that the module has (and may replace: the
    property is not read-only and fixed) and calling what was read:
    when the method returns a promise that fulfils, or a value that has
    no callable [then], the original is called once with the same
    arguments and its result comes back as it is (the promise as a
    promise fulfilled with the same value), in both copies of the
    wrapper; the fallback policy is not consulted. *)
Theorem wrapped_method_passes_through
    fl target moduleName config name method args v :
  hasProperty host fm target (KString name) = Return true ->
  getProperty host fm target (KString name) = Return method ->
  fixes host target (KString name) = false ->
  isFunction method = true ->
  hostCall host method args = Return v ->
  (exists x, v = VPromise (Return x)) \/
  ((forall state, v <> VPromise state) /\
   (truthy v = false \/
    exists member,
      getProperty host fm v (KString "then") = Return member /\
      isFunction member = false)) ->
  exists proxy,
    getProperty host fm (VLib (ProxyWrapper fl target moduleName config))
      (KString name) = Return (VLib proxy) /\
    applyClosure host fm proxy args = ([Called method args], Return v).
Proof.
  intros Hhas Hget Hfree Hfun Hcall Hplain.
  exists (MethodProxy method (KString name) moduleName config). split.
  - cbn [getProperty]. rewrite Hhas, Hget. unfold wrapExisting.
    now rewrite Hfun, Hfree.
  - cbn [applyClosure]. unfold callMethodProxy. cbn [keyToString].
    change (callFunction host method args)
      with ([Called method args], hostCall host method args).
    rewrite Hcall. cbn [bind].
    destruct Hplain as [[x ->] | [Hother Hthen]]; [reflexivity|].
    destruct v; try (now destruct (Hother _ eq_refl));
      (destruct Hthen as [Hfalsy | [member [Hmember Hfunction]]];
       [ rewrite Hfalsy; reflexivity
       | rewrite Hmember; cbn [bind]; rewrite Hfunction;
         destruct (truthy _); reflexivity ]).
Qed.

(** A result with a callable [then] and nothing callable under [catch]
    is lost, although the method succeeded: the call of [catch] fails
    inside the [try], and the fallback policy answers. *)
Remark thenable_without_catch_is_replaced
    method name moduleName config args v thenMember catchMember :
  hostCall host method args = Return v ->
  (forall state, v <> VPromise state) ->
  truthy v = true ->
  getProperty host fm v (KString "then") = Return thenMember ->
  isFunction thenMember = true ->
  getProperty host fm v (KString "catch") = Return catchMember ->
  isFunction catchMember = false ->
  callMethodProxy host fm method (KString name) moduleName config args
  = (Called method args
       :: fst (handleFailure host fm (dotted moduleName name) args config
                 (typeError "result.catch is not a function")),
     snd (handleFailure host fm (dotted moduleName name) args config
            (typeError "result.catch is not a function"))).
Proof.
  intros Hcall Hother Htruthy Hthen HthenFunction Hcatch HcatchFunction.
  unfold callMethodProxy. cbn [keyToString].
  change (callFunction host method args)
    with ([Called method args], hostCall host method args).
  rewrite Hcall. cbn [bind].
  destruct (handleFailure host fm (dotted moduleName name) args config _)
    as [t r] eqn:Hhandled.
  destruct v; try (now destruct (Hother _ eq_refl));
    rewrite Htruthy, Hthen; cbn [bind]; rewrite HthenFunction, Hcatch;
    cbn [bind]; rewrite HcatchFunction; cbn [throw try_catch app];
    rewrite Hhandled; reflexivity.
Qed.
End ReturnValueFacts.

(** ** The default web platforms *)

Section DomPlatformFacts.
Import JsString Js Resolver BuildPlatform.
Context {context resolution : Type}.
Variable baseResolver :
  context -> identifier -> option string -> outcome resolution.
Variable generateAutoMock : string -> context -> Options -> outcome string.
Variable fs : Classifier.FileSystem.

(** X30.  The platform ["dom"] is a web platform for the utilities, which
    default to [DEFAULT_WEB_PLATFORMS], but not for the resolvers, whose
    own default list is ["web"], ["browser"]: with the default options
    they replace nothing on that platform. *)
Theorem dom_platform_is_not_web_for_resolvers platform ctx moduleName :
  toLowerCase platform = "dom" ->
  isWebPlatform (Some platform) DEFAULT_WEB_PLATFORMS = true /\
  getPlatformExtensions (Some platform)
  = [".web.js"; ".web.jsx"; ".web.ts"; ".web.tsx";
     ".js"; ".jsx"; ".ts"; ".tsx"; ".json"] /\
  createWebCompatResolver baseResolver generateAutoMock defaultOptions ctx
    moduleName (Some platform)
  = ([Delegated moduleName], baseResolver ctx moduleName (Some platform)) /\
  createImprovedWebCompatResolver baseResolver generateAutoMock fs
    defaultOptions ctx moduleName (Some platform)
  = ([Delegated moduleName], baseResolver ctx moduleName (Some platform)).
Proof.
  intros Hdom.
  assert (Hne : String.eqb platform "" = false).
  { destruct platform; [discriminate Hdom | reflexivity]. }
  assert (Hutil : isWebPlatform (Some platform) DEFAULT_WEB_PLATFORMS = true).
  { unfold isWebPlatform. rewrite Hne, Hdom. reflexivity. }
  assert (Hresolver :
    isWebPlatform (Some platform) (webPlatforms defaultOptions) = false).
  { unfold isWebPlatform. rewrite Hne, Hdom. reflexivity. }
  split; [exact Hutil|]. split.
  - unfold getPlatformExtensions. rewrite Hutil. reflexivity.
  - unfold createWebCompatResolver, createImprovedWebCompatResolver.
    rewrite Hresolver. split; reflexivity.
Qed.
End DomPlatformFacts.

(** ** Instances *)

Lemma dom_platform_is_not_web_for_resolvers_witness :
  Resolver.isWebPlatform (Some "DOM") BuildPlatform.DEFAULT_WEB_PLATFORMS = true /\
  BuildPlatform.getPlatformExtensions (Some "DOM")
  = [".web.js"; ".web.jsx"; ".web.ts"; ".web.tsx";
     ".js"; ".jsx"; ".ts"; ".tsx"; ".json"] /\
  Resolver.createWebCompatResolver Scenario.bundler Scenario.mockGenerator
    Resolver.defaultOptions tt "expo-camera" (Some "DOM")
  = ([Resolver.Delegated "expo-camera"],
     Scenario.bundler tt "expo-camera" (Some "DOM")) /\
  Resolver.createImprovedWebCompatResolver Scenario.bundler
    Scenario.mockGenerator Scenario.noMetadata Resolver.defaultOptions tt
    "expo-camera" (Some "DOM")
  = ([Resolver.Delegated "expo-camera"],
     Scenario.bundler tt "expo-camera" (Some "DOM")).
Proof.
  apply (dom_platform_is_not_web_for_resolvers Scenario.bundler
           Scenario.mockGenerator Scenario.noMetadata "DOM" tt "expo-camera").
  reflexivity.
Defined.

Lemma getBuiltInFallback_ignores_dotted_tables_witness :
  let key := "@react-native-community/netinfo.NetInfoStateType" in
  let fm := FallbackManager.create FallbackManager.defaultConfig in
  let fm' :=
    {| FallbackManager.config := FallbackManager.defaultConfig;
       FallbackManager.builtInFallbacks :=
         delete key FallbackManager.initializeBuiltInFallbacks |} in
  (forall fullPath,
     FallbackManager.getBuiltInFallback fm' fullPath
     = FallbackManager.getBuiltInFallback fm fullPath) /\
  (forall moduleName prop callConfig,
     FallbackManager.getFallbackValue fm' moduleName prop callConfig
     = FallbackManager.getFallbackValue fm moduleName prop callConfig) /\
  (forall moduleName prop,
     FallbackManager.hasFallback fm' moduleName prop
     = FallbackManager.hasFallback fm moduleName prop).
Proof.
  apply (getBuiltInFallback_ignores_dotted_tables FallbackManager.defaultConfig
           FallbackManager.initializeBuiltInFallbacks
           "@react-native-community/netinfo.NetInfoStateType").
  reflexivity.
Defined.

Lemma hasFallback_key_is_listed_witness :
  In "impactAsync" (FallbackTables.getFallbackKeys Scenario.manager "expo-haptics").
Proof.
  apply hasFallback_key_is_listed; vm_compute; reflexivity.
Defined.

Lemma falsy_returnValue_only_on_failure_witness :
  let callConfig := JsValue.VObj [("returnValue", JsValue.VNum 0)] in
  FallbackManager.handleMethodError Scenario.application
    (ProxyWrapper.getProperty Scenario.application Scenario.manager)
    Scenario.manager (ProxyWrapper.dotted "m" "brightness") Scenario.failure []
    callConfig
  = ([], Js.Return (JsValue.VNum 0)) /\
  FallbackManager.getFallbackValue Scenario.manager "m"
    (JsValue.KString "brightness") callConfig
  = Js.Return JsValue.VNull.
Proof.
  apply (falsy_returnValue_only_on_failure Scenario.application Scenario.manager
           "m" "brightness" (JsValue.VObj [("returnValue", JsValue.VNum 0)])
           (JsValue.VNum 0) Scenario.failure
           (JsValue.VStr "not supported on web") []);
    try reflexivity. discriminate.
Defined.

Lemma wrapped_method_passes_through_witness :
  let target := JsValue.VObj [("render", JsValue.VHostFun 2)] in
  exists proxy,
    ProxyWrapper.getProperty Scenario.application Scenario.manager
      (JsValue.VLib (JsValue.ProxyWrapper JsValue.Plain target "m"
                       (JsValue.VObj [])))
      (JsValue.KString "render") = Js.Return (JsValue.VLib proxy) /\
    ProxyWrapper.applyClosure Scenario.application Scenario.manager proxy []
    = ([JsValue.Called (JsValue.VHostFun 2) []],
       Js.Return (JsValue.VStr "rendered")).
Proof.
  apply (wrapped_method_passes_through Scenario.application Scenario.manager
           JsValue.Plain (JsValue.VObj [("render", JsValue.VHostFun 2)]) "m"
           (JsValue.VObj []) "render" (JsValue.VHostFun 2) []
           (JsValue.VStr "rendered"));
    try reflexivity.
  right. split; [discriminate|]. right. exists JsValue.VUndefined.
  split; reflexivity.
Defined.

Lemma null_property_becomes_readable_witness :
  let target := JsValue.VObj [("NetInfoStateType", JsValue.VNull)] in
  exists standIn,
    ProxyWrapper.getProperty Scenario.application Scenario.manager
      (JsValue.VLib (JsValue.ProxyWrapper JsValue.Plain target "netinfo"
                       (JsValue.VObj [])))
      (JsValue.KString "NetInfoStateType") = Js.Return standIn /\
    forall nested, exists v',
      ProxyWrapper.getProperty Scenario.application Scenario.manager standIn
        (JsValue.KString nested) = Js.Return v'.
Proof.
  exact (null_property_becomes_readable Scenario.application Scenario.manager
           JsValue.Plain (JsValue.VObj [("NetInfoStateType", JsValue.VNull)])
           "netinfo" (JsValue.VObj []) "NetInfoStateType" JsValue.VNull
           eq_refl eq_refl (or_introl eq_refl)).
Defined.

Lemma unrecognised_stand_in_returns_the_rule_witness :
  let config := JsValue.VObj [("returnValue", JsValue.VNum 5)] in
  exists standIn,
    ProxyWrapper.getProperty Scenario.application Scenario.manager
      (JsValue.VLib (JsValue.ProxyWrapper JsValue.Smart (JsValue.VHostObj 0)
                       "m" config))
      (JsValue.KString "brightness") = Js.Return (JsValue.VLib standIn) /\
    ProxyWrapper.applyClosure Scenario.application Scenario.manager standIn []
    = ([],
       ProxyWrapper.getProperty Scenario.application Scenario.manager
         (JsValue.VLib (JsValue.ProxyWrapper JsValue.Plain (JsValue.VHostObj 0)
                          "m" (JsValue.VObj [])))
         (JsValue.KString "brightness")) /\
    (JsValue.truthy (JsValue.getField config "fallback") = false ->
     JsValue.truthy (JsValue.getField config "returnValue") = false ->
     ProxyWrapper.applyClosure Scenario.application Scenario.manager standIn []
     = ([],
        ProxyWrapper.getProperty Scenario.application Scenario.manager
          (JsValue.VLib (JsValue.ProxyWrapper JsValue.Plain (JsValue.VHostObj 0)
                           "m" config))
          (JsValue.KString "brightness"))).
Proof.
  exact (unrecognised_stand_in_returns_the_rule Scenario.application
           Scenario.manager (JsValue.VHostObj 0) "m"
           (JsValue.VObj [("returnValue", JsValue.VNum 5)]) "brightness" []
           eq_refl eq_refl).
Defined.

(** The configuration of the wrapper does not reach the stand-in: with
    [returnValue: 5] the call returns [null], and the read through the
    wrapper of the runtime resolver returns 5. *)
Remark stand_in_ignores_the_configuration :
  let config := JsValue.VObj [("returnValue", JsValue.VNum 5)] in
  ProxyWrapper.applyClosure Scenario.application Scenario.manager
    (JsValue.SafePropertyProxy "m" "brightness") []
  = ([], Js.Return JsValue.VNull) /\
  ProxyWrapper.getProperty Scenario.application Scenario.manager
    (JsValue.VLib (JsValue.ProxyWrapper JsValue.Plain (JsValue.VHostObj 0)
                     "m" config))
    (JsValue.KString "brightness")
  = Js.Return (JsValue.VNum 5).
Proof. cbn zeta. split; vm_compute; reflexivity. Qed.

Lemma stand_in_chain_is_readable_witness :
  exists m p,
    Chain.readPath Scenario.application Scenario.manager
      (JsValue.VLib (JsValue.SafePropertyProxy "m" "settings"))
      ["display"; "brightness"]
    = Js.Return (JsValue.VLib (JsValue.SafePropertyProxy m p)) /\
    ProxyWrapper.dotted m p
    = Chain.dottedPath (ProxyWrapper.dotted "m" "settings")
        ["display"; "brightness"] /\
    exists v,
      ProxyWrapper.applyClosure Scenario.application Scenario.manager
        (JsValue.SafePropertyProxy m p) []
      = ([], Js.Return v).
Proof.
  apply (stand_in_chain_is_readable Scenario.application Scenario.manager
           "m" "settings" ["display"; "brightness"] []);
    [reflexivity | repeat constructor].
Defined.

Lemma event_emitter_stand_in_witness :
  exists emitter listener subscription remove unsubscribe,
    ProxyWrapper.getProperty Scenario.application Scenario.manager
      Scenario.wrappedModule (JsValue.KString "PushEvents")
    = Js.Return emitter /\
    ProxyWrapper.getProperty Scenario.application Scenario.manager emitter
      (JsValue.KString "addListener") = Js.Return (JsValue.VLib listener) /\
    ProxyWrapper.applyClosure Scenario.application Scenario.manager listener []
    = ([], Js.Return subscription) /\
    ProxyWrapper.getProperty Scenario.application Scenario.manager subscription
      (JsValue.KString "remove") = Js.Return (JsValue.VLib remove) /\
    ProxyWrapper.applyClosure Scenario.application Scenario.manager remove []
    = ([], Js.Return JsValue.VUndefined) /\
    ProxyWrapper.getProperty Scenario.application Scenario.manager emitter
      (JsValue.KString "removeListener") = Js.Return (JsValue.VLib unsubscribe) /\
    ProxyWrapper.applyClosure Scenario.application Scenario.manager unsubscribe []
    = ([], Js.Return JsValue.VUndefined).
Proof.
  apply (event_emitter_stand_in Scenario.application Scenario.manager
           (JsValue.VHostObj 0) "m" (JsValue.VObj []) "PushEvents" "addListener"
           []);
    [reflexivity | reflexivity | left; reflexivity | reflexivity].
Defined.

Lemma first_detection_decides_for_all_witness :
  let ops :=
    [Lifecycle.Resolve Scenario.device "a" (JsValue.VHostObj 1);
     Lifecycle.Resolve Scenario.browser "b" (JsValue.VHostObj 2)] in
  exists platform,
    RuntimeResolver.cachedPlatform
      (snd (Lifecycle.run ops Scenario.resolverConfig RuntimeResolver.initial))
    = Some platform /\
    platform <> "web".
Proof.
  apply (first_detection_decides_for_all
           [Lifecycle.Resolve Scenario.device "a" (JsValue.VHostObj 1);
            Lifecycle.Resolve Scenario.browser "b" (JsValue.VHostObj 2)]
           Scenario.resolverConfig "b"
           (RuntimeResolver.Unwrapped (JsValue.VHostObj 2))).
  reflexivity.
Defined.

Lemma cached_proxy_belongs_to_its_name_witness :
  let ops :=
    [Lifecycle.Resolve Scenario.browser "a" (JsValue.VHostObj 1);
     Lifecycle.Resolve Scenario.browser "b" (JsValue.VHostObj 2)] in
  let st :=
    snd (Lifecycle.run ops Scenario.resolverConfig RuntimeResolver.initial) in
  (exists proxy,
     RuntimeResolver.proxies st !! 1 = Some proxy /\
     Lifecycle.proxyOf "b" proxy = true) /\
  (forall other,
     RuntimeResolver.moduleCache st !! other = Some (RuntimeResolver.Wrapped 1) ->
     other = "b").
Proof.
  apply (cached_proxy_belongs_to_its_name
           [Lifecycle.Resolve Scenario.browser "a" (JsValue.VHostObj 1);
            Lifecycle.Resolve Scenario.browser "b" (JsValue.VHostObj 2)]
           Scenario.resolverConfig "b" 1).
  reflexivity.
Defined.

Lemma updateConfig_clears_modules_keeps_platform_witness :
  let st :=
    snd (RuntimeResolver.resolve Scenario.device Scenario.resolverConfig
           RuntimeResolver.initial "m" (JsValue.VHostObj 1)) in
  let newConfig :=
    {| Lifecycle.newModules := None; Lifecycle.newFallbacks := None |} in
  RuntimeResolver.moduleCache
    (snd (Lifecycle.updateConfig newConfig Scenario.resolverConfig st)) = ∅ /\
  fst (RuntimeResolver.resolve Scenario.browser
         (fst (Lifecycle.updateConfig newConfig Scenario.resolverConfig st))
         (snd (Lifecycle.updateConfig newConfig Scenario.resolverConfig st))
         "m" (JsValue.VHostObj 2))
  = Js.Return (RuntimeResolver.Unwrapped (JsValue.VHostObj 2)).
Proof.
  apply (updateConfig_clears_modules_keeps_platform
           {| Lifecycle.newModules := None; Lifecycle.newFallbacks := None |}
           Scenario.resolverConfig
           (snd (RuntimeResolver.resolve Scenario.device Scenario.resolverConfig
                   RuntimeResolver.initial "m" (JsValue.VHostObj 1)))
           "ios" Scenario.browser "m" (JsValue.VHostObj 2)).
  reflexivity.
Defined.
